(** * AniMate: activity tracking and notification scheduling

    A shallow embedding of the service worker of the AniMate browser
    extension (src/background/service-worker.js) together with the parts
    of src/utils/config.js, src/api/anthropic.js and
    src/api/google-calendar.js it relies on, and the properties of its
    session tracker, daily aggregator, classification cache, notification
    scheduler and stale-tolerant remote cache.

    Conventions of the embedding.
    - JavaScript numbers that hold millisecond timestamps, durations and
      minute counts are integers in [Z], and their sums and differences
      are exact.  The one quotient the code computes, for the goal
      progress, is evaluated in IEEE 754 binary64 as the code does.
    - IndexedDB object stores keyed by a string are [gmap string _]; the
      auto-increment store browsing_sessions is a list in key order.
    - Every handler reads the wall clock once per invocation; the reading
      is a [Clock.t] supplied by the environment.
    - Remote collaborators (HTTP fetches, the AI classifier) are given by
      their outcome; every invocation is recorded in the result so that
      "the fetcher was not called" is a statement about that record. *)

From Stdlib Require Import ZArith Ascii String SpecFloat.
From stdpp Require Import base gmap strings list.

#[local] Open Scope string_scope.
#[local] Open Scope list_scope.
#[local] Open Scope Z_scope.

(** ** JavaScript values stored in the settings store *)

Module Js.

Inductive value :=
| VUndefined
| VNull
| VBool (b : bool)
| VNum (n : Z)
| VStr (s : string)
| VList (l : list string).

(** ToBoolean. *)
Definition truthy (v : value) : bool :=
  match v with
  | VUndefined | VNull => false
  | VBool b => b
  | VNum n => negb (n =? 0)
  | VStr s => negb (String.eqb s "")
  | VList _ => true
  end.

(** [v || d] for a numeric default [d], read as a number afterwards.
    Numeric settings are written as numbers by the options page; a
    stored value of another type that is truthy is outside the model
    and reads as the default. *)
Definition num_or (v : value) (d : Z) : Z :=
  match v with
  | VNum n => if n =? 0 then d else n
  | _ => d
  end.

(** [v === false]. *)
Definition is_false (v : value) : bool :=
  match v with
  | VBool false => true
  | _ => false
  end.

(** *** Numbers in arithmetic that is not exact

    A JavaScript number is an IEEE 754 binary64 value; division and
    multiplication round to nearest, ties to even. *)
Definition number : Type := spec_float.

Definition prec : Z := 53.
Definition emax : Z := 1024.

(** The number that holds an integer (the integer itself below 2^53
    in magnitude). *)
Definition of_int (n : Z) : number := binary_normalize prec emax n 0 false.

Definition div (x y : number) : number := SFdiv prec emax x y.
Definition mul (x y : number) : number := SFmul prec emax x y.

(** Math.round of a finite number: the nearest integer, a half going
    towards plus infinity.  A number [m * 2^e] with [e < 0] is
    [m / 2^(-e)], and floor (x + 1/2) = floor ((2 m + 2^(-e)) / 2^(1-e)).
    NaN and the infinities are no integers ([None]). *)
Definition round (x : number) : option Z :=
  match x with
  | S754_zero _ => Some 0
  | S754_finite s m e =>
      let n := if s then Z.neg m else Z.pos m in
      Some (if 0 <=? e then n * 2 ^ e else (2 * n + 2 ^ (- e)) / 2 ^ (1 - e))
  | S754_infinity _ | S754_nan => None
  end.


End Js.

(** ** src/utils/config.js *)

Module Config.
Import Js.

Definition DEFAULT_CONFIG : gmap string value :=
  list_to_map
    [ ("retentionDays", VNum 30);
      ("autoExport", VBool true);
      ("exportFrequency", VStr "weekly");
      ("excludedDomains",
       VList [ "accounts.google.com"; "login.microsoftonline.com"; "auth0.com";
               "okta.com"; "login.okta.com" ]);
      ("excludedPaths",
       VList [ "/login"; "/signin"; "/auth"; "/oauth"; "/saml"; "/sso";
               "/callback"; "/2fa"; "/mfa" ]);
      ("dailyFocusGoalMinutes", VNum 240);
      ("distractionAlertMinutes", VNum 60);
      ("enableDistractionAlerts", VBool true);
      ("tabWarningThreshold", VNum 20);
      ("enableTabWarnings", VBool true);
      ("autoSnapshotMinutes", VNum 60);
      ("clipboardContextChars", VNum 500);
      ("detectCodeSnippets", VBool true);
      ("aiProvider", VStr "anthropic");
      ("aiModel", VStr "claude-3-haiku-20240307");
      ("aiEnabled", VBool true);
      ("monthlyAiBudgetCents", VNum 1000);
      ("batchClassificationIntervalMinutes", VNum 5);
      ("vipEmailSenders", VList []);
      ("weatherLocation", VNull);
      ("enableMorningBriefing", VBool true);
      ("morningBriefingHour", VNum 9);
      ("enableStartNudges", VBool true);
      ("readyCheckHour", VNum 10);
      ("enableEndOfDaySummary", VBool true);
      ("endOfDayHour", VNum 18);
      ("enableMeetingAwareness", VBool true);
      ("meetingWarningMinutes", VNum 5);
      ("theme", VStr "dark");
      ("popupWidth", VNum 400);
      ("popupHeight", VNum 500) ].

Definition KNOWN_PRODUCTIVE : gset string :=
  list_to_set
    [ "github.com"; "gitlab.com"; "bitbucket.org"; "stackoverflow.com";
      "developer.mozilla.org"; "docs.google.com"; "notion.so";
      "linear.app"; "jira.atlassian.com"; "trello.com"; "asana.com";
      "figma.com"; "vercel.com"; "netlify.com"; "aws.amazon.com";
      "console.cloud.google.com"; "portal.azure.com"; "claude.ai";
      "chat.openai.com"; "localhost" ].

Definition KNOWN_DISTRACTIONS : gset string :=
  list_to_set
    [ "twitter.com"; "x.com"; "facebook.com"; "instagram.com";
      "reddit.com"; "youtube.com"; "tiktok.com"; "netflix.com";
      "twitch.tv"; "discord.com"; "hulu.com"; "disneyplus.com";
      "primevideo.com"; "9gag.com"; "buzzfeed.com" ].

(** getSetting: the stored record's value, else the default, else
    undefined. *)
Definition getSetting (settings : gmap string value) (key : string) : value :=
  match settings !! key with
  | Some v => v
  | None =>
      match DEFAULT_CONFIG !! key with
      | Some v => v
      | None => VUndefined
      end
  end.

End Config.

(** ** src/utils/config.js: the operations on the settings store

    The operations are stated over any type of values and any table of
    defaults, DEFAULT_CONFIG being one such table; the storage calls are
    assumed not to fail. *)

Module Settings.
Section Store.
Context {V : Type}.

(** getSetting: the stored value, else the default, else undefined
    ([None]). *)
Definition getSetting (defaults settings : gmap string V) (key : string) : option V :=
  match settings !! key with
  | Some v => Some v
  | None => defaults !! key
  end.

(** setSetting: db.put("settings", { key, value }). *)
Definition setSetting (key : string) (value : V) (settings : gmap string V)
  : gmap string V :=
  <[key := value]> settings.

(** resetSettings: db.clear("settings"). *)
Definition resetSettings (settings : gmap string V) : gmap string V := ∅.

(** initializeSettings: for each entry of the defaults, put it when
    the store has no record under the key. *)
Definition initializeSettings (defaults settings : gmap string V) : gmap string V :=
  foldl (fun s kv => match s !! kv.1 with
                     | None => <[kv.1 := kv.2]> s
                     | Some _ => s
                     end)
        settings (map_to_list defaults).

(** getAllSettings: a copy of the defaults, overwritten by every
    stored record. *)
Definition getAllSettings (defaults settings : gmap string V) : gmap string V :=
  foldl (fun o kv => <[kv.1 := kv.2]> o) defaults (map_to_list settings).
End Store.
End Settings.


(** ** Records of the object stores (src/storage/schemas.js) *)

Module Session.
Record t := mk {
  url : string;
  domain : string;
  title : string;
  startTime : Z;
  endTime : Z;
  duration : Z;
  date : string;
  classification : string;
  expiresAt : Z
}.
End Session.

Module ClassRecord.
(** confidence is carried in hundredths; it is never inspected. *)
Record t := mk {
  domain : string;
  classification : string;
  confidence : Z;
  reason : string;
  classifiedAt : Z;
  source : string
}.
End ClassRecord.

Module DomainStat.
Record t := mk {
  domain : string;
  duration : Z;
  classification : string
}.
End DomainStat.

Module Stats.
Record t := mk {
  date : string;
  totalTime : Z;
  productiveTime : Z;
  distractionTime : Z;
  neutralTime : Z;
  topDomains : list DomainStat.t;
  goalProgress : Z;
  sessionCount : nat;
  updatedAt : Z
}.
End Stats.

Module CacheEntry.
(** A record of external_cache.  The calendar path stores no
    expiresAt. *)
Record t (A : Type) := mk {
  data : A;
  fetchedAt : Z;
  expiresAt : option Z
}.
Arguments mk {A}.
Arguments data {A}.
Arguments fetchedAt {A}.
Arguments expiresAt {A}.
End CacheEntry.

Module CalEvent.
(** An event as getTodaysEvents maps it; [start] is
    [new Date(event.start).getTime()]. *)
Record t := mk {
  id : string;
  title : string;
  start : Z
}.
End CalEvent.

Module Weather.
(** The fields of the dashboard weather payload that are read. *)
Record t := mk {
  temp : Z;
  condition : string;
  fetchedAt : Z
}.
End Weather.

Module Clock.
(** One reading of the wall clock: Date.now(), the UTC date key
    toISOString().slice(0, 10), and the local getHours()/getMinutes(). *)
Record t := mk {
  now : Z;
  today : string;
  hours : Z;
  minutes : Z
}.
End Clock.

(** ** The database *)

Module Db.
(** external_cache holds one record per constant key; each key is
    written by one fetch path only, so each slot has its payload type. *)
Record t := mk {
  browsing_sessions : list Session.t;
  domain_classifications : gmap string ClassRecord.t;
  daily_stats : gmap string Stats.t;
  settings : gmap string Js.value;
  cache_weather : option (CacheEntry.t Weather.t);
  cache_github : option (CacheEntry.t string);
  cache_calendar : option (CacheEntry.t (list CalEvent.t))
}.

Definition empty : t :=
  mk [] ∅ ∅ ∅ None None None.

Definition with_sessions (l : list Session.t) (d : t) : t :=
  mk l (domain_classifications d) (daily_stats d) (settings d)
     (cache_weather d) (cache_github d) (cache_calendar d).

Definition with_classifications (m : gmap string ClassRecord.t) (d : t) : t :=
  mk (browsing_sessions d) m (daily_stats d) (settings d)
     (cache_weather d) (cache_github d) (cache_calendar d).

Definition with_stats (m : gmap string Stats.t) (d : t) : t :=
  mk (browsing_sessions d) (domain_classifications d) m (settings d)
     (cache_weather d) (cache_github d) (cache_calendar d).

Definition with_settings (m : gmap string Js.value) (d : t) : t :=
  mk (browsing_sessions d) (domain_classifications d) (daily_stats d) m
     (cache_weather d) (cache_github d) (cache_calendar d).

Definition with_weather (c : option (CacheEntry.t Weather.t)) (d : t) : t :=
  mk (browsing_sessions d) (domain_classifications d) (daily_stats d)
     (settings d) c (cache_github d) (cache_calendar d).

Definition with_github (c : option (CacheEntry.t string)) (d : t) : t :=
  mk (browsing_sessions d) (domain_classifications d) (daily_stats d)
     (settings d) (cache_weather d) c (cache_calendar d).

Definition with_calendar (c : option (CacheEntry.t (list CalEvent.t))) (d : t) : t :=
  mk (browsing_sessions d) (domain_classifications d) (daily_stats d)
     (settings d) (cache_weather d) (cache_github d) c.

(** db.getAllFromIndex("browsing_sessions", "by_date", day): the
    records of that day in primary key order. *)
Definition sessions_by_date (d : t) (day : string) : list Session.t :=
  filter (fun s => Session.date s = day) (browsing_sessions d).

Definition config_get (d : t) (key : string) : Js.value :=
  Config.getSetting (settings d) key.

End Db.

(** ** Daily aggregator: aggregateDailyStats *)

Module Aggregator.

Record acc := mkAcc {
  totalTime : Z;
  productiveTime : Z;
  distractionTime : Z;
  neutralTime : Z;
  domainMap : list DomainStat.t
}.

Definition acc0 : acc := mkAcc 0 0 0 0 [].

(** The classification a session is folded under: its own stamp unless
    that is "unclassified" (or empty), else the cached record's, else
    "unclassified". *)
Definition resolve (dc : gmap string ClassRecord.t) (s : Session.t) : string :=
  let c := if String.eqb (Session.classification s) ""
           then "unclassified" else Session.classification s in
  if String.eqb c "unclassified" then
    match dc !! Session.domain s with
    | Some r => ClassRecord.classification r
    | None => c
    end
  else c.

(** domainMap.get(domain) || { duration: 0, classification }, then
    duration += d and set; a Map keeps insertion order. *)
Fixpoint domainMap_add (m : list DomainStat.t) (dom : string) (d : Z) (c : string)
  : list DomainStat.t :=
  match m with
  | [] => [DomainStat.mk dom (0 + d) c]
  | e :: m' =>
      if String.eqb (DomainStat.domain e) dom
      then DomainStat.mk dom (DomainStat.duration e + d) (DomainStat.classification e) :: m'
      else e :: domainMap_add m' dom d c
  end.

Definition step (dc : gmap string ClassRecord.t) (a : acc) (s : Session.t) : acc :=
  let d := Session.duration s in
  let c := resolve dc s in
  let m := domainMap_add (domainMap a) (Session.domain s) d c in
  if String.eqb c "productive" then
    mkAcc (totalTime a + d) (productiveTime a + d) (distractionTime a) (neutralTime a) m
  else if String.eqb c "distraction" then
    mkAcc (totalTime a + d) (productiveTime a) (distractionTime a + d) (neutralTime a) m
  else
    mkAcc (totalTime a + d) (productiveTime a) (distractionTime a) (neutralTime a + d) m.

(** Array.prototype.sort with (a, b) => b.duration - a.duration: a
    stable sort by descending duration. *)
Fixpoint insert_desc (x : DomainStat.t) (l : list DomainStat.t) : list DomainStat.t :=
  match l with
  | [] => [x]
  | y :: l' =>
      if DomainStat.duration x <? DomainStat.duration y
      then y :: insert_desc x l'
      else x :: y :: l'
  end.

Definition sort_desc (l : list DomainStat.t) : list DomainStat.t :=
  foldr insert_desc [] l.

Definition goalMinutes (d : Db.t) : Z :=
  Js.num_or (Db.config_get d "focusGoalMinutes") 240.

(** Math.min(Math.round((productiveTime / (goalMinutes * 60000)) * 100), 100),
    the quotient and the product in binary64.  With a goal other than 0
    and operands in the double range the product is finite.  Of the
    other outcomes plus infinity gives 100; NaN and minus infinity,
    which the code would store as they are, are no integer percentage
    and read as 0. *)
Definition goalProgress_of (productive goal_minutes : Z) : Z :=
  let percent :=
    Js.mul (Js.div (Js.of_int productive) (Js.of_int (goal_minutes * 60000)))
           (Js.of_int 100) in
  match Js.round percent with
  | Some k => Z.min k 100
  | None =>
      match percent with
      | S754_infinity false => 100
      | _ => 0
      end
  end.

Definition snapshot (d : Db.t) (c : Clock.t) : Stats.t :=
  let sessions := Db.sessions_by_date d (Clock.today c) in
  let a := foldl (step (Db.domain_classifications d)) acc0 sessions in
  Stats.mk (Clock.today c)
           (totalTime a) (productiveTime a) (distractionTime a) (neutralTime a)
           (take 20 (sort_desc (domainMap a)))
           (goalProgress_of (productiveTime a) (goalMinutes d))
           (length sessions)
           (Clock.now c).

(** db.put("daily_stats", stats): keyed by date. *)
Definition aggregateDailyStats (d : Db.t) (c : Clock.t) : Db.t :=
  let s := snapshot d c in
  Db.with_stats (<[Stats.date s := s]> (Db.daily_stats d)) d.

End Aggregator.

(** ** Outcomes of fallible calls *)

Module Res.
(** A call either returns a value or throws an Error with a message. *)
Inductive t (A : Type) :=
| Ok (a : A)
| Err (msg : string).
Arguments Ok {A}.
Arguments Err {A}.

(** safeCall: null on error. *)
Definition safeCall {A} (r : t A) : option A :=
  match r with
  | Ok a => Some a
  | Err _ => None
  end.
End Res.

(** ** The environment of one invocation *)

Module ClassItem.
(** One entry of the classifier's parsed JSON answer. *)
Record t := mk {
  domain : string;
  classification : string;
  confidence : Z;
  reason : string
}.
End ClassItem.

Module Env.
(** What the collaborators answer when they are called during one
    invocation: the clock, weather.getDashboardWeather(), the calendar
    and GitHub fetches, the classifier request for a given batch (its
    parsed classifications, or an error), and the URL parser
    ([new URL(url).hostname], [None] when it throws). *)
Record t := mk {
  clock : Clock.t;
  weather_fetch : Res.t Weather.t;
  github_fetch : Res.t string;
  calendar_fetch : Res.t (list CalEvent.t);
  ai_request : list string -> Res.t (list ClassItem.t);
  url_hostname : string -> option string
}.
End Env.

(** ** Classification cache: src/api/anthropic.js and the batch job *)

Module Classifier.

Definition isAIEnabled (d : Db.t) : bool :=
  Js.truthy (Db.config_get d "aiEnabled") && Js.truthy (Db.config_get d "anthropicApiKey").

(** What classifyDomains returns: the empty array for no input, else
    the object holding the parsed classifications. *)
Inductive answer :=
| NoDomains
| Classified (classifications : list ClassItem.t).

(** classifyDomains: at most the first 20 domains go into the one
    request.  The second component lists the requests issued. *)
Definition classifyDomains (env : Env.t) (domains : list string)
  : Res.t answer * list (list string) :=
  match domains with
  | [] => (Res.Ok NoDomains, [])
  | _ =>
      let batch := take 20 domains in
      match Env.ai_request env batch with
      | Res.Ok items => (Res.Ok (Classified items), [batch])
      | Res.Err msg => (Res.Err msg, [batch])
      end
  end.

(** Set.prototype.add on an insertion ordered Set. *)
Definition set_add (x : string) (l : list string) : list string :=
  if bool_decide (x ∈ l) then l else l ++ [x].

(** The domains of the day's sessions stamped "unclassified" that have
    no cached record. *)
Definition uncached (d : Db.t) (sessions : list Session.t) : list string :=
  foldl (fun acc s =>
           if String.eqb (Session.classification s) "unclassified" then
             match Db.domain_classifications d !! Session.domain s with
             | Some _ => acc
             | None => set_add (Session.domain s) acc
             end
           else acc)
        [] sessions.

Definition put_ai (now : Z) (d : Db.t) (item : ClassItem.t) : Db.t :=
  Db.with_classifications
    (<[ClassItem.domain item :=
         ClassRecord.mk (ClassItem.domain item) (ClassItem.classification item)
                        (ClassItem.confidence item) (ClassItem.reason item)
                        now "ai"]> (Db.domain_classifications d)) d.

(** batchClassifyDomains: one request per run for the first 20
    uncached domains; on failure the error is logged and nothing is
    written. *)
Definition batchClassifyDomains (d : Db.t) (env : Env.t) : Db.t * list (list string) :=
  if negb (isAIEnabled d) then (d, [])
  else
    let c := Env.clock env in
    let sessions := Db.sessions_by_date d (Clock.today c) in
    match uncached d sessions with
    | [] => (d, [])
    | u =>
        let domainsToClassify := take 20 u in
        match classifyDomains env domainsToClassify with
        | (Res.Ok (Classified items), reqs) =>
            let d' := foldl (put_ai (Clock.now c)) d items in
            (Aggregator.aggregateDailyStats d' c, reqs)
        | (_, reqs) => (d, reqs)
        end
    end.

(** The record pushed for an uncached domain when the request fails in
    the CLASSIFY_DOMAIN handler (no reason, no classifiedAt). *)
Definition fallback (dom : string) : ClassRecord.t :=
  ClassRecord.mk dom "neutral" 0 "" 0 "fallback".

Definition split_cached (d : Db.t) (domains : list string)
  : list ClassRecord.t * list string :=
  foldl (fun '(results, unc) dom =>
           match Db.domain_classifications d !! dom with
           | Some r => (results ++ [r], unc)
           | None => (results, unc ++ [dom])
           end)
        ([], []) domains.

Definition record_of (now : Z) (item : ClassItem.t) : ClassRecord.t :=
  ClassRecord.mk (ClassItem.domain item) (ClassItem.classification item)
                 (ClassItem.confidence item) (ClassItem.reason item) now "ai".

(** The CLASSIFY_DOMAIN message handler: results, database, requests. *)
Definition handleClassifyDomain (d : Db.t) (env : Env.t) (domains : list string)
  : list ClassRecord.t * Db.t * list (list string) :=
  match domains with
  | [] => ([], d, [])
  | _ =>
      let '(results, unc) := split_cached d domains in
      match unc with
      | [] => (results, d, [])
      | _ =>
          if isAIEnabled d then
            let now := Clock.now (Env.clock env) in
            match classifyDomains env unc with
            | (Res.Ok (Classified items), reqs) =>
                (results ++ map (record_of now) items, foldl (put_ai now) d items, reqs)
            | (_, reqs) => (results ++ map fallback unc, d, reqs)
            end
          else (results, d, [])
      end
  end.

End Classifier.

(** ** Stale-tolerant remote cache *)

Module Remote.

(** The value handed back: the payload and whether the returned object
    carries [stale: true]. *)
Record returned (A : Type) := mkReturned {
  payload : A;
  stale : bool
}.
Arguments mkReturned {A}.
Arguments payload {A}.
Arguments stale {A}.

Record outcome (A : Type) := mkOutcome {
  value : Res.t (returned A);
  db : Db.t;
  fetcher_called : bool
}.
Arguments mkOutcome {A}.
Arguments value {A}.
Arguments db {A}.
Arguments fetcher_called {A}.

Definition fresh {A} (ttl now : Z) (cached : option (CacheEntry.t A)) : option A :=
  match cached with
  | Some e => if now - CacheEntry.fetchedAt e <? ttl then Some (CacheEntry.data e) else None
  | None => None
  end.

Definition day_ms : Z := 24 * 60 * 60 * 1000.

(** The GET_WEATHER handler: 15 minute TTL; on a failed fetch the
    cached data is spread into a new object with stale: true. *)
Definition handleGetWeather (d : Db.t) (env : Env.t) : outcome Weather.t :=
  let now := Clock.now (Env.clock env) in
  let cached := Db.cache_weather d in
  match fresh (15 * 60 * 1000) now cached with
  | Some data => mkOutcome (Res.Ok (mkReturned data false)) d false
  | None =>
      match Env.weather_fetch env with
      | Res.Ok data =>
          mkOutcome (Res.Ok (mkReturned data false))
                    (Db.with_weather (Some (CacheEntry.mk data now (Some (now + day_ms)))) d)
                    true
      | Res.Err msg =>
          match cached with
          | Some e => mkOutcome (Res.Ok (mkReturned (CacheEntry.data e) true)) d true
          | None => mkOutcome (Res.Err msg) d true
          end
      end
  end.

(** The GET_GITHUB_REPOS handler: the same with a 5 minute TTL. *)
Definition handleGetGithubRepos (d : Db.t) (env : Env.t) : outcome string :=
  let now := Clock.now (Env.clock env) in
  let cached := Db.cache_github d in
  match fresh (5 * 60 * 1000) now cached with
  | Some data => mkOutcome (Res.Ok (mkReturned data false)) d false
  | None =>
      match Env.github_fetch env with
      | Res.Ok data =>
          mkOutcome (Res.Ok (mkReturned data false))
                    (Db.with_github (Some (CacheEntry.mk data now (Some (now + day_ms)))) d)
                    true
      | Res.Err msg =>
          match cached with
          | Some e => mkOutcome (Res.Ok (mkReturned (CacheEntry.data e) true)) d true
          | None => mkOutcome (Res.Err msg) d true
          end
      end
  end.

Definition CACHE_TTL : Z := 5 * 60 * 1000.

(** calendar.getTodaysEvents: on a failed fetch the cached array itself
    is returned. *)
Definition getTodaysEvents (d : Db.t) (env : Env.t) : outcome (list CalEvent.t) :=
  let now := Clock.now (Env.clock env) in
  let cached := Db.cache_calendar d in
  match fresh CACHE_TTL now cached with
  | Some data => mkOutcome (Res.Ok (mkReturned data false)) d false
  | None =>
      match Env.calendar_fetch env with
      | Res.Ok events =>
          mkOutcome (Res.Ok (mkReturned events false))
                    (Db.with_calendar (Some (CacheEntry.mk events now None)) d)
                    true
      | Res.Err msg =>
          match cached with
          | Some e => mkOutcome (Res.Ok (mkReturned (CacheEntry.data e) false)) d true
          | None => mkOutcome (Res.Err msg) d true
          end
      end
  end.

(** safeCall(() => calendar.getTodaysEvents()) as the scheduler uses it. *)
Definition safeTodaysEvents (d : Db.t) (env : Env.t) : option (list CalEvent.t) * Db.t :=
  let o := getTodaysEvents d env in
  (payload <$> Res.safeCall (value o), db o).

End Remote.

(** ** In-memory state of the service worker *)

Module DailyState.
(** dailyState; [date] is null until the first reset. *)
Record t := mk {
  date : option string;
  morningBriefingSent : bool;
  readyNudgeSent : bool;
  firstProductiveCelebrated : bool;
  lastDistractionAlert : Z;
  oneHourCelebrated : bool;
  goalCelebrated : bool
}.

Definition initial : t := mk None false false false 0 false false.

Definition cleared (today : string) : t := mk (Some today) false false false 0 false false.

Definition set_morningBriefingSent (s : t) : t :=
  mk (date s) true (readyNudgeSent s) (firstProductiveCelebrated s)
     (lastDistractionAlert s) (oneHourCelebrated s) (goalCelebrated s).

Definition set_readyNudgeSent (s : t) : t :=
  mk (date s) (morningBriefingSent s) true (firstProductiveCelebrated s)
     (lastDistractionAlert s) (oneHourCelebrated s) (goalCelebrated s).

Definition set_firstProductiveCelebrated (s : t) : t :=
  mk (date s) (morningBriefingSent s) (readyNudgeSent s) true
     (lastDistractionAlert s) (oneHourCelebrated s) (goalCelebrated s).

Definition set_lastDistractionAlert (now : Z) (s : t) : t :=
  mk (date s) (morningBriefingSent s) (readyNudgeSent s) (firstProductiveCelebrated s)
     now (oneHourCelebrated s) (goalCelebrated s).

Definition set_oneHourCelebrated (s : t) : t :=
  mk (date s) (morningBriefingSent s) (readyNudgeSent s) (firstProductiveCelebrated s)
     (lastDistractionAlert s) true (goalCelebrated s).

Definition set_goalCelebrated (s : t) : t :=
  mk (date s) (morningBriefingSent s) (readyNudgeSent s) (firstProductiveCelebrated s)
     (lastDistractionAlert s) (oneHourCelebrated s) true.

(** resetDailyStateIfNeeded. *)
Definition resetDailyStateIfNeeded (s : t) (today : string) : t :=
  if bool_decide (date s = Some today) then s else cleared today.
End DailyState.

Module TabState.
(** activeTabState: the open session. *)
Record t := mk {
  url : string;
  domain : string;
  title : string;
  startTime : Z;
  date : string;
  classification : string;
  expiresAt : Z
}.

Definition with_startTime (now : Z) (s : t) : t :=
  mk (url s) (domain s) (title s) now (date s) (classification s) (expiresAt s).

(** { ...activeTabState, endTime: now, duration }. *)
Definition to_session (s : t) (now duration : Z) : Session.t :=
  Session.mk (url s) (domain s) (title s) (startTime s) now duration
             (date s) (classification s) (expiresAt s).
End TabState.

Module Tab.
(** A browser tab; [url] is empty when the tab has none. *)
Record t := mk {
  url : string;
  title : string
}.
End Tab.

Module Notif.
(** The notifications, named by the id passed to
    chrome.notifications.create; the message text is not modelled. *)
Inductive t :=
| morning_briefing
| ready_nudge
| first_productive
| milestone_1hr
| milestone_goal
| distraction_alert
| end_of_day
| meeting (id : string).

#[global] Instance eq_dec : EqDecision t.
Proof. solve_decision. Defined.

(** The rules with a once-per-day policy. *)
Definition daily_once (n : t) : bool :=
  match n with
  | distraction_alert | meeting _ => false
  | _ => true
  end.
End Notif.

Module World.
Record t := mk {
  db : Db.t;
  dailyState : DailyState.t;
  notifiedMeetings : gset string;
  activeTabState : option TabState.t
}.

Definition initial (d : Db.t) : t := mk d DailyState.initial ∅ None.

Definition with_db (d : Db.t) (w : t) : t :=
  mk d (dailyState w) (notifiedMeetings w) (activeTabState w).
Definition with_dailyState (s : DailyState.t) (w : t) : t :=
  mk (db w) s (notifiedMeetings w) (activeTabState w).
Definition with_notifiedMeetings (n : gset string) (w : t) : t :=
  mk (db w) (dailyState w) n (activeTabState w).
Definition with_activeTabState (a : option TabState.t) (w : t) : t :=
  mk (db w) (dailyState w) (notifiedMeetings w) a.

(** The call of resetDailyStateIfNeeded that opens a rule check. *)
Definition reset (w : t) (c : Clock.t) : t :=
  with_dailyState (DailyState.resetDailyStateIfNeeded (dailyState w) (Clock.today c)) w.
End World.

(** An action of the service worker: the new state and the notifications
    it created, in order. *)
Definition action : Type := World.t -> Env.t -> World.t * list Notif.t.

Definition and_then (a b : action) : action :=
  fun w env =>
    let '(w1, l1) := a w env in
    let '(w2, l2) := b w1 env in
    (w2, l1 ++ l2).

Infix ">+>" := and_then (at level 61, left associativity).

(** ** Notification scheduler *)

Module Scheduler.

Definition checkMorningBriefing : action := fun w env =>
  let c := Env.clock env in
  let w := World.reset w c in
  let ds := World.dailyState w in
  if DailyState.morningBriefingSent ds then (w, [])
  else if Js.is_false (Db.config_get (World.db w) "enableMorningBriefing") then (w, [])
  else
    let briefingHour := Js.num_or (Db.config_get (World.db w) "morningBriefingHour") 9 in
    if (Clock.hours c =? briefingHour) && (Clock.minutes c <? 2) then
      let w1 := World.with_dailyState (DailyState.set_morningBriefingSent ds) w in
      let '(_, db') := Remote.safeTodaysEvents (World.db w1) env in
      (World.with_db db' w1, [Notif.morning_briefing])
    else (w, []).

Definition checkReadyToStart : action := fun w env =>
  let c := Env.clock env in
  let w := World.reset w c in
  let ds := World.dailyState w in
  if DailyState.readyNudgeSent ds || DailyState.firstProductiveCelebrated ds then (w, [])
  else if Js.is_false (Db.config_get (World.db w) "enableStartNudges") then (w, [])
  else
    let nudgeHour := Js.num_or (Db.config_get (World.db w) "readyCheckHour") 10 in
    if (Clock.hours c =? nudgeHour) && (Clock.minutes c <? 2) then
      let quiet :=
        match Db.daily_stats (World.db w) !! Clock.today c with
        | Some stats => Stats.productiveTime stats <? 60000
        | None => true
        end in
      if quiet then
        let w1 := World.with_dailyState (DailyState.set_readyNudgeSent ds) w in
        let '(_, db') := Remote.safeTodaysEvents (World.db w1) env in
        (World.with_db db' w1, [Notif.ready_nudge])
      else (w, [])
    else (w, []).

(** The durable marker of the end-of-day summary. *)
Definition summaryKey (today : string) : string := "eod_" +:+ today.

Definition checkEndOfDay : action := fun w env =>
  let c := Env.clock env in
  let d := World.db w in
  if Js.is_false (Db.config_get d "enableEndOfDaySummary") then (w, [])
  else
    let summaryHour := Js.num_or (Db.config_get d "endOfDayHour") 18 in
    match Db.settings d !! summaryKey (Clock.today c) with
    | Some _ => (w, [])
    | None =>
        if (Clock.hours c =? summaryHour) && (Clock.minutes c <? 2) then
          let d' := Db.with_settings
                      (<[summaryKey (Clock.today c) := Js.VBool true]> (Db.settings d)) d in
          let w' := World.with_db d' w in
          match Db.daily_stats d' !! Clock.today c with
          | Some stats =>
              if 0 <? Stats.productiveTime stats then (w', [Notif.end_of_day]) else (w', [])
          | None => (w', [])
          end
        else (w, [])
    end.

Definition checkProgressMilestones : action := fun w env =>
  let c := Env.clock env in
  let w := World.reset w c in
  match Db.daily_stats (World.db w) !! Clock.today c with
  | None => (w, [])
  | Some stats =>
      let productiveMs := Stats.productiveTime stats in
      let goalMinutes := Js.num_or (Db.config_get (World.db w) "dailyFocusGoalMinutes") 240 in
      let goalMs := goalMinutes * 60 * 1000 in
      let '(w1, l1) :=
        if negb (DailyState.oneHourCelebrated (World.dailyState w)) && (3600000 <=? productiveMs)
        then (World.with_dailyState (DailyState.set_oneHourCelebrated (World.dailyState w)) w,
              [Notif.milestone_1hr])
        else (w, []) in
      let '(w2, l2) :=
        if negb (DailyState.goalCelebrated (World.dailyState w1)) && (goalMs <=? productiveMs)
        then (World.with_dailyState (DailyState.set_goalCelebrated (World.dailyState w1)) w1,
              [Notif.milestone_goal])
        else (w1, []) in
      (w2, l1 ++ l2)
  end.

Definition cooldown : Z := 30 * 60 * 1000.

Definition checkDistractionAlert : action := fun w env =>
  let c := Env.clock env in
  let w := World.reset w c in
  if Js.is_false (Db.config_get (World.db w) "enableDistractionAlerts") then (w, [])
  else
    let now := Clock.now c in
    if now - DailyState.lastDistractionAlert (World.dailyState w) <? cooldown then (w, [])
    else
      match Db.daily_stats (World.db w) !! Clock.today c with
      | None => (w, [])
      | Some stats =>
          let distractionMs := Stats.distractionTime stats in
          let thresholdMinutes :=
            Js.num_or (Db.config_get (World.db w) "distractionAlertMinutes") 60 in
          let thresholdMs := thresholdMinutes * 60 * 1000 in
          if thresholdMs <=? distractionMs then
            (World.with_dailyState
               (DailyState.set_lastDistractionAlert now (World.dailyState w)) w,
             [Notif.distraction_alert])
          else (w, [])
      end.

Definition bufferMs : Z := 60 * 1000.

(** The configured lead, [meetingWarningMinutes || 5], in ms. *)
Definition warningWindowMs (d : Db.t) : Z :=
  Js.num_or (Db.config_get d "meetingWarningMinutes") 5 * 60 * 1000.

Definition in_window (lead now : Z) (e : CalEvent.t) : bool :=
  let timeUntilStart := CalEvent.start e - now in
  (lead - bufferMs <? timeUntilStart) && (timeUntilStart <=? lead + 2 * bufferMs).

(** One turn of the loop over the events. *)
Definition warn_step (lead now : Z) (st : gset string * list Notif.t) (e : CalEvent.t)
  : gset string * list Notif.t :=
  if bool_decide (CalEvent.id e ∈ st.1) then st
  else if in_window lead now e
       then ({[CalEvent.id e]} ∪ st.1, st.2 ++ [Notif.meeting (CalEvent.id e)])
       else st.

Definition warn_loop (lead now : Z) (notified : gset string) (events : list CalEvent.t)
  : gset string * list Notif.t :=
  foldl (warn_step lead now) (notified, []) events.

(** Whether the clean-up loop keeps an id: it is deleted when the
    events hold it and its start is more than one hour in the past. *)
Definition keep (now : Z) (events : list CalEvent.t) (eventId : string) : bool :=
  match List.find (fun e => String.eqb (CalEvent.id e) eventId) events with
  | Some e => negb (60 * 60 * 1000 <? now - CalEvent.start e)
  | None => true
  end.

Definition prune (now : Z) (events : list CalEvent.t) (notified : gset string) : gset string :=
  filter (fun eventId => keep now events eventId = true) notified.

Definition checkMeetingAwareness : action := fun w env =>
  if Js.is_false (Db.config_get (World.db w) "enableMeetingAwareness") then (w, [])
  else
    let '(events, db') := Remote.safeTodaysEvents (World.db w) env in
    let w := World.with_db db' w in
    match events with
    | None | Some [] => (w, [])
    | Some events =>
        let now := Clock.now (Env.clock env) in
        let '(notified, fired) :=
          warn_loop (warningWindowMs (World.db w)) now (World.notifiedMeetings w) events in
        (World.with_notifiedMeetings (prune now events notified) w, fired)
    end.

End Scheduler.

(** ** Session tracker *)

Module Tracker.

Definition startsWith (s p : string) : bool := String.prefix p s.

Definition includes (s pat : string) : bool :=
  match String.index 0 pat s with
  | Some _ => true
  | None => false
  end.

Definition lower_ascii (a : ascii) : ascii :=
  let n := nat_of_ascii a in
  if ((65 <=? n) && (n <=? 90))%nat then ascii_of_nat (n + 32) else a.

(** String.prototype.toLowerCase on the ASCII letters. *)
Fixpoint toLowerCase (s : string) : string :=
  match s with
  | EmptyString => EmptyString
  | String a s' => String (lower_ascii a) (toLowerCase s')
  end.

Definition authPatterns : list string :=
  [ "accounts.google.com"; "login.microsoftonline.com"; "auth0.com";
    "/login"; "/signin"; "/auth"; "/oauth"; "/sso" ].

Definition shouldExclude (url : string) : bool :=
  if String.eqb url "" then true
  else if startsWith url "chrome://" || startsWith url "chrome-extension://" then true
  else if startsWith url "about:" then true
  else
    let urlLower := toLowerCase url in
    existsb (fun pattern => includes urlLower pattern) authPatterns.

Definition extractDomain (env : Env.t) (url : string) : string :=
  match Env.url_hostname env url with
  | Some h => h
  | None => "unknown"
  end.

Definition checkIfProductive (d : Db.t) (domain : string) : bool :=
  if bool_decide (domain ∈ Config.KNOWN_PRODUCTIVE) then true
  else
    match Db.domain_classifications d !! domain with
    | Some cached => String.eqb (ClassRecord.classification cached) "productive"
    | None => false
    end.

Definition put_session (s : Session.t) (d : Db.t) : Db.t :=
  Db.with_sessions (Db.browsing_sessions d ++ [s]) d.

Definition workStartKey (today : string) : string := "work_start_" +:+ today.

Definition celebrateFirstProductiveAction (domain : string) : action := fun w env =>
  let c := Env.clock env in
  let w := World.reset w c in
  if DailyState.firstProductiveCelebrated (World.dailyState w) then (w, [])
  else if negb (checkIfProductive (World.db w) domain) then (w, [])
  else
    let w1 := World.with_dailyState
                (DailyState.set_firstProductiveCelebrated (World.dailyState w)) w in
    let d := World.db w1 in
    let d' := Db.with_settings
                (<[workStartKey (Clock.today c) := Js.VNum (Clock.now c)]> (Db.settings d)) d in
    (World.with_db d' w1, [Notif.first_productive]).

(** The first half of handleTabChange: the previous session is put
    when it lasted more than one second. *)
Definition endPreviousSession (w : World.t) (now : Z) : World.t :=
  match World.activeTabState w with
  | Some st =>
      let duration := now - TabState.startTime st in
      if 1000 <? duration
      then World.with_db (put_session (TabState.to_session st now duration) (World.db w)) w
      else w
  | None => w
  end.

Definition retention : Z := 30 * 24 * 60 * 60 * 1000.

Definition handleTabChange (tab : Tab.t) : action := fun w env =>
  let c := Env.clock env in
  let now := Clock.now c in
  let w := endPreviousSession w now in
  if shouldExclude (Tab.url tab) then (World.with_activeTabState None w, [])
  else
    let domain := extractDomain env (Tab.url tab) in
    let st := TabState.mk (Tab.url tab) domain (Tab.title tab) now (Clock.today c)
                          "unclassified" (now + retention) in
    celebrateFirstProductiveAction domain (World.with_activeTabState (Some st) w) env.

(** The heartbeat flush: a partial record when the session has been
    open for more than five seconds, and the start moves to now. *)
Definition persistActiveSession : action := fun w env =>
  let now := Clock.now (Env.clock env) in
  match World.activeTabState w with
  | None => (w, [])
  | Some st =>
      let duration := now - TabState.startTime st in
      if 5000 <? duration then
        let w1 := World.with_db (put_session (TabState.to_session st now duration) (World.db w)) w in
        (World.with_activeTabState (Some (TabState.with_startTime now st)) w1, [])
      else (w, [])
  end.

End Tracker.

(** ** Alarms and events *)

Module Worker.

Definition aggregateDailyStats : action := fun w env =>
  (World.with_db (Aggregator.aggregateDailyStats (World.db w) (Env.clock env)) w, []).

Definition batchClassifyDomains : action := fun w env =>
  (World.with_db (Classifier.batchClassifyDomains (World.db w) env).1 w, []).

Definition expired {A} (now : Z) (e : CacheEntry.t A) : bool :=
  match CacheEntry.expiresAt e with
  | Some x => x <=? now
  | None => false
  end.

Definition sweep {A} (now : Z) (c : option (CacheEntry.t A)) : option (CacheEntry.t A) :=
  match c with
  | Some e => if expired now e then None else c
  | None => None
  end.

(** runCleanup: deleteExpired on the stores with a by_expires index;
    records whose expiresAt is at most now go.  Calendar cache records
    carry no expiresAt and stay. *)
Definition runCleanup : action := fun w env =>
  let now := Clock.now (Env.clock env) in
  let d := World.db w in
  let d1 := Db.with_sessions
              (filter (fun s => now < Session.expiresAt s) (Db.browsing_sessions d)) d in
  let d2 := Db.with_weather (sweep now (Db.cache_weather d1)) d1 in
  let d3 := Db.with_github (sweep now (Db.cache_github d2)) d2 in
  (World.with_db d3 w, []).

Inductive alarm :=
| heartbeat
| cleanup
| export
| classify
| morning_briefing
| ready_check
| end_of_day.

(** chrome.alarms.onAlarm.  The weekly export writes only the
    export_history store, which is not part of the state. *)
Definition onAlarm (a : alarm) : action :=
  match a with
  | heartbeat =>
      Tracker.persistActiveSession >+> aggregateDailyStats
        >+> Scheduler.checkProgressMilestones >+> Scheduler.checkDistractionAlert
        >+> Scheduler.checkMeetingAwareness
  | cleanup => runCleanup
  | export => fun w _ => (w, [])
  | classify => batchClassifyDomains
  | morning_briefing => Scheduler.checkMorningBriefing
  | ready_check => Scheduler.checkReadyToStart
  | end_of_day => Scheduler.checkEndOfDay
  end.

(** A start of the service worker.  The browser may stop the worker
    whenever it is idle and starts it again for the next event: the
    module is evaluated afresh (activeTabState is null, dailyState has
    no date and no flag set, notifiedMeetings is empty) and
    initialize() runs initializeSettings.  What is in the database
    stays. *)
Definition start : action := fun w _ =>
  (World.initial
     (Db.with_settings
        (Settings.initializeSettings Config.DEFAULT_CONFIG (Db.settings (World.db w)))
        (World.db w)),
   []).

Inductive event :=
| Alarm (a : alarm) (env : Env.t)
| TabChanged (tab : Tab.t) (env : Env.t)
| Started (env : Env.t).

Definition env_of (e : event) : Env.t :=
  match e with
  | Alarm _ env => env
  | TabChanged _ env => env
  | Started env => env
  end.

Definition is_start (e : event) : bool :=
  match e with
  | Started _ => true
  | _ => false
  end.

Definition day_of (e : event) : string := Clock.today (Env.clock (env_of e)).

(** One event: the new state and the notifications created, each with
    the clock reading of the event. *)
Definition step (w : World.t) (e : event) : World.t * list (Notif.t * Z) :=
  let '(w', l) :=
    match e with
    | Alarm a env => onAlarm a w env
    | TabChanged tab env => Tracker.handleTabChange tab w env
    | Started env => start w env
    end in
  (w', map (fun n => (n, Clock.now (Env.clock (env_of e)))) l).

(** Events are handled one after the other. *)
Fixpoint run (w : World.t) (es : list event) : World.t * list (Notif.t * Z) :=
  match es with
  | [] => (w, [])
  | e :: es' =>
      let '(w1, l1) := step w e in
      let '(w2, l2) := run w1 es' in
      (w2, l1 ++ l2)
  end.

(** A run within one lifetime of the worker: none of the events is a
    start. *)
Definition lifetime (es : list event) : Prop :=
  Forall (fun e => is_start e = false) es.

(** How often a notification was created. *)
Definition fired_count (n : Notif.t) (log : list (Notif.t * Z)) : nat :=
  length (filter (fun x => x.1 = n) log).

(** The clock readings at which a notification was created. *)
Definition fired_at (n : Notif.t) (log : list (Notif.t * Z)) : list Z :=
  map snd (filter (fun x => x.1 = n) log).

End Worker.

(** ** What the specification says, for comparison *)

Module Spec.

(** The resolution order of the specification's classify(domain):
    allow-list, deny-list, cache, unresolved. *)
Definition classify (d : Db.t) (domain : string) : option string :=
  if bool_decide (domain ∈ Config.KNOWN_PRODUCTIVE) then Some "productive"
  else if bool_decide (domain ∈ Config.KNOWN_DISTRACTIONS) then Some "distraction"
  else ClassRecord.classification <$> (Db.domain_classifications d !! domain).

(** The goal target of the specification: the user's
    dailyFocusGoalMinutes setting (default 240). *)
Definition goalMinutes (d : Db.t) : Z :=
  Js.num_or (Db.config_get d "dailyFocusGoalMinutes") 240.

(** The number of classifier calls the specification's classifyBatch
    issues for [n] unresolved domains. *)
Definition batch_calls (n : nat) : nat := Nat.div (n + 19) 20.

End Spec.

(** ** Concrete inputs *)

Module Examples.

(** new URL(url).hostname for the URLs of the examples: an http or
    https URL without user info whose host is written in lower case.
    The host ends at the first of / : ? #.  Any other input is answered
    as a URL that does not parse. *)
Definition host_end (c : ascii) : bool :=
  (c =? "/")%char || (c =? ":")%char || (c =? "?")%char || (c =? "#")%char.

Fixpoint host_part (s : string) : string :=
  match s with
  | EmptyString => EmptyString
  | String c s' => if host_end c then EmptyString else String c (host_part s')
  end.

Definition after (p s : string) : option string :=
  if String.prefix p s
  then Some (String.substring (String.length p) (String.length s - String.length p) s)
  else None.

Definition hostname (url : string) : option string :=
  let rest :=
    match after "https://" url with
    | Some r => Some r
    | None => after "http://" url
    end in
  match rest with
  | Some r => if String.eqb (host_part r) "" then None else Some (host_part r)
  | None => None
  end.

(** No remote collaborator answers. *)
Definition quiet_env (c : Clock.t) : Env.t :=
  Env.mk c (Res.Err "offline") (Res.Err "offline") (Res.Err "offline")
         (fun _ => Res.Err "offline") hostname.

(** 2024-01-01T01:01:40Z. *)
Definition new_year : Clock.t := Clock.mk 1704070900000 "2024-01-01" 1 1.

(** The same day, half a minute later. *)
Definition new_year_later : Clock.t := Clock.mk 1704070930000 "2024-01-01" 1 2.

Definition github_session : Session.t :=
  Session.mk "https://github.com/" "github.com" "GitHub"
             1704067200000 1704070900000 3700000
             "2024-01-01" "unclassified" 1706659200000.

(** One 3,700,000 ms session on github.com, nothing cached. *)
Definition github_day : Db.t := Db.with_sessions [github_session] Db.empty.



(** Forty-five distinct domains, one short unclassified session each. *)
Definition site (i : nat) : string :=
  String (ascii_of_nat (48 + i / 10))
         (String (ascii_of_nat (48 + i mod 10)) ".example").

Definition sites (n : nat) : list string := map site (seq 0 n).

Definition visit (dom : string) : Session.t :=
  Session.mk ("https://" +:+ dom) dom dom
             1704067200000 1704067260000 60000
             "2024-01-01" "unclassified" 1706659200000.

Definition forty_five : Db.t :=
  Db.with_settings {["anthropicApiKey" := Js.VStr "sk-test"]}
                   (Db.with_sessions (map visit (sites 45)) Db.empty).

Definition verdict (dom : string) : ClassItem.t :=
  ClassItem.mk dom "productive" 90 "work".

(** A classifier that answers every request. *)
Definition answering_env (c : Clock.t) : Env.t :=
  Env.mk c (Res.Err "offline") (Res.Err "offline") (Res.Err "offline")
         (fun batch => Res.Ok (map verdict batch)) hostname.

Definition standup : CalEvent.t := CalEvent.mk "evt-standup" "Standup" 1704099600000.

Definition sunny : Weather.t := Weather.mk 41 "Clear" 1704069700000.

(** Cache records fetched twenty minutes before [new_year]. *)
Definition twenty_minutes_old : Db.t :=
  Db.with_weather (Some (CacheEntry.mk sunny 1704069700000 (Some 1704156100000)))
    (Db.with_calendar (Some (CacheEntry.mk [standup] 1704069700000 None)) Db.empty).

(** A calendar that answers with the given events. *)
Definition calendar_of (events : list CalEvent.t) (c : Clock.t) : Env.t :=
  Env.mk c (Res.Err "offline") (Res.Err "offline") (Res.Ok events)
         (fun _ => Res.Err "offline") hostname.

(** A calendar that answers with the 09:00 standup. *)
Definition calendar_env (c : Clock.t) : Env.t := calendar_of [standup] c.

(** The standup moved to 11:00, and a lunch at 12:30. *)
Definition standup_moved : CalEvent.t :=
  CalEvent.mk "evt-standup" "Standup" 1704106800000.
Definition lunch : CalEvent.t := CalEvent.mk "evt-lunch" "Lunch" 1704112200000.

(** Five minutes before the standup, four minutes before, and 61
    minutes after its start. *)
Definition five_before : Clock.t := Clock.mk 1704099300000 "2024-01-01" 8 55.
Definition four_before : Clock.t := Clock.mk 1704099360000 "2024-01-01" 8 56.
Definition hour_after : Clock.t := Clock.mk 1704103260000 "2024-01-01" 10 1.

(** Half a minute after [five_before], and five minutes before 11:00. *)
Definition soon_after : Clock.t := Clock.mk 1704099330000 "2024-01-01" 8 55.
Definition five_to_eleven : Clock.t := Clock.mk 1704106500000 "2024-01-01" 10 55.

(** A day that ends on www.youtube.com: twenty minutes watched from
    22:30 to 22:50, the host cached as a distraction, and the alert
    threshold set to fifteen minutes. *)
Definition youtube_session : Session.t :=
  Session.mk "https://www.youtube.com/" "www.youtube.com" "YouTube"
             1704148200000 1704149400000 1200000
             "2024-01-01" "unclassified" 1706740200000.

Definition binge : Db.t :=
  Db.with_settings {["distractionAlertMinutes" := Js.VNum 15]}
    (Db.with_classifications
       {["www.youtube.com" :=
           ClassRecord.mk "www.youtube.com" "distraction" 95 "video" 1704100000000 "ai"]}
       (Db.with_sessions [youtube_session] Db.empty)).

Definition youtube_tab : Tab.t := Tab.mk "https://www.youtube.com/watch?v=1" "YouTube".

(** 23:50:00 on 2024-01-01, then 00:00:05 and 00:17:00 on 2024-01-02
    (UTC). *)
Definition late_evening : Clock.t := Clock.mk 1704153000000 "2024-01-01" 23 50.
Definition after_midnight : Clock.t := Clock.mk 1704153605000 "2024-01-02" 0 0.
Definition quarter_past : Clock.t := Clock.mk 1704154620000 "2024-01-02" 0 17.

Definition across_midnight : list Worker.event :=
  [ Worker.Alarm Worker.heartbeat (quiet_env late_evening);
    Worker.TabChanged youtube_tab (quiet_env after_midnight);
    Worker.Alarm Worker.heartbeat (quiet_env quarter_past) ].

(** 09:00:10, 09:00:40 and 09:01:10 on 2024-01-01. *)
Definition nine : Clock.t := Clock.mk 1704099610000 "2024-01-01" 9 0.
Definition nine_again : Clock.t := Clock.mk 1704099640000 "2024-01-01" 9 0.
Definition nine_one : Clock.t := Clock.mk 1704099670000 "2024-01-01" 9 1.

Definition morning : list Worker.event :=
  [ Worker.Alarm Worker.morning_briefing (quiet_env nine);
    Worker.Alarm Worker.heartbeat (quiet_env nine_again);
    Worker.Alarm Worker.morning_briefing (quiet_env nine_one) ].

(** The same morning with the worker stopped after the first alarm
    and started again for the heartbeat. *)
Definition morning_restarted : list Worker.event :=
  [ Worker.Alarm Worker.morning_briefing (quiet_env nine);
    Worker.Started (quiet_env nine_again);
    Worker.Alarm Worker.heartbeat (quiet_env nine_again);
    Worker.Alarm Worker.morning_briefing (quiet_env nine_one) ].

(** A tab on github.com opened at 09:00:10; the worker is started
    again before the ready check and the tab change of 10:00:10. *)
Definition github_tab : Tab.t := Tab.mk "https://github.com/" "GitHub".
Definition ten : Clock.t := Clock.mk 1704103210000 "2024-01-01" 10 0.

Definition productive_morning_restarted : list Worker.event :=
  [ Worker.TabChanged github_tab (quiet_env nine);
    Worker.Started (quiet_env ten);
    Worker.Alarm Worker.ready_check (quiet_env ten);
    Worker.TabChanged github_tab (quiet_env ten) ].

(** Heartbeats of the same evening at 23:00, 23:10 and 23:40. *)
Definition eleven : Clock.t := Clock.mk 1704150000000 "2024-01-01" 23 0.
Definition ten_past : Clock.t := Clock.mk 1704150600000 "2024-01-01" 23 10.
Definition twenty_to : Clock.t := Clock.mk 1704152400000 "2024-01-01" 23 40.

Definition evening : list Worker.event :=
  [ Worker.Alarm Worker.heartbeat (quiet_env eleven);
    Worker.Alarm Worker.heartbeat (quiet_env ten_past);
    Worker.Alarm Worker.heartbeat (quiet_env twenty_to) ].

(** The same evening with the worker started again for the heartbeat
    of 23:10. *)
Definition evening_restarted : list Worker.event :=
  [ Worker.Alarm Worker.heartbeat (quiet_env eleven);
    Worker.Started (quiet_env ten_past);
    Worker.Alarm Worker.heartbeat (quiet_env ten_past) ].

(** A tab on github.com opened at midnight. *)
Definition browsing : World.t :=
  World.with_activeTabState
    (Some (TabState.mk "https://github.com/" "github.com" "GitHub" 1704067200000
                       "2024-01-01" "unclassified" 1706659200000))
    (World.initial Db.empty).

Definition docs_tab : Tab.t := Tab.mk "https://developer.mozilla.org/" "MDN".

(** Twenty-nine days after [new_year], and one millisecond more than
    thirty days after it. *)
Definition day_29 : Clock.t := Clock.mk 1706576500000 "2024-01-30" 1 1.
Definition month_later : Clock.t := Clock.mk 1706662900001 "2024-01-31" 1 1.

End Examples.

(** ** Measures used in the statements *)

Module Measure.
Import Aggregator.

(** The three category totals together. *)
Definition buckets (a : acc) : Z := productiveTime a + distractionTime a + neutralTime a.

(** The sum of the durations of a list of sessions. *)
Definition durations (l : list Session.t) : Z :=
  foldr (fun s n => Session.duration s + n) 0 l.

(** The sessions an action handed to storage: db.put appends to the
    auto-increment store. *)
Definition persisted (a : action) (w : World.t) (env : Env.t) : list Session.t :=
  drop (length (Db.browsing_sessions (World.db w)))
       (Db.browsing_sessions (World.db (a w env).1)).

(** The record the first half of handleTabChange writes, if any. *)
Definition closing (w : World.t) (now : Z) : list Session.t :=
  match World.activeTabState w with
  | Some st =>
      if 1000 <? now - TabState.startTime st
      then [TabState.to_session st now (now - TabState.startTime st)]
      else []
  | None => []
  end.

(** How often an action created a notification. *)
Definition occurrences (n : Notif.t) (l : list Notif.t) : nat :=
  length (filter (fun m => m = n) l).

(** The events a meeting check gets from safeCall(getTodaysEvents). *)
Definition seen (w : World.t) (env : Env.t) : option (list CalEvent.t) :=
  (Remote.safeTodaysEvents (World.db w) env).1.

Definition meetings_enabled (w : World.t) : bool :=
  negb (Js.is_false (Db.config_get (World.db w) "enableMeetingAwareness")).

(** Whether some event with this id is inside the warning window. *)
Definition due (lead now : Z) (events : list CalEvent.t) (id : string) : bool :=
  existsb (fun e => String.eqb (CalEvent.id e) id && Scheduler.in_window lead now e) events.

(** What is left on day [d] of the once-a-day allowance of a
    notification: nothing once its flag is set in the ledger of that
    day, or, for the end-of-day summary, once the day's marker is in
    the settings store. *)
Definition armed (d : string) (w : World.t) (n : Notif.t) : nat :=
  let s := World.dailyState w in
  let spent (flag : bool) : nat :=
    if bool_decide (DailyState.date s = Some d) && flag then 0%nat else 1%nat in
  match n with
  | Notif.morning_briefing => spent (DailyState.morningBriefingSent s)
  | Notif.ready_nudge => spent (DailyState.readyNudgeSent s)
  | Notif.first_productive => spent (DailyState.firstProductiveCelebrated s)
  | Notif.milestone_1hr => spent (DailyState.oneHourCelebrated s)
  | Notif.milestone_goal => spent (DailyState.goalCelebrated s)
  | Notif.end_of_day =>
      match Db.settings (World.db w) !! Scheduler.summaryKey d with
      | Some _ => 0%nat
      | None => 1%nat
      end
  | _ => 1%nat
  end.

(** An action on day [d] uses up the allowance of what it creates. *)
Definition within_budget (d : string) (a : action) : Prop :=
  ∀ w env n,
    Clock.today (Env.clock env) = d -> Notif.daily_once n = true ->
    (occurrences n (a w env).2 + armed d (a w env).1 n <= armed d w n)%nat.

(** The time of the last distraction alert as a check on day [d]
    reads it after its reset. *)
Definition last_alert (d : string) (w : World.t) : Z :=
  let s := World.dailyState w in
  if bool_decide (DailyState.date s = Some d) then DailyState.lastDistractionAlert s else 0.

(** An action on day [d] either creates no distraction alert and
    leaves the last alert as it is, or creates one, a cooldown after
    the last, and records its time. *)
Definition alert_spaced (d : string) (a : action) : Prop :=
  ∀ w env,
    Clock.today (Env.clock env) = d ->
    (occurrences Notif.distraction_alert (a w env).2 = 0%nat
     ∧ last_alert d (a w env).1 = last_alert d w)
    ∨ (occurrences Notif.distraction_alert (a w env).2 = 1%nat
       ∧ last_alert d w + Scheduler.cooldown <= Clock.now (Env.clock env)
       ∧ last_alert d (a w env).1 = Clock.now (Env.clock env)).

(** An action that leaves the ledger and the settings alone and
    creates meeting warnings at most. *)
Definition quiet (a : action) : Prop :=
  ∀ w env,
    World.dailyState (a w env).1 = World.dailyState w
    ∧ Db.settings (World.db (a w env).1) = Db.settings (World.db w)
    ∧ ∀ n, n ∈ (a w env).2 -> ∃ id, n = Notif.meeting id.

(** Each time is at least [gap] after every earlier one. *)
Fixpoint spaced (gap : Z) (l : list Z) : Prop :=
  match l with
  | [] => True
  | t :: l' => Forall (fun t' => t + gap <= t') l' ∧ spaced gap l'
  end.

End Measure.

(** ** The contract of a stale-tolerant fetch *)

Module Contract.
Import Remote.

(** For a handler [h] over the cache slot [cache] and the fetcher
    outcome [fetch]: a record younger than [ttl] is returned without
    calling the fetcher; when the fetcher fails the cached payload is
    returned, carrying stale: true exactly when [annotate]; when it
    fails and nothing is cached the error is thrown on. *)
Definition stale_tolerant {A} (ttl : Z) (annotate : bool)
    (cache : Db.t -> option (CacheEntry.t A)) (fetch : Env.t -> Res.t A)
    (h : Db.t -> Env.t -> outcome A) : Prop :=
  ∀ (d : Db.t) (env : Env.t),
    let now := Clock.now (Env.clock env) in
    (∀ e, cache d = Some e -> now - CacheEntry.fetchedAt e < ttl ->
          h d env = mkOutcome (Res.Ok (mkReturned (CacheEntry.data e) false)) d false)
    ∧ (∀ e msg, cache d = Some e -> ttl <= now - CacheEntry.fetchedAt e ->
                fetch env = Res.Err msg ->
                h d env = mkOutcome (Res.Ok (mkReturned (CacheEntry.data e) annotate)) d true)
    ∧ (∀ msg, cache d = None -> fetch env = Res.Err msg ->
              h d env = mkOutcome (Res.Err msg) d true).

End Contract.

(** ** src/background/message-router.js *)

Module Router.
Section Dispatch.
Context {P R : Type}.

Record message := mkMessage {
  type : string;
  action : string;
  payload : P;
  requestId : string
}.

(** What sendResponse is given. *)
Record response := mkResponse {
  success : bool;
  data : option R;
  error : option string;
  echo : option string
}.

(** A handler returns a result or throws an Error. *)
Definition handler : Type := P -> Res.t R.

Definition registerHandler (a : string) (h : handler) (handlers : gmap string handler)
  : gmap string handler :=
  <[a := h]> handlers.

Definition unregisterHandler (a : string) (handlers : gmap string handler)
  : gmap string handler :=
  delete a handlers.

(** The listener installed by initializeRouter; [None] is a missing
    message and an empty action a missing action. *)
Definition onMessage (handlers : gmap string handler) (m : option message) : response :=
  match m with
  | None => mkResponse false None (Some "Invalid message format") None
  | Some m =>
      if String.eqb (action m) ""
      then mkResponse false None (Some "Invalid message format") None
      else
        match handlers !! action m with
        | None =>
            mkResponse false None (Some ("Unknown action: " +:+ action m))
                       (Some (requestId m))
        | Some h =>
            match h (payload m) with
            | Res.Ok r => mkResponse true (Some r) None (Some (requestId m))
            | Res.Err msg => mkResponse false None (Some msg) (Some (requestId m))
            end
        end
  end.

(** [response.error || "Unknown error"]. *)
Definition error_or_unknown (e : option string) : string :=
  match e with
  | Some msg => if String.eqb msg "" then "Unknown error" else msg
  | None => "Unknown error"
  end.

(** sendMessage against a service worker that runs the listener. *)
Definition sendMessage (handlers : gmap string handler) (a : string) (p : P)
    (ty rid : string) : Res.t (option R) :=
  let r := onMessage handlers (Some (mkMessage ty a p rid)) in
  if success r then Res.Ok (data r) else Res.Err (error_or_unknown (error r)).
End Dispatch.

Arguments message : clear implicits.
Arguments response : clear implicits.
Arguments handler : clear implicits.
End Router.

(** ** Further measures used in the statements *)

Module Track.

(** The stored sessions of a state. *)
Definition sessions (w : World.t) : list Session.t := Db.browsing_sessions (World.db w).

(** The records a later state holds beyond those of an earlier one. *)
Definition appended (w w' : World.t) : list Session.t :=
  drop (length (sessions w)) (sessions w').

(** A record as the tracker writes it: the duration is the span from
    start to end and exceeds one second. *)
Definition well_formed (s : Session.t) : Prop :=
  Session.duration s = Session.endTime s - Session.startTime s
  ∧ 1000 < Session.duration s.

(** The open session is the same but for its start. *)
Definition same_tab (st st' : TabState.t) : Prop :=
  TabState.url st' = TabState.url st
  ∧ TabState.domain st' = TabState.domain st
  ∧ TabState.title st' = TabState.title st
  ∧ TabState.date st' = TabState.date st
  ∧ TabState.classification st' = TabState.classification st
  ∧ TabState.expiresAt st' = TabState.expiresAt st.

(** An action that neither writes sessions nor touches the open one. *)
Definition hands_off (a : action) : Prop :=
  ∀ w env, sessions (a w env).1 = sessions w
           ∧ World.activeTabState (a w env).1 = World.activeTabState w.

(** An action that only appends well-formed records. *)
Definition appends (a : action) : Prop :=
  ∀ w env, ∃ new, sessions (a w env).1 = sessions w ++ new ∧ Forall well_formed new.

(** Heartbeat alarms at the given clock readings. *)
Definition heartbeats (envs : list Env.t) : list Worker.event :=
  map (Worker.Alarm Worker.heartbeat) envs.

Definition is_cleanup (e : Worker.event) : bool :=
  match e with
  | Worker.Alarm Worker.cleanup _ => true
  | _ => false
  end.

End Track.

(** ** Tallies of the aggregator *)

Module Tally.

(** The time of the sessions of one domain. *)
Definition domain_total (sessions : list Session.t) (dom : string) : Z :=
  Measure.durations (filter (fun s => Session.domain s = dom) sessions).

(** The time of the sessions folded under one classification. *)
Definition bucket (dc : gmap string ClassRecord.t) (label : string)
    (sessions : list Session.t) : Z :=
  Measure.durations (filter (fun s => Aggregator.resolve dc s = label) sessions).

(** The time of the sessions folded under neither "productive" nor
    "distraction". *)
Definition bucket_rest (dc : gmap string ClassRecord.t) (sessions : list Session.t) : Z :=
  Measure.durations
    (filter (fun s => Aggregator.resolve dc s ≠ "productive"
                      ∧ Aggregator.resolve dc s ≠ "distraction") sessions).

(** The duration held for a domain in a list of entries. *)
Definition entry_total (m : list DomainStat.t) (dom : string) : Z :=
  foldr (fun e n => (if String.eqb (DomainStat.domain e) dom
                     then DomainStat.duration e else 0) + n) 0 m.

(** The durations of all entries together. *)
Definition entries_total (m : list DomainStat.t) : Z :=
  foldr (fun e n => DomainStat.duration e + n) 0 m.

(** No entry has a longer duration than an entry before it. *)
Fixpoint sorted_desc (l : list DomainStat.t) : Prop :=
  match l with
  | [] => True
  | x :: l' =>
      Forall (fun y => DomainStat.duration y <= DomainStat.duration x) l' ∧ sorted_desc l'
  end.

End Tally.

(** ** The stores the daily snapshot is computed from *)

Module Books.

(** Two databases with the same sessions, classifications, snapshots
    and settings; the external caches may differ. *)
Definition same (d d' : Db.t) : Prop :=
  Db.browsing_sessions d' = Db.browsing_sessions d
  ∧ Db.domain_classifications d' = Db.domain_classifications d
  ∧ Db.daily_stats d' = Db.daily_stats d
  ∧ Db.settings d' = Db.settings d.

(** An action that writes none of these stores. *)
Definition kept (a : action) : Prop :=
  ∀ w env, same (World.db w) (World.db (a w env).1).

End Books.

(** ** Read handlers of the dashboard *)

Module Handlers.

(** What GET_BROWSING_STATS returns: the stored record, or the literal
    of zeros for the date, which has neither sessionCount nor
    updatedAt. *)
Inductive browsing_stats :=
| Stored (s : Stats.t)
| Placeholder (date : string).

(** date || new Date().toISOString().slice(0, 10) *)
Definition targetDate (c : Clock.t) (date : option string) : string :=
  match date with
  | Some x => if String.eqb x "" then Clock.today c else x
  | None => Clock.today c
  end.

Definition handleGetBrowsingStats (d : Db.t) (c : Clock.t) (date : option string)
  : browsing_stats :=
  match Db.daily_stats d !! targetDate c date with
  | Some s => Stored s
  | None => Placeholder (targetDate c date)
  end.

Definition handleGetTodaysSessions (d : Db.t) (c : Clock.t) : list Session.t :=
  Db.sessions_by_date d (Clock.today c).

End Handlers.

(** ** Refreshing a remote cache *)

Module Refresh.
Import Remote.

(** For a handler [h] over the cache slot [cache] and the fetcher
    outcome [fetch]: when no record younger than [ttl] is cached and
    the fetch succeeds, the payload is returned unmarked and stored with
    the clock reading and the expiry [expiry now]; no other store
    changes; and every call less than [ttl] later answers with that
    payload from the cache, while a call at [ttl] or later fetches
    again. *)
Definition served_until {A} (ttl : Z) (expiry : Z -> option Z)
    (cache : Db.t -> option (CacheEntry.t A)) (fetch : Env.t -> Res.t A)
    (h : Db.t -> Env.t -> outcome A) : Prop :=
  ∀ (d : Db.t) (env : Env.t) (data : A),
    let now := Clock.now (Env.clock env) in
    fresh ttl now (cache d) = None ->
    fetch env = Res.Ok data ->
    let o := h d env in
    value o = Res.Ok (mkReturned data false)
    ∧ fetcher_called o = true
    ∧ cache (db o) = Some (CacheEntry.mk data now (expiry now))
    ∧ Books.same d (db o)
    ∧ (∀ env2, Clock.now (Env.clock env2) - now < ttl ->
         h (db o) env2 = mkOutcome (Res.Ok (mkReturned data false)) (db o) false)
    ∧ (∀ env2, ttl <= Clock.now (Env.clock env2) - now ->
         fetcher_called (h (db o) env2) = true).

End Refresh.

(** ** Google handlers *)

Module Google.

(** The members of the db object src/storage/db.js exports. *)
Definition db_members : list string :=
  [ "openDB"; "closeDB"; "put"; "get"; "getAll"; "getAllFromIndex"; "getRange";
    "remove"; "deleteExpired"; "clear"; "count"; "getLatest"; "bulkPut" ].

(** db.<name>(...): what the member does, or a TypeError when the
    object has no member of that name. *)
Definition db_call {A} (name : string) (body : Res.t A) : Res.t A :=
  if bool_decide (name ∈ db_members) then body
  else Res.Err ("db." +:+ name +:+ " is not a function").

(** calendar.clearCache: await db.delete("external_cache", CACHE_KEY). *)
Definition clearCache (d : Db.t) : Res.t Db.t :=
  db_call "delete" (Res.Ok (Db.with_calendar None d)).

(** gmail.clearCache, the same call on the gmail record, which is not
    part of the state. *)
Definition gmailClearCache : Res.t unit := db_call "delete" (Res.Ok tt).

(** The GOOGLE_SIGN_OUT handler after googleAuth.signOut(): the two
    caches are cleared in turn, then { success: true } is returned. *)
Definition handleGoogleSignOut (d : Db.t) : Res.t bool * Db.t :=
  match clearCache d with
  | Res.Err msg => (Res.Err msg, d)
  | Res.Ok d' =>
      match gmailClearCache with
      | Res.Err msg => (Res.Err msg, d')
      | Res.Ok _ => (Res.Ok true, d')
      end
  end.

Record calendar_reply := mkReply {
  events : list CalEvent.t;
  authenticated : bool
}.

(** The GET_CALENDAR_EVENTS handler. *)
Definition handleGetCalendarEvents (d : Db.t) (env : Env.t) : Res.t calendar_reply * Db.t :=
  let o := Remote.getTodaysEvents d env in
  match Remote.value o with
  | Res.Ok r => (Res.Ok (mkReply (Remote.payload r) true), Remote.db o)
  | Res.Err msg =>
      if Tracker.includes msg "Not authenticated"
      then (Res.Ok (mkReply [] false), Remote.db o)
      else (Res.Err msg, Remote.db o)
  end.

(** The error googleFetch throws without a token. *)
Definition not_signed_in : string := "Not authenticated. Please sign in to Google.".

End Google.

(** ** The switches of the notifications *)

Module Switch.

(** The setting a notification is gated on, if any. *)
Definition flag (n : Notif.t) : option string :=
  match n with
  | Notif.morning_briefing => Some "enableMorningBriefing"
  | Notif.ready_nudge => Some "enableStartNudges"
  | Notif.end_of_day => Some "enableEndOfDaySummary"
  | Notif.distraction_alert => Some "enableDistractionAlerts"
  | Notif.meeting _ => Some "enableMeetingAwareness"
  | Notif.first_productive | Notif.milestone_1hr | Notif.milestone_goal => None
  end.

(** The setting is stored as false. *)
Definition off (k : string) (w : World.t) : Prop :=
  Db.settings (World.db w) !! k = Some (Js.VBool false).

(** An action that leaves a switch that is off as it is and creates no
    notification gated on it. *)
Definition obeys (k : string) (a : action) : Prop :=
  ∀ w env, off k w -> off k (a w env).1 ∧ ∀ n, n ∈ (a w env).2 -> flag n ≠ Some k.

End Switch.

(** ** Where a notification comes from *)

Module Origin.

Inductive source :=
| FromAlarm (a : Worker.alarm)
| FromTab
| FromStart.

(** The event kind that runs the rule of a notification. *)
Definition rule (n : Notif.t) : source :=
  match n with
  | Notif.morning_briefing => FromAlarm Worker.morning_briefing
  | Notif.ready_nudge => FromAlarm Worker.ready_check
  | Notif.end_of_day => FromAlarm Worker.end_of_day
  | Notif.first_productive => FromTab
  | Notif.milestone_1hr | Notif.milestone_goal
  | Notif.distraction_alert | Notif.meeting _ => FromAlarm Worker.heartbeat
  end.

Definition source_of (e : Worker.event) : source :=
  match e with
  | Worker.Alarm a _ => FromAlarm a
  | Worker.TabChanged _ _ => FromTab
  | Worker.Started _ => FromStart
  end.

(** The entry of the log was created by the event. *)
Definition created_by (x : Notif.t * Z) (e : Worker.event) : Prop :=
  rule x.1 = source_of e ∧ x.2 = Clock.now (Env.clock (Worker.env_of e)).

End Origin.

(** * Properties *)

(** ** Settings store *)

Section SettingsFacts.
Context {V : Type}.
Implicit Types (defaults settings : gmap string V).

Lemma initialize_fold (l : list (string * V)) : ∀ settings,
  foldl (fun s kv => match s !! kv.1 with
                     | None => <[kv.1 := kv.2]> s
                     | Some _ => s
                     end) settings l
  = settings ∪ list_to_map l.
Proof.
  induction l as [|[k v] l IH]; intros s; simpl.
  - by rewrite (right_id_L ∅ (∪) s).
  - rewrite IH. apply map_eq. intros i.
    rewrite !lookup_union. destruct (decide (k = i)) as [->|Hne].
    + rewrite lookup_insert_eq. destruct (s !! i) eqn:Hs; simpl.
      * rewrite Hs. by destruct (list_to_map l !! i).
      * rewrite lookup_insert_eq. simpl. by destruct (list_to_map l !! i).
    + rewrite (lookup_insert_ne (list_to_map l)) by done.
      destruct (s !! k); [done|]. by rewrite lookup_insert_ne.
Qed.

Lemma initializeSettings_union defaults settings :
  Settings.initializeSettings defaults settings = settings ∪ defaults.
Proof.
  unfold Settings.initializeSettings.
  by rewrite initialize_fold, list_to_map_to_list.
Qed.

Lemma getAll_fold (l : list (string * V)) : ∀ o : gmap string V,
  NoDup l.*1 ->
  foldl (fun o kv => <[kv.1 := kv.2]> o) o l = list_to_map l ∪ o.
Proof.
  induction l as [|[k v] l IH]; intros o Hnd; simpl.
  - by rewrite (left_id_L ∅ (∪)).
  - apply NoDup_cons in Hnd as [Hk Hnd]. rewrite IH by done.
    apply map_eq. intros i. rewrite !lookup_union.
    destruct (decide (k = i)) as [->|Hne].
    + rewrite !lookup_insert_eq.
      rewrite (not_elem_of_list_to_map_1 l i Hk). simpl. by destruct (o !! i).
    + rewrite !lookup_insert_ne by done. done.
Qed.

Lemma getAllSettings_union defaults settings :
  Settings.getAllSettings defaults settings = settings ∪ defaults.
Proof.
  unfold Settings.getAllSettings.
  rewrite getAll_fold by apply NoDup_fst_map_to_list.
  by rewrite list_to_map_to_list.
Qed.

Lemma getSetting_union defaults settings key :
  Settings.getSetting defaults settings key = (settings ∪ defaults) !! key.
Proof.
  unfold Settings.getSetting. rewrite lookup_union.
  destruct (settings !! key); simpl; [by destruct (defaults !! key)|].
  by destruct (defaults !! key).
Qed.
End SettingsFacts.

(** The settings of the embedding are the instance at DEFAULT_CONFIG. *)
Lemma getSetting_instance (settings : gmap string Js.value) (key : string) :
  Config.getSetting settings key
  = default Js.VUndefined (Settings.getSetting Config.DEFAULT_CONFIG settings key).
Proof.
  unfold Config.getSetting, Settings.getSetting.
  destruct (settings !! key); [done|]. by destruct (Config.DEFAULT_CONFIG !! key).
Qed.


(** ** Daily aggregator *)

Section AggregatorFacts.
Import Aggregator Measure.

Lemma step_totalTime dc a s :
  totalTime (step dc a s) = totalTime a + Session.duration s.
Proof. unfold step. repeat case_match; reflexivity. Qed.

Lemma step_buckets dc a s :
  buckets (step dc a s) = buckets a + Session.duration s.
Proof. unfold step, buckets. repeat case_match; simpl; lia. Qed.

(** Each session adds its duration to one bucket and to no other. *)
Lemma step_one_bucket dc a s :
  let d := Session.duration s in
  let a' := step dc a s in
  (productiveTime a' = productiveTime a + d ∧ distractionTime a' = distractionTime a
     ∧ neutralTime a' = neutralTime a)
  ∨ (productiveTime a' = productiveTime a ∧ distractionTime a' = distractionTime a + d
     ∧ neutralTime a' = neutralTime a)
  ∨ (productiveTime a' = productiveTime a ∧ distractionTime a' = distractionTime a
     ∧ neutralTime a' = neutralTime a + d).
Proof. unfold step. repeat case_match; simpl; auto. Qed.

Lemma fold_totalTime dc l : ∀ a,
  totalTime (foldl (step dc) a l) = totalTime a + durations l.
Proof.
  induction l as [|s l IH]; intros a; simpl; [lia|].
  rewrite IH, step_totalTime. lia.
Qed.

Lemma fold_buckets dc l : ∀ a,
  buckets (foldl (step dc) a l) = buckets a + durations l.
Proof.
  induction l as [|s l IH]; intros a; simpl; [lia|].
  rewrite IH, step_buckets. lia.
Qed.

Lemma aggregate_writes d c :
  Db.daily_stats (aggregateDailyStats d c) !! Clock.today c = Some (snapshot d c).
Proof. unfold aggregateDailyStats. simpl. apply lookup_insert_eq. Qed.

End AggregatorFacts.

(** C10.  The snapshot the aggregator writes for the day has
    totalTime = productiveTime + distractionTime + neutralTime, both
    being the sum of the durations of the day's sessions, and its
    sessionCount is the number of session records read for the day;
    folding one session adds its duration to exactly one of the three
    category totals. *)
Theorem snapshot_totals_add_up (d : Db.t) (c : Clock.t) :
  (∃ s, Db.daily_stats (Aggregator.aggregateDailyStats d c) !! Clock.today c = Some s
        ∧ Stats.totalTime s
          = Stats.productiveTime s + Stats.distractionTime s + Stats.neutralTime s
        ∧ Stats.totalTime s = Measure.durations (Db.sessions_by_date d (Clock.today c))
        ∧ Stats.sessionCount s = length (Db.sessions_by_date d (Clock.today c)))
  ∧ ∀ a s,
      let dur := Session.duration s in
      let a' := Aggregator.step (Db.domain_classifications d) a s in
      (Aggregator.productiveTime a' = Aggregator.productiveTime a + dur
       ∧ Aggregator.distractionTime a' = Aggregator.distractionTime a
       ∧ Aggregator.neutralTime a' = Aggregator.neutralTime a)
      ∨ (Aggregator.productiveTime a' = Aggregator.productiveTime a
         ∧ Aggregator.distractionTime a' = Aggregator.distractionTime a + dur
         ∧ Aggregator.neutralTime a' = Aggregator.neutralTime a)
      ∨ (Aggregator.productiveTime a' = Aggregator.productiveTime a
         ∧ Aggregator.distractionTime a' = Aggregator.distractionTime a
         ∧ Aggregator.neutralTime a' = Aggregator.neutralTime a + dur).
Proof.
  split; [|intros a s; apply step_one_bucket].
  exists (Aggregator.snapshot d c). split; [apply aggregate_writes|].
  unfold Aggregator.snapshot; simpl.
  pose proof (fold_totalTime (Db.domain_classifications d)
                (Db.sessions_by_date d (Clock.today c)) Aggregator.acc0) as Ht.
  pose proof (fold_buckets (Db.domain_classifications d)
                (Db.sessions_by_date d (Clock.today c)) Aggregator.acc0) as Hb.
  unfold Measure.buckets in Hb. simpl in Ht, Hb.
  repeat split; lia.
Qed.

(** C1 (code defect).  On day 2024-01-01 with the
    single 3,700,000 ms session on github.com and an empty cache, the
    specification's order resolves github.com to productive, and so does
    the tracker's check, but the aggregator consults no static list: the
    session is folded as unclassified, productiveTime is 0 and the whole
    duration lands in neutralTime. *)
Theorem aggregate_skips_allow_list :
  Spec.classify Examples.github_day "github.com" = Some "productive"
  ∧ Tracker.checkIfProductive Examples.github_day "github.com" = true
  ∧ Aggregator.resolve (Db.domain_classifications Examples.github_day)
                       Examples.github_session = "unclassified"
  ∧ ∃ s, Db.daily_stats
           (Aggregator.aggregateDailyStats Examples.github_day Examples.new_year)
           !! "2024-01-01" = Some s
         ∧ Stats.productiveTime s = 0
         ∧ Stats.distractionTime s = 0
         ∧ Stats.neutralTime s = 3700000.
Proof.
  repeat split; try (vm_compute; reflexivity).
  exists (Aggregator.snapshot Examples.github_day Examples.new_year).
  split; [apply (aggregate_writes Examples.github_day Examples.new_year)|].
  vm_compute. auto.
Qed.


(** C4 (counterexample).  Two runs on the same day over the same
    sessions, cache and settings, half a minute apart: the second
    snapshot is not the first, its updatedAt is the later clock
    reading. *)
Lemma aggregate_twice_differs :
  let d1 := Aggregator.aggregateDailyStats Examples.github_day Examples.new_year in
  let d2 := Aggregator.aggregateDailyStats d1 Examples.new_year_later in
  Clock.today Examples.new_year = Clock.today Examples.new_year_later
  ∧ Db.browsing_sessions d1 = Db.browsing_sessions Examples.github_day
  ∧ Db.domain_classifications d1 = Db.domain_classifications Examples.github_day
  ∧ Db.daily_stats d2 !! "2024-01-01" ≠ Db.daily_stats d1 !! "2024-01-01".
Proof.
  repeat split.
  pose proof (aggregate_writes Examples.github_day Examples.new_year) as H1.
  pose proof (aggregate_writes
                (Aggregator.aggregateDailyStats Examples.github_day Examples.new_year)
                Examples.new_year_later) as H2.
  change (Clock.today Examples.new_year) with "2024-01-01" in H1.
  change (Clock.today Examples.new_year_later) with "2024-01-01" in H2.
  rewrite H1, H2. intros E. apply (f_equal (fmap Stats.updatedAt)) in E.
  vm_compute in E. discriminate E.
Qed.

(** C4 (amended).  Two runs of the aggregator on the same day, with no
    change to sessions, cache or settings in between, write snapshots
    that agree on every field except updatedAt, which holds the clock
    reading of each run. *)
Theorem aggregate_twice_same_but_updatedAt (d : Db.t) (c1 c2 : Clock.t) :
  Clock.today c1 = Clock.today c2 ->
  let d1 := Aggregator.aggregateDailyStats d c1 in
  let d2 := Aggregator.aggregateDailyStats d1 c2 in
  ∃ s1 s2,
    Db.daily_stats d1 !! Clock.today c1 = Some s1
    ∧ Db.daily_stats d2 !! Clock.today c1 = Some s2
    ∧ Stats.date s2 = Stats.date s1
    ∧ Stats.totalTime s2 = Stats.totalTime s1
    ∧ Stats.productiveTime s2 = Stats.productiveTime s1
    ∧ Stats.distractionTime s2 = Stats.distractionTime s1
    ∧ Stats.neutralTime s2 = Stats.neutralTime s1
    ∧ Stats.topDomains s2 = Stats.topDomains s1
    ∧ Stats.goalProgress s2 = Stats.goalProgress s1
    ∧ Stats.sessionCount s2 = Stats.sessionCount s1
    ∧ Stats.updatedAt s1 = Clock.now c1
    ∧ Stats.updatedAt s2 = Clock.now c2.
Proof.
  intros Hday d1 d2.
  exists (Aggregator.snapshot d c1), (Aggregator.snapshot d c2).
  split; [apply aggregate_writes|].
  split.
  { subst d2 d1. rewrite Hday, aggregate_writes. reflexivity. }
  unfold Aggregator.snapshot. simpl. rewrite Hday. repeat split; reflexivity.
Qed.

Lemma aggregate_twice_witness :
  ∃ s1 s2,
    Db.daily_stats (Aggregator.aggregateDailyStats Examples.github_day Examples.new_year)
      !! "2024-01-01" = Some s1
    ∧ Db.daily_stats
        (Aggregator.aggregateDailyStats
           (Aggregator.aggregateDailyStats Examples.github_day Examples.new_year)
           Examples.new_year_later) !! "2024-01-01" = Some s2
    ∧ Stats.neutralTime s2 = Stats.neutralTime s1
    ∧ Stats.topDomains s2 = Stats.topDomains s1
    ∧ Stats.updatedAt s2 = 1704070930000.
Proof.
  destruct (aggregate_twice_same_but_updatedAt Examples.github_day
              Examples.new_year Examples.new_year_later eq_refl)
    as (s1 & s2 & H1 & H2 & _ & _ & _ & _ & Hn & Ht & _ & _ & _ & Hu).
  exists s1, s2. repeat split; assumption.
Defined.

(** ** Classification cache *)

Section ClassifierFacts.
Import Classifier.

Lemma classifyDomains_requests env l :
  l ≠ [] ->
  classifyDomains env l
  = match Env.ai_request env (take 20 l) with
    | Res.Ok items => (Res.Ok (Classified items), [take 20 l])
    | Res.Err msg => (Res.Err msg, [take 20 l])
    end.
Proof. destruct l; [congruence|reflexivity]. Qed.

Lemma put_ai_classifications now d item :
  Db.domain_classifications (put_ai now d item)
  = <[ClassItem.domain item := record_of now item]> (Db.domain_classifications d).
Proof. reflexivity. Qed.

(** Upserting a list of items leaves an "ai" record under the domain
    of each item, and keeps the "ai" records that were there. *)
Lemma fold_put_ai now items : ∀ d k,
  (k ∈ map ClassItem.domain items
   ∨ ∃ r, Db.domain_classifications d !! k = Some r ∧ ClassRecord.source r = "ai") ->
  ∃ r, Db.domain_classifications (foldl (put_ai now) d items) !! k = Some r
       ∧ ClassRecord.source r = "ai".
Proof.
  induction items as [|it items IH]; intros d k H; simpl in *.
  - destruct H as [H|H]; [by apply elem_of_nil in H|exact H].
  - apply IH. rewrite put_ai_classifications.
    destruct H as [H|(r & Hr & Hs)].
    + apply elem_of_cons in H as [->|H]; [|by left].
      right. exists (record_of now it). by rewrite lookup_insert_eq.
    + right. destruct (decide (ClassItem.domain it = k)) as [->|Hne].
      * exists (record_of now it). by rewrite lookup_insert_eq.
      * exists r. by rewrite lookup_insert_ne.
Qed.

Lemma fold_put_ai_other now items : ∀ d,
  Db.browsing_sessions (foldl (put_ai now) d items) = Db.browsing_sessions d
  ∧ Db.settings (foldl (put_ai now) d items) = Db.settings d.
Proof.
  induction items as [|it items IH]; intros d; simpl; [done|].
  destruct (IH (put_ai now d it)) as [-> ->]. done.
Qed.

(** The batch job, with the request of classifyDomains spelled out. *)
Lemma batchClassifyDomains_eq d env :
  let c := Env.clock env in
  let u := uncached d (Db.sessions_by_date d (Clock.today c)) in
  batchClassifyDomains d env
  = if negb (isAIEnabled d) then (d, [])
    else match u with
         | [] => (d, [])
         | _ =>
             match Env.ai_request env (take 20 u) with
             | Res.Ok items =>
                 (Aggregator.aggregateDailyStats (foldl (put_ai (Clock.now c)) d items) c,
                  [take 20 u])
             | Res.Err _ => (d, [take 20 u])
             end
         end.
Proof.
  intros c u. unfold batchClassifyDomains. fold c. fold u.
  destruct (negb (isAIEnabled d)); [reflexivity|].
  destruct u as [|x u']; [reflexivity|].
  rewrite classifyDomains_requests by discriminate.
  rewrite take_take. change (20 `min` 20)%nat with 20%nat.
  by destruct (Env.ai_request env _).
Qed.

Lemma handler_fallback_aux d env domains msg :
  isAIEnabled d = true ->
  (split_cached d domains).2 ≠ [] ->
  Env.ai_request env (take 20 (split_cached d domains).2) = Res.Err msg ->
  handleClassifyDomain d env domains
  = ((split_cached d domains).1 ++ map fallback (split_cached d domains).2,
     d, [take 20 (split_cached d domains).2]).
Proof.
  intros Hen Hne Hreq. unfold handleClassifyDomain.
  destruct domains as [|x l]; [by destruct Hne|].
  destruct (split_cached d (x :: l)) as [results unc]; simpl in *.
  destruct unc as [|y unc]; [by destruct Hne|].
  rewrite Hen, classifyDomains_requests by discriminate.
  by rewrite Hreq.
Qed.

End ClassifierFacts.

(** C2 (counterexample).  Forty-five unresolved domains: where the
    specification has three calls, one run issues a single request for
    the first twenty and leaves the twenty-first unresolved; and when that request
    fails, nothing is written, so even the first domain has no record,
    neutral or otherwise. *)
Lemma batch_of_45_is_one_call :
  let c := Examples.new_year in
  let u := Classifier.uncached Examples.forty_five
             (Db.sessions_by_date Examples.forty_five (Clock.today c)) in
  let ok := Classifier.batchClassifyDomains Examples.forty_five (Examples.answering_env c) in
  let ko := Classifier.batchClassifyDomains Examples.forty_five (Examples.quiet_env c) in
  u = Examples.sites 45
  ∧ Spec.batch_calls (length u) = 3%nat
  ∧ ok.2 = [Examples.sites 20]
  ∧ Db.domain_classifications ok.1 !! Examples.site 20 = None
  ∧ ko.2 = [Examples.sites 20]
  ∧ Db.domain_classifications ko.1 !! Examples.site 0 = None.
Proof. vm_compute. repeat split; reflexivity. Qed.

(** C2 (amended).  One run of batch classification issues at most one
    classifier request, and that request carries the first 20 at most of
    the still-unresolved domains; AI being enabled and some domain being
    unresolved, it issues exactly that one.  When the request succeeds
    every domain it returns has a cache record with source ai; when it
    fails the database is left as it was.  The on-demand handler answers
    a failed request with a neutral record of source fallback for each
    uncached domain and stores none of them. *)
Theorem batch_classification_one_request (d : Db.t) (env : Env.t) :
  let c := Env.clock env in
  let u := Classifier.uncached d (Db.sessions_by_date d (Clock.today c)) in
  let r := Classifier.batchClassifyDomains d env in
  (r.2 = [] ∨ r.2 = [take 20 u])
  ∧ Forall (fun batch => (length batch <= 20)%nat) r.2
  ∧ (Classifier.isAIEnabled d = true -> u ≠ [] -> r.2 = [take 20 u])
  ∧ (∀ items, Classifier.isAIEnabled d = true -> u ≠ [] ->
       Env.ai_request env (take 20 u) = Res.Ok items ->
       ∀ item, item ∈ items ->
         ∃ rec, Db.domain_classifications r.1 !! ClassItem.domain item = Some rec
                ∧ ClassRecord.source rec = "ai")
  ∧ (∀ msg, Env.ai_request env (take 20 u) = Res.Err msg -> r.1 = d)
  ∧ (∀ msg domains, Classifier.isAIEnabled d = true ->
       (Classifier.split_cached d domains).2 ≠ [] ->
       Env.ai_request env (take 20 (Classifier.split_cached d domains).2) = Res.Err msg ->
       Classifier.handleClassifyDomain d env domains
       = ((Classifier.split_cached d domains).1
            ++ map Classifier.fallback (Classifier.split_cached d domains).2,
          d, [take 20 (Classifier.split_cached d domains).2])).
Proof.
  intros c u r.
  assert (Hh : ∀ msg domains, Classifier.isAIEnabled d = true ->
       (Classifier.split_cached d domains).2 ≠ [] ->
       Env.ai_request env (take 20 (Classifier.split_cached d domains).2) = Res.Err msg ->
       Classifier.handleClassifyDomain d env domains
       = ((Classifier.split_cached d domains).1
            ++ map Classifier.fallback (Classifier.split_cached d domains).2,
          d, [take 20 (Classifier.split_cached d domains).2])).
  { intros msg domains ? ? ?. by eapply handler_fallback_aux. }
  subst r. rewrite batchClassifyDomains_eq. fold c. fold u.
  assert (Hlen : (length (take 20 u) <= 20)%nat) by (rewrite length_take; lia).
  destruct (Classifier.isAIEnabled d) eqn:Hen; simpl.
  2: { repeat split; try (by left); try done; try (by constructor). }
  destruct (decide (u = [])) as [Hu|Hne].
  { rewrite Hu. repeat split; try (by left); try done; try (by constructor). }
  assert (Hbody :
    match u with
    | [] => (d, [])
    | _ :: _ =>
        match Env.ai_request env (take 20 u) with
        | Res.Ok items =>
            (Aggregator.aggregateDailyStats
               (foldl (Classifier.put_ai (Clock.now c)) d items) c, [take 20 u])
        | Res.Err _ => (d, [take 20 u])
        end
    end
    = match Env.ai_request env (take 20 u) with
      | Res.Ok items =>
          (Aggregator.aggregateDailyStats
             (foldl (Classifier.put_ai (Clock.now c)) d items) c, [take 20 u])
      | Res.Err _ => (d, [take 20 u])
      end).
  { destruct u; [congruence|reflexivity]. }
  rewrite Hbody. clear Hbody.
  destruct (Env.ai_request env (take 20 u)) as [items|msg] eqn:Hreq; simpl.
  - repeat split; try (by right); try done; try (by repeat constructor).
    intros items' _ _ [= <-] item Hin.
    apply (fold_put_ai (Clock.now c) items d). left.
    apply list_elem_of_fmap. by exists item.
  - repeat split; try (by right); try done; try (by repeat constructor).
Qed.

Lemma batch_classification_witness :
  let c := Examples.new_year in
  let u := Classifier.uncached Examples.forty_five
             (Db.sessions_by_date Examples.forty_five (Clock.today c)) in
  (Classifier.batchClassifyDomains Examples.forty_five (Examples.answering_env c)).2
  = [take 20 u]
  ∧ (Classifier.batchClassifyDomains Examples.forty_five (Examples.quiet_env c)).1
    = Examples.forty_five.
Proof.
  intros c u.
  destruct (batch_classification_one_request Examples.forty_five (Examples.answering_env c))
    as (_ & _ & H3 & _).
  destruct (batch_classification_one_request Examples.forty_five (Examples.quiet_env c))
    as (_ & _ & _ & _ & H5 & _).
  split.
  - apply H3; [vm_compute; reflexivity|]. vm_compute. discriminate.
  - apply (H5 "offline"). vm_compute. reflexivity.
Defined.

(** ** Stale-tolerant remote cache *)

Section RemoteFacts.
Import Remote Contract.

Lemma fresh_young {A} ttl now (e : CacheEntry.t A) :
  now - CacheEntry.fetchedAt e < ttl -> fresh ttl now (Some e) = Some (CacheEntry.data e).
Proof. intros H. unfold fresh. by rewrite (proj2 (Z.ltb_lt _ _) H). Qed.

Lemma fresh_old {A} ttl now (e : CacheEntry.t A) :
  ttl <= now - CacheEntry.fetchedAt e -> fresh ttl now (Some e) = None.
Proof. intros H. unfold fresh. by rewrite (proj2 (Z.ltb_ge _ _) H). Qed.

Lemma weather_stale_tolerant :
  stale_tolerant (15 * 60 * 1000) true Db.cache_weather Env.weather_fetch handleGetWeather.
Proof.
  intros d env now. unfold handleGetWeather. fold now. repeat split.
  - intros e -> Hy. by rewrite fresh_young.
  - intros e msg -> Ho ->. by rewrite fresh_old.
  - by intros msg -> ->.
Qed.

Lemma github_stale_tolerant :
  stale_tolerant (5 * 60 * 1000) true Db.cache_github Env.github_fetch handleGetGithubRepos.
Proof.
  intros d env now. unfold handleGetGithubRepos. fold now. repeat split.
  - intros e -> Hy. by rewrite fresh_young.
  - intros e msg -> Ho ->. by rewrite fresh_old.
  - by intros msg -> ->.
Qed.

Lemma calendar_stale_tolerant :
  stale_tolerant CACHE_TTL false Db.cache_calendar Env.calendar_fetch getTodaysEvents.
Proof.
  intros d env now. unfold getTodaysEvents. fold now. repeat split.
  - intros e -> Hy. by rewrite fresh_young.
  - intros e msg -> Ho ->. by rewrite fresh_old.
  - by intros msg -> ->.
Qed.

End RemoteFacts.

(** C8 (counterexample).  The calendar fetch fails while a record
    fetched twenty minutes earlier is cached: the fetcher was called and
    the cached events come back, but the value returned is the cached
    array itself and carries no stale mark. *)
Lemma calendar_fallback_not_marked_stale :
  let o := Remote.getTodaysEvents Examples.twenty_minutes_old
             (Examples.quiet_env Examples.new_year) in
  Remote.fetcher_called o = true
  ∧ Remote.value o = Res.Ok (Remote.mkReturned [Examples.standup] false)
  ∧ Remote.value o ≠ Res.Ok (Remote.mkReturned [Examples.standup] true).
Proof. vm_compute. repeat split. discriminate. Qed.

(** C8 (amended).  The weather and GitHub handlers (TTLs of 15 and 5
    minutes) return a cached payload younger than the TTL without
    calling the fetcher, return the cached payload marked stale when the
    fetcher fails, and throw the fetcher's error on when nothing is
    cached.  The calendar fetch (TTL 5 minutes) does the same except
    that the payload it falls back to is returned without a stale
    mark. *)
Theorem remote_cache_contract :
  Contract.stale_tolerant (15 * 60 * 1000) true
    Db.cache_weather Env.weather_fetch Remote.handleGetWeather
  ∧ Contract.stale_tolerant (5 * 60 * 1000) true
      Db.cache_github Env.github_fetch Remote.handleGetGithubRepos
  ∧ Contract.stale_tolerant Remote.CACHE_TTL false
      Db.cache_calendar Env.calendar_fetch Remote.getTodaysEvents.
Proof.
  split; [apply weather_stale_tolerant|].
  split; [apply github_stale_tolerant|apply calendar_stale_tolerant].
Qed.

(** The weather scenario: a record fetched twenty minutes ago, the
    fetch fails, the cached payload comes back marked stale. *)
Lemma remote_cache_witness :
  Remote.handleGetWeather Examples.twenty_minutes_old (Examples.quiet_env Examples.new_year)
  = Remote.mkOutcome (Res.Ok (Remote.mkReturned Examples.sunny true))
                     Examples.twenty_minutes_old true.
Proof.
  destruct remote_cache_contract as (Hw & _).
  destruct (Hw Examples.twenty_minutes_old (Examples.quiet_env Examples.new_year))
    as (_ & Hstale & _).
  apply (Hstale (CacheEntry.mk Examples.sunny 1704069700000 (Some 1704156100000)) "offline").
  - reflexivity.
  - vm_compute. discriminate.
  - reflexivity.
Defined.

(** ** Session tracker *)

Section TrackerFacts.
Import Tracker Measure.

Lemma celebrate_sessions dom w env :
  Db.browsing_sessions (World.db (celebrateFirstProductiveAction dom w env).1)
  = Db.browsing_sessions (World.db w).
Proof. unfold celebrateFirstProductiveAction. repeat case_match; reflexivity. Qed.

Lemma endPreviousSession_sessions w now :
  Db.browsing_sessions (World.db (endPreviousSession w now))
  = Db.browsing_sessions (World.db w) ++ closing w now.
Proof.
  unfold endPreviousSession, closing.
  destruct (World.activeTabState w) as [st|]; [|by rewrite app_nil_r].
  destruct (1000 <? now - TabState.startTime st); [reflexivity|by rewrite app_nil_r].
Qed.

Lemma handleTabChange_sessions tab w env :
  Db.browsing_sessions (World.db (handleTabChange tab w env).1)
  = Db.browsing_sessions (World.db w) ++ closing w (Clock.now (Env.clock env)).
Proof.
  unfold handleTabChange.
  destruct (shouldExclude (Tab.url tab)); simpl.
  - apply endPreviousSession_sessions.
  - rewrite celebrate_sessions. simpl. apply endPreviousSession_sessions.
Qed.

Lemma handleTabChange_persisted tab w env :
  Measure.persisted (handleTabChange tab) w env = closing w (Clock.now (Env.clock env)).
Proof.
  unfold Measure.persisted. rewrite handleTabChange_sessions. apply drop_app_length.
Qed.

End TrackerFacts.

(** C9.  When the active context changes, the sessions handed to
    storage are exactly the ones appended to browsing_sessions; each has
    endTime = now and duration = now - startTime, hence
    endTime >= startTime, and lasted more than one second; a session
    that lasted less than one second is not handed to storage. *)
Theorem tab_change_persists_well_formed (tab : Tab.t) (w : World.t) (env : Env.t) :
  let now := Clock.now (Env.clock env) in
  let saved := Measure.persisted (Tracker.handleTabChange tab) w env in
  Db.browsing_sessions (World.db (Tracker.handleTabChange tab w env).1)
  = Db.browsing_sessions (World.db w) ++ saved
  ∧ (∀ s, s ∈ saved ->
       Session.endTime s = now
       ∧ Session.duration s = now - Session.startTime s
       ∧ Session.startTime s <= Session.endTime s
       ∧ 1000 < Session.duration s
       ∧ ∃ st, World.activeTabState w = Some st
               ∧ Session.startTime s = TabState.startTime st)
  ∧ (∀ st, World.activeTabState w = Some st ->
       now - TabState.startTime st < 1000 -> saved = []).
Proof.
  intros now saved. subst saved. rewrite handleTabChange_persisted.
  split; [apply handleTabChange_sessions|]. fold now. unfold Measure.closing. split.
  - intros s Hs. destruct (World.activeTabState w) as [st|]; [|by apply elem_of_nil in Hs].
    destruct (1000 <? now - TabState.startTime st) eqn:Hd; [|by apply elem_of_nil in Hs].
    apply list_elem_of_singleton in Hs. subst s. simpl.
    apply Z.ltb_lt in Hd. repeat split; try lia. by exists st.
  - intros st -> Hshort.
    destruct (1000 <? now - TabState.startTime st) eqn:Hd; [|reflexivity].
    apply Z.ltb_lt in Hd. lia.
Qed.

Lemma tab_change_witness :
  ∃ s, s ∈ Measure.persisted (Tracker.handleTabChange Examples.docs_tab) Examples.browsing
             (Examples.quiet_env Examples.new_year)
       ∧ Session.endTime s = 1704070900000
       ∧ Session.startTime s <= Session.endTime s.
Proof.
  destruct (tab_change_persists_well_formed Examples.docs_tab Examples.browsing
              (Examples.quiet_env Examples.new_year)) as (_ & Hwf & _).
  set (s := Session.mk "https://github.com/" "github.com" "GitHub" 1704067200000
                       1704070900000 3700000 "2024-01-01" "unclassified" 1706659200000).
  assert (Hin : s ∈ Measure.persisted (Tracker.handleTabChange Examples.docs_tab)
                      Examples.browsing (Examples.quiet_env Examples.new_year)).
  { vm_compute. apply list_elem_of_here. }
  exists s. destruct (Hwf s Hin) as (He & _ & Hle & _).
  split; [exact Hin|]. split; [exact He|exact Hle].
Defined.

(** ** Meeting awareness *)

Section MeetingFacts.
Import Scheduler Measure.

Lemma due_spec lead now evs id :
  due lead now evs id = true
  ↔ ∃ e, e ∈ evs ∧ CalEvent.id e = id ∧ in_window lead now e = true.
Proof.
  unfold due. induction evs as [|e evs IH]; simpl.
  - split; [discriminate|]. intros (e & He & _). by apply elem_of_nil in He.
  - rewrite orb_true_iff, andb_true_iff, String.eqb_eq, IH. split.
    + intros [[Hid Hw]|(e' & He' & H)].
      * exists e. split; [apply list_elem_of_here|done].
      * exists e'. split; [by apply list_elem_of_further|done].
    + intros (e' & He' & Hid & Hw). apply elem_of_cons in He' as [->|He'].
      * by left.
      * right. by exists e'.
Qed.

Lemma occurrences_app n l1 l2 :
  occurrences n (l1 ++ l2) = (occurrences n l1 + occurrences n l2)%nat.
Proof. unfold occurrences. by rewrite filter_app, length_app. Qed.

Lemma occurrences_one n m :
  occurrences n [m] = if decide (m = n) then 1%nat else 0%nat.
Proof.
  unfold occurrences. rewrite filter_cons, filter_nil. by destruct (decide (m = n)).
Qed.

Lemma warn_step_known lead now N out e :
  CalEvent.id e ∈ N -> warn_step lead now (N, out) e = (N, out).
Proof. intros H. unfold warn_step. simpl. by rewrite bool_decide_eq_true_2. Qed.

Lemma warn_step_fire lead now N out e :
  CalEvent.id e ∉ N -> in_window lead now e = true ->
  warn_step lead now (N, out) e
  = ({[CalEvent.id e]} ∪ N, out ++ [Notif.meeting (CalEvent.id e)]).
Proof.
  intros H Hw. unfold warn_step. simpl. by rewrite bool_decide_eq_false_2, Hw.
Qed.

Lemma warn_step_skip lead now N out e :
  CalEvent.id e ∉ N -> in_window lead now e = false ->
  warn_step lead now (N, out) e = (N, out).
Proof.
  intros H Hw. unfold warn_step. simpl. by rewrite bool_decide_eq_false_2, Hw.
Qed.

Lemma due_cons lead now e evs id :
  due lead now (e :: evs) id
  = (String.eqb (CalEvent.id e) id && in_window lead now e) || due lead now evs id.
Proof. reflexivity. Qed.

Lemma foldl_cons {A B} (f : A -> B -> A) a x l :
  foldl f a (x :: l) = foldl f (f a x) l.
Proof. reflexivity. Qed.

(** The loop over the events, from any set and any output so far. *)
Lemma warn_fold lead now evs : ∀ N out,
  let r := foldl (warn_step lead now) (N, out) evs in
  (∀ id, id ∈ r.1 ↔ id ∈ N ∨ due lead now evs id = true)
  ∧ (∀ id, occurrences (Notif.meeting id) r.2
           = (occurrences (Notif.meeting id) out
              + if bool_decide (id ∈ N) then 0
                else if due lead now evs id then 1 else 0)%nat)
  ∧ (∀ n, n ∈ r.2 ->
          n ∈ out ∨ ∃ e, e ∈ evs ∧ n = Notif.meeting (CalEvent.id e)
                         ∧ in_window lead now e = true ∧ CalEvent.id e ∉ N).
Proof.
  induction evs as [|e evs IH]; intros N out r.
  - subst r. simpl. repeat split.
    + by left.
    + by intros [?|?].
    + intros id. case_bool_decide; lia.
    + by left.
  - subst r. rewrite foldl_cons.
    destruct (decide (CalEvent.id e ∈ N)) as [HN|HN].
    { rewrite warn_step_known by done.
      destruct (IH N out) as (IH1 & IH2 & IH3). repeat split.
      - intros H. apply IH1 in H as [H|H]; [by left|]. right.
        rewrite due_cons, H. apply orb_true_r.
      - intros [H|H]; apply IH1; [by left|].
        rewrite due_cons in H.
        apply orb_true_iff in H as [H|H]; [|by right].
        apply andb_true_iff in H as [H _]. apply String.eqb_eq in H. subst id. by left.
      - intros id. rewrite IH2, due_cons. case_bool_decide as Hid; [reflexivity|].
        destruct (String.eqb_spec (CalEvent.id e) id) as [<-|Hne]; [done|reflexivity].
      - intros n Hn. apply IH3 in Hn as [Hn|(e' & He' & H)]; [by left|].
        right. exists e'. split; [by apply list_elem_of_further|done]. }
    destruct (in_window lead now e) eqn:Hw.
    + rewrite warn_step_fire by done.
      destruct (IH ({[CalEvent.id e]} ∪ N) (out ++ [Notif.meeting (CalEvent.id e)]))
        as (IH1 & IH2 & IH3).
      repeat split.
      * intros H. apply IH1 in H as [H|H].
        -- apply elem_of_union in H as [H|H]; [|by left].
           apply elem_of_singleton in H. subst id. right.
           by rewrite due_cons, String.eqb_refl, Hw.
        -- right. rewrite due_cons, H. apply orb_true_r.
      * intros [H|H]; apply IH1.
        -- left. apply elem_of_union. by right.
        -- rewrite due_cons in H. apply orb_true_iff in H as [H|H]; [|by right].
           apply andb_true_iff in H as [H _]. apply String.eqb_eq in H. subst id.
           left. apply elem_of_union. left. by apply elem_of_singleton.
      * intros id. rewrite IH2, occurrences_app, occurrences_one, due_cons, Hw.
        destruct (String.eqb_spec (CalEvent.id e) id) as [<-|Hne]; simpl.
        -- rewrite decide_True by reflexivity.
           rewrite bool_decide_eq_true_2
             by (apply elem_of_union; left; by apply elem_of_singleton).
           rewrite bool_decide_eq_false_2 by done. lia.
        -- rewrite decide_False by congruence.
           case_bool_decide as H1; case_bool_decide as H2; try lia.
           ++ exfalso. apply H2. apply elem_of_union in H1 as [H1|H1]; [|done].
              apply elem_of_singleton in H1. congruence.
           ++ exfalso. apply H1. apply elem_of_union. by right.
      * intros n Hn. apply IH3 in Hn as [Hn|(e' & He' & Hn & Hw' & HN')].
        -- apply elem_of_app in Hn as [Hn|Hn]; [by left|].
           apply list_elem_of_singleton in Hn. right. exists e.
           split; [apply list_elem_of_here|done].
        -- right. exists e'. split; [by apply list_elem_of_further|].
           repeat split; try done. intros H. apply HN'. apply elem_of_union. by right.
    + rewrite warn_step_skip by done.
      destruct (IH N out) as (IH1 & IH2 & IH3). repeat split.
      * intros H. apply IH1 in H as [H|H]; [by left|]. right.
        rewrite due_cons, H. apply orb_true_r.
      * intros [H|H]; apply IH1; [by left|].
        rewrite due_cons, Hw, andb_false_r in H. by right.
      * intros id. rewrite IH2, due_cons, Hw, andb_false_r. reflexivity.
      * intros n Hn. apply IH3 in Hn as [Hn|(e' & He' & H)]; [by left|].
        right. exists e'. split; [by apply list_elem_of_further|done].
Qed.

Lemma safeTodaysEvents_settings d env :
  Db.settings (Remote.safeTodaysEvents d env).2 = Db.settings d.
Proof.
  unfold Remote.safeTodaysEvents, Remote.getTodaysEvents.
  repeat case_match; reflexivity.
Qed.

Lemma warningWindowMs_settings d d' :
  Db.settings d' = Db.settings d -> warningWindowMs d' = warningWindowMs d.
Proof. intros H. unfold warningWindowMs, Db.config_get. by rewrite H. Qed.

(** A check that goes through the loops. *)
Lemma checkMeetingAwareness_run w env evs :
  meetings_enabled w = true -> seen w env = Some evs -> evs ≠ [] ->
  let now := Clock.now (Env.clock env) in
  let r := warn_loop (warningWindowMs (World.db w)) now (World.notifiedMeetings w) evs in
  (checkMeetingAwareness w env).2 = r.2
  ∧ World.notifiedMeetings (checkMeetingAwareness w env).1 = prune now evs r.1.
Proof.
  intros Hen Hseen Hne now r.
  unfold meetings_enabled in Hen. unfold seen in Hseen. unfold checkMeetingAwareness.
  apply negb_true_iff in Hen. rewrite Hen.
  pose proof (safeTodaysEvents_settings (World.db w) env) as Hset.
  destruct (Remote.safeTodaysEvents (World.db w) env) as [o db'].
  simpl in Hseen, Hset. subst o.
  destruct evs as [|e evs]; [congruence|].
  simpl World.db. rewrite (warningWindowMs_settings _ _ Hset).
  simpl World.notifiedMeetings. fold now. fold r.
  by destruct r.
Qed.

(** A check that returns before the loops. *)
Lemma checkMeetingAwareness_idle w env :
  meetings_enabled w = false ∨ seen w env = None ∨ seen w env = Some [] ->
  (checkMeetingAwareness w env).2 = []
  ∧ World.notifiedMeetings (checkMeetingAwareness w env).1 = World.notifiedMeetings w.
Proof.
  unfold meetings_enabled, seen, checkMeetingAwareness. intros H.
  destruct (Js.is_false _); [done|].
  destruct H as [H|H]; [discriminate|].
  destruct (Remote.safeTodaysEvents (World.db w) env) as [o db'].
  simpl in H. by destruct H as [->| ->].
Qed.

Lemma checkMeetingAwareness_cases w env :
  (meetings_enabled w = false ∨ seen w env = None ∨ seen w env = Some [])
  ∨ ∃ evs, meetings_enabled w = true ∧ seen w env = Some evs ∧ evs ≠ [].
Proof.
  destruct (meetings_enabled w); [|by left; left].
  destruct (seen w env) as [[|e evs]|].
  - left. right. by right.
  - right. by exists (e :: evs).
  - left. right. by left.
Qed.

Lemma checkMeetingAwareness_settings w env :
  Db.settings (World.db (checkMeetingAwareness w env).1) = Db.settings (World.db w).
Proof.
  unfold checkMeetingAwareness.
  destruct (Js.is_false _); [done|].
  pose proof (safeTodaysEvents_settings (World.db w) env) as Hset.
  destruct (Remote.safeTodaysEvents (World.db w) env) as [o db'].
  simpl in Hset. destruct o as [[|e evs]|]; try done.
  by destruct (warn_loop _ _ _ _).
Qed.

Lemma in_window_bounds lead now e :
  in_window lead now e = true
  ↔ lead - 60000 < CalEvent.start e - now ∧ CalEvent.start e - now <= lead + 120000.
Proof.
  unfold in_window, bufferMs. rewrite andb_true_iff, Z.ltb_lt, Z.leb_le. lia.
Qed.

(** A warning is for an event seen by the check, not yet warned, whose
    start lies in the window. *)
Lemma meeting_fires_in_window w env id :
  Notif.meeting id ∈ (checkMeetingAwareness w env).2 ->
  ∃ evs e, seen w env = Some evs ∧ e ∈ evs ∧ CalEvent.id e = id
           ∧ (id ∉ World.notifiedMeetings w)
           ∧ in_window (warningWindowMs (World.db w)) (Clock.now (Env.clock env)) e = true.
Proof.
  intros Hin.
  destruct (checkMeetingAwareness_cases w env) as [Hidle|(evs & Hen & Hseen & Hne)].
  - apply checkMeetingAwareness_idle in Hidle as [Hnil _].
    rewrite Hnil in Hin. by apply elem_of_nil in Hin.
  - destruct (checkMeetingAwareness_run w env evs Hen Hseen Hne) as [Hf _].
    rewrite Hf in Hin. unfold warn_loop in Hin.
    apply (warn_fold _ _ evs (World.notifiedMeetings w) []) in Hin
      as [Hin|(e & He & [= ->] & Hw & HN)]; [by apply elem_of_nil in Hin|].
    by exists evs, e.
Qed.

Lemma meeting_fires_once w env evs m :
  meetings_enabled w = true -> seen w env = Some evs -> m ∈ evs ->
  CalEvent.id m ∉ World.notifiedMeetings w ->
  in_window (warningWindowMs (World.db w)) (Clock.now (Env.clock env)) m = true ->
  occurrences (Notif.meeting (CalEvent.id m)) (checkMeetingAwareness w env).2 = 1%nat.
Proof.
  intros Hen Hseen Hm HN Hw.
  assert (Hne : evs ≠ []) by (intros ->; by apply elem_of_nil in Hm).
  destruct (checkMeetingAwareness_run w env evs Hen Hseen Hne) as [Hf _].
  rewrite Hf. unfold warn_loop.
  destruct (warn_fold (warningWindowMs (World.db w)) (Clock.now (Env.clock env)) evs
              (World.notifiedMeetings w) []) as (_ & Hc & _).
  rewrite Hc. rewrite bool_decide_eq_false_2 by done.
  assert (Hdue : due (warningWindowMs (World.db w)) (Clock.now (Env.clock env)) evs
                     (CalEvent.id m) = true).
  { apply due_spec. by exists m. }
  by rewrite Hdue.
Qed.

(** The clean-up looks at the first fetched event that has the id. *)
Lemma keep_not_found now evs id :
  List.find (fun e => String.eqb (CalEvent.id e) id) evs = None ->
  keep now evs id = true.
Proof. intros H. unfold keep. by rewrite H. Qed.

Lemma keep_young now evs id e :
  List.find (fun e => String.eqb (CalEvent.id e) id) evs = Some e ->
  now - CalEvent.start e <= 3600000 ->
  keep now evs id = true.
Proof.
  intros H Hyoung. unfold keep. rewrite H. apply negb_true_iff, Z.ltb_ge. lia.
Qed.

Lemma keep_old now evs id e :
  List.find (fun e => String.eqb (CalEvent.id e) id) evs = Some e ->
  3600000 < now - CalEvent.start e ->
  keep now evs id = false.
Proof.
  intros H Hold. unfold keep. rewrite H. apply negb_false_iff, Z.ltb_lt. lia.
Qed.

Lemma keep_all_young now evs id :
  (∀ e, e ∈ evs -> CalEvent.id e = id -> now - CalEvent.start e <= 3600000) ->
  keep now evs id = true.
Proof.
  intros Hy.
  destruct (List.find (fun e => String.eqb (CalEvent.id e) id) evs) as [e|] eqn:Hfind.
  - apply keep_young with e; [done|].
    apply List.find_some in Hfind as [He Hid].
    apply list_elem_of_In in He. apply String.eqb_eq in Hid. by apply Hy.
  - by apply keep_not_found.
Qed.

(** The warned set after a check that goes through the loops. *)
Lemma meeting_memory w env evs id :
  meetings_enabled w = true -> seen w env = Some evs -> evs ≠ [] ->
  let now := Clock.now (Env.clock env) in
  id ∈ World.notifiedMeetings (checkMeetingAwareness w env).1
  ↔ keep now evs id = true
    ∧ (id ∈ World.notifiedMeetings w
       ∨ due (warningWindowMs (World.db w)) now evs id = true).
Proof.
  intros Hen Hseen Hne now.
  destruct (checkMeetingAwareness_run w env evs Hen Hseen Hne) as [_ HN].
  rewrite HN. unfold prune. rewrite elem_of_filter. unfold warn_loop.
  destruct (warn_fold (warningWindowMs (World.db w)) now evs
              (World.notifiedMeetings w) []) as (Hmem & _).
  fold now. by rewrite (Hmem id).
Qed.

(** An id in the warned set blocks the warning. *)
Lemma meeting_blocked w env id :
  id ∈ World.notifiedMeetings w -> Notif.meeting id ∉ (checkMeetingAwareness w env).2.
Proof.
  intros HN Hin.
  by apply meeting_fires_in_window in Hin as (evs & e & _ & _ & _ & Hnot & _).
Qed.

Lemma meeting_kept_unseen w env id :
  id ∈ World.notifiedMeetings w ->
  meetings_enabled w = false ∨ seen w env = None
  ∨ (∃ evs, seen w env = Some evs
            ∧ List.find (fun e => String.eqb (CalEvent.id e) id) evs = None) ->
  id ∈ World.notifiedMeetings (checkMeetingAwareness w env).1.
Proof.
  intros HN H.
  destruct (checkMeetingAwareness_cases w env) as [Hidle|(evs & Hen & Hseen & Hne)].
  - apply checkMeetingAwareness_idle in Hidle as [_ ->]. exact HN.
  - destruct H as [H|[H|(evs' & Hseen' & Hfind)]]; try congruence.
    assert (evs' = evs) as -> by congruence.
    apply (meeting_memory w env evs id Hen Hseen Hne).
    split; [by apply keep_not_found|by left].
Qed.

Lemma meeting_kept_young w env evs e id :
  id ∈ World.notifiedMeetings w ->
  seen w env = Some evs ->
  List.find (fun e => String.eqb (CalEvent.id e) id) evs = Some e ->
  Clock.now (Env.clock env) - CalEvent.start e <= 3600000 ->
  id ∈ World.notifiedMeetings (checkMeetingAwareness w env).1.
Proof.
  intros HN Hseen Hfind Hyoung.
  destruct (checkMeetingAwareness_cases w env) as [Hidle|(evs' & Hen & Hseen' & Hne)].
  - apply checkMeetingAwareness_idle in Hidle as [_ ->]. exact HN.
  - assert (evs' = evs) as -> by congruence.
    apply (meeting_memory w env evs id Hen Hseen Hne).
    split; [by apply keep_young with e|by left].
Qed.

Lemma meeting_pruned w env evs e id :
  meetings_enabled w = true -> seen w env = Some evs ->
  List.find (fun e => String.eqb (CalEvent.id e) id) evs = Some e ->
  3600000 < Clock.now (Env.clock env) - CalEvent.start e ->
  id ∉ World.notifiedMeetings (checkMeetingAwareness w env).1.
Proof.
  intros Hen Hseen Hfind Hold Hin.
  assert (Hne : evs ≠ []) by (intros ->; discriminate).
  apply (meeting_memory w env evs id Hen Hseen Hne) in Hin as [Hk _].
  by rewrite (keep_old _ _ _ _ Hfind Hold) in Hk.
Qed.

Lemma meeting_remembered w env evs m :
  meetings_enabled w = true -> seen w env = Some evs -> m ∈ evs ->
  in_window (warningWindowMs (World.db w)) (Clock.now (Env.clock env)) m = true ->
  (∀ e, e ∈ evs -> CalEvent.id e = CalEvent.id m ->
        Clock.now (Env.clock env) - CalEvent.start e <= 3600000) ->
  CalEvent.id m ∈ World.notifiedMeetings (checkMeetingAwareness w env).1.
Proof.
  intros Hen Hseen Hm Hw Hyoung.
  assert (Hne : evs ≠ []) by (intros ->; by apply elem_of_nil in Hm).
  apply (meeting_memory w env evs _ Hen Hseen Hne).
  split; [by apply keep_all_young|].
  right. apply due_spec. by exists m.
Qed.

(** The lead is the stored number of minutes, 5 when none is stored or
    the stored number is 0. *)
Lemma warningWindowMs_stored d v :
  Db.settings d !! "meetingWarningMinutes" = Some (Js.VNum v) -> v ≠ 0 ->
  warningWindowMs d = v * 60000.
Proof.
  intros H Hv. unfold warningWindowMs, Db.config_get, Config.getSetting.
  rewrite H. simpl. apply Z.eqb_neq in Hv. rewrite Hv. lia.
Qed.

Lemma warningWindowMs_default d :
  Db.settings d !! "meetingWarningMinutes" = None
  ∨ Db.settings d !! "meetingWarningMinutes" = Some (Js.VNum 0) ->
  warningWindowMs d = 300000.
Proof.
  intros [H|H]; unfold warningWindowMs, Db.config_get, Config.getSetting; by rewrite H.
Qed.

End MeetingFacts.

(** C7 (counterexample).  The standup of 09:00 is warned at 08:55.  At
    10:01, more than one hour after its start, the calendar no longer
    lists it (it answers with the lunch alone, or with nothing): the
    clean-up only deletes an id it finds among the fetched events, and a
    check that fetches no event returns before the clean-up, so the id
    stays in the warned set.  At 10:55 the calendar lists the standup,
    moved to 11:00, exactly the configured lead away: its id is still in
    the warned set and no warning is created. *)
Lemma warned_meeting_not_forgotten :
  let w0 := World.initial Db.empty in
  let w1 := (Scheduler.checkMeetingAwareness w0
               (Examples.calendar_env Examples.five_before)).1 in
  let w2 := (Scheduler.checkMeetingAwareness w1
               (Examples.calendar_of [Examples.lunch] Examples.hour_after)).1 in
  let w2' := (Scheduler.checkMeetingAwareness w1
                (Examples.calendar_of [] Examples.hour_after)).1 in
  (Scheduler.checkMeetingAwareness w0 (Examples.calendar_env Examples.five_before)).2
  = [Notif.meeting "evt-standup"]
  ∧ 3600000 < Clock.now Examples.hour_after - CalEvent.start Examples.standup
  ∧ "evt-standup" ∈ World.notifiedMeetings w2
  ∧ "evt-standup" ∈ World.notifiedMeetings w2'
  ∧ Measure.seen w2 (Examples.calendar_of [Examples.standup_moved] Examples.five_to_eleven)
    = Some [Examples.standup_moved]
  ∧ CalEvent.id Examples.standup_moved = "evt-standup"
  ∧ CalEvent.start Examples.standup_moved - Clock.now Examples.five_to_eleven
    = Scheduler.warningWindowMs (World.db w2)
  ∧ (Scheduler.checkMeetingAwareness w2
       (Examples.calendar_of [Examples.standup_moved] Examples.five_to_eleven)).2 = [].
Proof. cbv zeta. repeat split; vm_compute; reflexivity. Qed.

(** The warned set is memory of the worker: warned at 08:55:00, the
    standup is warned again at 08:55:30 when the worker was started
    again in between. *)
Lemma meeting_rewarned_after_restart :
  Worker.fired_at (Notif.meeting "evt-standup")
    (Worker.run (World.initial Db.empty)
       [ Worker.Alarm Worker.heartbeat (Examples.calendar_env Examples.five_before);
         Worker.Started (Examples.calendar_env Examples.soon_after);
         Worker.Alarm Worker.heartbeat (Examples.calendar_env Examples.soon_after) ]).2
  = [1704099300000; 1704099330000].
Proof. vm_compute. reflexivity. Qed.

(** C7 (amended).  For a check of the meetings on world [w]:
    - the lead is the stored meetingWarningMinutes times one minute, and
      5 minutes when none is stored or 0 is stored;
    - a warning is created only for a fetched event, not yet in the
      warned set, with meeting awareness not switched off, whose time
      until start lies in (lead - 1 minute, lead + 2 minutes];
    - a fetched meeting exactly the lead away and not warned yet gets one
      warning; when no fetched event with its id started more than one
      hour ago, its id is in the warned set afterwards and the next
      check, whenever it runs and whatever it fetches, creates no warning
      for it;
    - an id in the warned set blocks the warning;
    - an id of the warned set stays, and blocks the next check, when
      meeting awareness is off, the fetch fails, or no fetched event has
      the id (so also when nothing is fetched), and when the first
      fetched event with the id started at most one hour ago;
    - it is removed when meeting awareness is on and the first fetched
      event with the id started more than one hour ago, after which a
      check that finds a meeting with the id a lead away warns again. *)
Theorem meeting_warning_and_pruning (w : World.t) (env : Env.t) :
  let now := Clock.now (Env.clock env) in
  let lead := Scheduler.warningWindowMs (World.db w) in
  let w1 := (Scheduler.checkMeetingAwareness w env).1 in
  let first_with id evs :=
    List.find (fun e => String.eqb (CalEvent.id e) id) evs in
  let stays id :=
    id ∈ World.notifiedMeetings w1
    ∧ ∀ env2, Notif.meeting id ∉ (Scheduler.checkMeetingAwareness w1 env2).2 in
  ((∀ v, Db.settings (World.db w) !! "meetingWarningMinutes" = Some (Js.VNum v) ->
         v ≠ 0 -> lead = v * 60000)
   ∧ (Db.settings (World.db w) !! "meetingWarningMinutes" = None
      ∨ Db.settings (World.db w) !! "meetingWarningMinutes" = Some (Js.VNum 0) ->
      lead = 5 * 60000))
  ∧ (∀ id, Notif.meeting id ∈ (Scheduler.checkMeetingAwareness w env).2 ->
     ∃ evs e, Measure.seen w env = Some evs ∧ e ∈ evs ∧ CalEvent.id e = id
              ∧ (id ∉ World.notifiedMeetings w)
              ∧ Measure.meetings_enabled w = true
              ∧ lead - 60000 < CalEvent.start e - now
              ∧ CalEvent.start e - now <= lead + 120000)
  ∧ (∀ evs m,
       Measure.meetings_enabled w = true -> Measure.seen w env = Some evs -> m ∈ evs ->
       CalEvent.id m ∉ World.notifiedMeetings w ->
       CalEvent.start m - now = lead ->
       Measure.occurrences (Notif.meeting (CalEvent.id m))
                           (Scheduler.checkMeetingAwareness w env).2 = 1%nat
       ∧ ((∀ e, e ∈ evs -> CalEvent.id e = CalEvent.id m ->
                now - CalEvent.start e <= 3600000) ->
          stays (CalEvent.id m)))
  ∧ (∀ id, id ∈ World.notifiedMeetings w ->
           Notif.meeting id ∉ (Scheduler.checkMeetingAwareness w env).2)
  ∧ (∀ id, id ∈ World.notifiedMeetings w ->
       (Measure.meetings_enabled w = false ∨ Measure.seen w env = None
        ∨ (∃ evs, Measure.seen w env = Some evs ∧ first_with id evs = None) ->
        stays id)
       ∧ (∀ evs e, Measure.seen w env = Some evs -> first_with id evs = Some e ->
                   now - CalEvent.start e <= 3600000 -> stays id))
  ∧ (∀ id evs e,
       Measure.meetings_enabled w = true -> Measure.seen w env = Some evs ->
       first_with id evs = Some e ->
       3600000 < now - CalEvent.start e ->
       (id ∉ World.notifiedMeetings w1)
       ∧ ∀ env3 evs3 m3,
           Measure.meetings_enabled w1 = true -> Measure.seen w1 env3 = Some evs3 ->
           m3 ∈ evs3 -> CalEvent.id m3 = id ->
           CalEvent.start m3 - Clock.now (Env.clock env3)
           = Scheduler.warningWindowMs (World.db w1) ->
           Measure.occurrences (Notif.meeting id)
                               (Scheduler.checkMeetingAwareness w1 env3).2 = 1%nat).
Proof.
  intros now lead w1 first_with stays.
  assert (Hstays : ∀ id, id ∈ World.notifiedMeetings w1 -> stays id).
  { intros id H. split; [exact H|]. intros env2. by apply meeting_blocked. }
  split; [split|split; [|split; [|split; [|split]]]].
  - intros v Hv Hne. by apply warningWindowMs_stored.
  - intros H. by apply warningWindowMs_default.
  - intros id Hin.
    assert (Hen : Measure.meetings_enabled w = true).
    { destruct (Measure.meetings_enabled w) eqn:Hen; [done|].
      destruct (checkMeetingAwareness_idle w env (or_introl Hen)) as [Hnil _].
      rewrite Hnil in Hin. by apply elem_of_nil in Hin. }
    apply meeting_fires_in_window in Hin as (evs & e & Hseen & He & Hid & Hnot & Hw).
    apply in_window_bounds in Hw. fold now lead in Hw.
    exists evs, e. repeat split; try done; lia.
  - intros evs m Hen Hseen Hm HN Hlead.
    assert (Hw : Scheduler.in_window lead now m = true)
      by (apply in_window_bounds; lia).
    split.
    + by apply meeting_fires_once with evs.
    + intros Hyoung. apply Hstays. by apply meeting_remembered with evs.
  - intros id HN. by apply meeting_blocked.
  - intros id HN. split.
    + intros H. apply Hstays. by apply meeting_kept_unseen.
    + intros evs e Hseen Hfind Hyoung. apply Hstays.
      by apply meeting_kept_young with evs e.
  - intros id evs e Hen Hseen Hfind Hold.
    assert (Hgone : id ∉ World.notifiedMeetings w1) by (by apply meeting_pruned with evs e).
    split; [exact Hgone|].
    intros env3 evs3 m3 Hen3 Hseen3 Hm3 Hid3 Hlead3. subst id.
    apply meeting_fires_once with evs3; try done.
    apply in_window_bounds. lia.
Qed.

Lemma meeting_warning_pruning_witness :
  let w0 := World.initial Db.empty in
  let w1 := (Scheduler.checkMeetingAwareness w0
               (Examples.calendar_env Examples.five_before)).1 in
  let w2 := (Scheduler.checkMeetingAwareness w1
               (Examples.calendar_env Examples.four_before)).1 in
  let w3 := (Scheduler.checkMeetingAwareness w2
               (Examples.calendar_env Examples.hour_after)).1 in
  Measure.occurrences (Notif.meeting "evt-standup")
    (Scheduler.checkMeetingAwareness w0 (Examples.calendar_env Examples.five_before)).2
  = 1%nat
  ∧ "evt-standup" ∈ World.notifiedMeetings w1
  ∧ (Notif.meeting "evt-standup"
     ∉ (Scheduler.checkMeetingAwareness w1 (Examples.calendar_env Examples.soon_after)).2)
  ∧ (Notif.meeting "evt-standup"
     ∉ (Scheduler.checkMeetingAwareness w1 (Examples.calendar_env Examples.four_before)).2)
  ∧ "evt-standup" ∈ World.notifiedMeetings w2
  ∧ ("evt-standup" ∉ World.notifiedMeetings w3)
  ∧ Scheduler.warningWindowMs (World.db w0) = 5 * 60000.
Proof.
  intros w0 w1 w2 w3.
  destruct (meeting_warning_and_pruning w0 (Examples.calendar_env Examples.five_before))
    as ((_ & Hlead) & _ & Hone & _).
  destruct (Hone [Examples.standup] Examples.standup) as [H1 H2].
  { reflexivity. }
  { reflexivity. }
  { apply list_elem_of_here. }
  { apply not_elem_of_empty. }
  { reflexivity. }
  assert (Hy : ∀ e, e ∈ [Examples.standup] -> CalEvent.id e = CalEvent.id Examples.standup ->
                    Clock.now (Env.clock (Examples.calendar_env Examples.five_before))
                    - CalEvent.start e <= 3600000).
  { intros e He _. apply list_elem_of_singleton in He. subst e. vm_compute. discriminate. }
  apply H2 in Hy as [H2a H2'].
  destruct (meeting_warning_and_pruning w1 (Examples.calendar_env Examples.four_before))
    as (_ & _ & _ & _ & Hkeep & _).
  destruct (Hkeep "evt-standup" H2a) as [_ Hyoung].
  destruct (Hyoung [Examples.standup] Examples.standup) as [H4 _].
  { vm_compute. reflexivity. }
  { reflexivity. }
  { vm_compute. discriminate. }
  destruct (meeting_warning_and_pruning w2 (Examples.calendar_env Examples.hour_after))
    as (_ & _ & _ & _ & _ & Hprune).
  destruct (Hprune "evt-standup" [Examples.standup] Examples.standup) as [H3 _].
  { reflexivity. }
  { vm_compute. reflexivity. }
  { reflexivity. }
  { vm_compute. reflexivity. }
  refine (conj H1 (conj H2a (conj (H2' _) (conj (H2' _) (conj H4 (conj H3 _)))))).
  apply Hlead. left. reflexivity.
Defined.

(** ** Notification scheduler *)

Section SchedulerFacts.
Import Scheduler Measure.

#[local] Arguments Db.config_get : simpl never.
#[local] Arguments summaryKey : simpl never.
#[local] Arguments Tracker.workStartKey : simpl never.
#[local] Arguments Tracker.checkIfProductive : simpl never.

Lemma reset_date w c :
  DailyState.date (World.dailyState (World.reset w c)) = Some (Clock.today c).
Proof.
  unfold World.reset, DailyState.resetDailyStateIfNeeded. simpl.
  by case_bool_decide.
Qed.

Lemma reset_armed d w c n :
  Clock.today c = d -> armed d (World.reset w c) n = armed d w n.
Proof.
  intros <-. unfold armed, World.reset, DailyState.resetDailyStateIfNeeded. simpl.
  destruct (decide (DailyState.date (World.dailyState w) = Some (Clock.today c))) as [H|H].
  - by rewrite !(bool_decide_eq_true_2 _ H).
  - rewrite !(bool_decide_eq_false_2 _ H). simpl.
    rewrite andb_false_r. by destruct n.
Qed.

Lemma reset_last_alert d w c :
  Clock.today c = d -> last_alert d (World.reset w c) = last_alert d w.
Proof.
  intros <-. unfold last_alert, World.reset, DailyState.resetDailyStateIfNeeded. simpl.
  destruct (decide (DailyState.date (World.dailyState w) = Some (Clock.today c))) as [H|H].
  - by rewrite !(bool_decide_eq_true_2 _ H).
  - rewrite !(bool_decide_eq_false_2 _ H). simpl. by rewrite bool_decide_eq_true_2.
Qed.

Lemma reset_idempotent w c : World.reset (World.reset w c) c = World.reset w c.
Proof.
  unfold World.reset, DailyState.resetDailyStateIfNeeded. simpl.
  destruct (decide (DailyState.date (World.dailyState w) = Some (Clock.today c))) as [H|H].
  - by rewrite !(bool_decide_eq_true_2 _ H).
  - rewrite !(bool_decide_eq_false_2 _ H). simpl. by rewrite bool_decide_eq_true_2.
Qed.

Lemma getTodaysEvents_settings d env :
  Db.settings (Remote.db (Remote.getTodaysEvents d env)) = Db.settings d.
Proof. unfold Remote.getTodaysEvents. repeat case_match; reflexivity. Qed.

Lemma occurrences_nil n : occurrences n [] = 0%nat.
Proof. reflexivity. Qed.

Lemma armed_le_1 d w n : (armed d w n <= 1)%nat.
Proof. unfold armed. destruct n; repeat case_match; lia. Qed.

(** Enter a rule check: name the state after the reset and keep what
    is known of it. *)
Ltac enter_check d w env n Hd :=
  pose proof (reset_armed d w (Env.clock env) n Hd) as Harmed;
  pose proof (reset_last_alert d w (Env.clock env) Hd) as Hlast;
  pose proof (reset_date w (Env.clock env)) as Hdate;
  rewrite Hd in Hdate;
  generalize dependent (World.reset w (Env.clock env));
  intros [db1 [date1 f1 f2 f3 la f4 f5] N1 act1]; simpl; intros; subst date1;
  assert (Hbd : bool_decide (Some d = Some d) = true) by (by apply bool_decide_eq_true_2).

Ltac by_cases :=
  repeat case_match; simplify_eq; simpl in *;
  repeat match goal with
    | H : bool_decide (Some ?d = Some ?d) = true |- _ => rewrite ?H in *
    end;
  simpl in *; try lia; try congruence;
  repeat match goal with
    | H : _ || _ = false |- _ => apply orb_false_iff in H as [? ?]
    | H : _ && _ = true |- _ => apply andb_true_iff in H as [? ?]
    end;
  subst; simpl in *; try lia; try congruence.

Lemma checkMorningBriefing_budget d : within_budget d checkMorningBriefing.
Proof.
  intros w env n Hd Hn. unfold checkMorningBriefing.
  enter_check d w env n Hd. rewrite <- Harmed.
  pose proof (getTodaysEvents_settings db1 env) as Hset.
  unfold armed, occurrences. destruct n; try discriminate; simpl; by_cases.
Qed.

Lemma checkReadyToStart_budget d : within_budget d checkReadyToStart.
Proof.
  intros w env n Hd Hn. unfold checkReadyToStart.
  enter_check d w env n Hd. rewrite <- Harmed.
  pose proof (getTodaysEvents_settings db1 env) as Hset.
  unfold armed, occurrences. destruct n; try discriminate; simpl; by_cases.
Qed.

Lemma checkProgressMilestones_budget d : within_budget d checkProgressMilestones.
Proof.
  intros w env n Hd Hn. unfold checkProgressMilestones.
  enter_check d w env n Hd. rewrite <- Harmed.
  unfold armed, occurrences. destruct n; try discriminate; simpl; by_cases.
Qed.

Lemma checkDistractionAlert_budget d : within_budget d checkDistractionAlert.
Proof.
  intros w env n Hd Hn. unfold checkDistractionAlert.
  enter_check d w env n Hd. rewrite <- Harmed.
  unfold armed, occurrences. destruct n; try discriminate; simpl; by_cases.
Qed.

Lemma celebrate_budget d dom : within_budget d (Tracker.celebrateFirstProductiveAction dom).
Proof.
  intros w env n Hd Hn. unfold Tracker.celebrateFirstProductiveAction.
  enter_check d w env n Hd. rewrite <- Harmed. rewrite Hd.
  destruct f3; [unfold armed, occurrences; destruct n; try discriminate; simpl; by_cases|].
  simpl. destruct (Tracker.checkIfProductive db1 dom); simpl.
  2: { unfold armed, occurrences; destruct n; try discriminate; simpl; by_cases. }
  unfold armed, occurrences; destruct n; try discriminate; simpl;
    rewrite ?Hbd; simpl; try lia.
  rewrite lookup_insert. case_decide; destruct (Db.settings db1 !! summaryKey d); simpl; lia.
Qed.

Lemma checkEndOfDay_budget d : within_budget d checkEndOfDay.
Proof.
  intros w env n Hd Hn. unfold checkEndOfDay. rewrite Hd.
  destruct w as [db1 ds N1 act1]. simpl.
  unfold armed, occurrences.
  destruct n; try discriminate; simpl; rewrite ?lookup_insert_eq; by_cases.
  all: match goal with
       | H : <[_:=_]> _ !! _ = None |- _ => rewrite lookup_insert_eq in H; discriminate
       end.
Qed.

(** *** The distraction alert and its cooldown *)

Ltac no_alert :=
  unfold last_alert, occurrences;
  repeat case_match; simplify_eq; simpl in *;
  repeat match goal with
    | H : bool_decide (Some ?d = Some ?d) = true |- _ => rewrite ?H in *
    end;
  left; split; first [reflexivity | congruence | lia].

Lemma checkMorningBriefing_alert d : alert_spaced d checkMorningBriefing.
Proof.
  intros w env Hd. unfold checkMorningBriefing.
  enter_check d w env Notif.distraction_alert Hd. rewrite <- Hlast. no_alert.
Qed.

Lemma checkReadyToStart_alert d : alert_spaced d checkReadyToStart.
Proof.
  intros w env Hd. unfold checkReadyToStart.
  enter_check d w env Notif.distraction_alert Hd. rewrite <- Hlast. no_alert.
Qed.

Lemma checkProgressMilestones_alert d : alert_spaced d checkProgressMilestones.
Proof.
  intros w env Hd. unfold checkProgressMilestones.
  enter_check d w env Notif.distraction_alert Hd. rewrite <- Hlast. no_alert.
Qed.

Lemma celebrate_alert d dom : alert_spaced d (Tracker.celebrateFirstProductiveAction dom).
Proof.
  intros w env Hd. unfold Tracker.celebrateFirstProductiveAction.
  enter_check d w env Notif.distraction_alert Hd. rewrite <- Hlast.
  unfold last_alert, occurrences.
  destruct f3; simpl; [left; by rewrite ?Hbd|].
  destruct (Tracker.checkIfProductive db1 dom); simpl; left; by rewrite ?Hbd.
Qed.

Lemma checkEndOfDay_alert d : alert_spaced d checkEndOfDay.
Proof.
  intros w env Hd. unfold checkEndOfDay.
  destruct w as [db1 ds N1 act1]. simpl. no_alert.
Qed.

Lemma checkDistractionAlert_alert d : alert_spaced d checkDistractionAlert.
Proof.
  intros w env Hd. unfold checkDistractionAlert.
  enter_check d w env Notif.distraction_alert Hd. rewrite <- Hlast.
  unfold last_alert, occurrences. simpl. rewrite Hbd.
  destruct (Js.is_false _); simpl; [left; by rewrite ?Hbd|].
  destruct (Clock.now (Env.clock env) - la <? cooldown) eqn:Hcd; simpl;
    [left; by rewrite ?Hbd|].
  destruct (Db.daily_stats db1 !! Clock.today (Env.clock env)) as [stats|]; simpl;
    [|left; by rewrite ?Hbd].
  destruct (_ <=? Stats.distractionTime stats); simpl; [|left; by rewrite ?Hbd].
  right. rewrite Hbd. apply Z.ltb_ge in Hcd. repeat split; lia.
Qed.

(** *** Actions that do not touch the ledger *)

Lemma armed_ext d w w' n :
  World.dailyState w' = World.dailyState w ->
  Db.settings (World.db w') = Db.settings (World.db w) ->
  armed d w' n = armed d w n.
Proof. intros Hs Hd. unfold armed. by rewrite Hs, Hd. Qed.

Lemma last_alert_ext d w w' :
  World.dailyState w' = World.dailyState w -> last_alert d w' = last_alert d w.
Proof. intros Hs. unfold last_alert. by rewrite Hs. Qed.

Lemma occurrences_absent n l : (∀ m, m ∈ l -> m ≠ n) -> occurrences n l = 0%nat.
Proof.
  unfold occurrences. induction l as [|m l IH]; intros H; [reflexivity|].
  rewrite filter_cons. destruct (decide (m = n)) as [Heq|_].
  - destruct (H m (list_elem_of_here _ _) Heq).
  - apply IH. intros m' Hm'. apply H. by apply list_elem_of_further.
Qed.

Lemma quiet_occurrences a w env n :
  quiet a -> (∀ id, n ≠ Notif.meeting id) -> occurrences n (a w env).2 = 0%nat.
Proof.
  intros Hq Hn. destruct (Hq w env) as (_ & _ & Hm).
  apply occurrences_absent. intros m Hin ->.
  destruct (Hm _ Hin) as [id Hid]. by apply (Hn id).
Qed.

Lemma quiet_budget d a : quiet a -> within_budget d a.
Proof.
  intros Hq w env n Hd Hn. destruct (Hq w env) as (Hs & Hset & _).
  rewrite (quiet_occurrences a w env n Hq) by (intros id ->; discriminate).
  by rewrite (armed_ext d w _ n Hs Hset).
Qed.

Lemma quiet_alert d a : quiet a -> alert_spaced d a.
Proof.
  intros Hq w env Hd. destruct (Hq w env) as (Hs & _ & _). left.
  split; [by apply quiet_occurrences|by apply last_alert_ext].
Qed.

Lemma persistActiveSession_quiet : quiet Tracker.persistActiveSession.
Proof.
  intros w env. unfold Tracker.persistActiveSession.
  repeat case_match; simpl; repeat split; try done;
    intros n Hn; by apply elem_of_nil in Hn.
Qed.

Lemma aggregateDailyStats_quiet : quiet Worker.aggregateDailyStats.
Proof.
  intros w env. unfold Worker.aggregateDailyStats. simpl. repeat split.
  intros n Hn. by apply elem_of_nil in Hn.
Qed.

Lemma runCleanup_quiet : quiet Worker.runCleanup.
Proof.
  intros w env. unfold Worker.runCleanup. simpl. repeat split.
  intros n Hn. by apply elem_of_nil in Hn.
Qed.

Lemma batchClassifyDomains_settings d env :
  Db.settings (Classifier.batchClassifyDomains d env).1 = Db.settings d.
Proof.
  rewrite batchClassifyDomains_eq.
  destruct (negb _); [done|].
  destruct (Classifier.uncached _ _); [done|].
  destruct (Env.ai_request env _) as [items|msg]; simpl; [|done].
  by destruct (fold_put_ai_other (Clock.now (Env.clock env)) items d) as [_ ->].
Qed.

Lemma batchClassifyDomains_quiet : quiet Worker.batchClassifyDomains.
Proof.
  intros w env. unfold Worker.batchClassifyDomains. simpl. repeat split.
  - apply batchClassifyDomains_settings.
  - intros n Hn. by apply elem_of_nil in Hn.
Qed.

Lemma checkMeetingAwareness_quiet : quiet checkMeetingAwareness.
Proof.
  intros w env. repeat split.
  - unfold checkMeetingAwareness. repeat case_match; reflexivity.
  - apply checkMeetingAwareness_settings.
  - intros n Hn.
    destruct (checkMeetingAwareness_cases w env) as [Hidle|(evs & Hen & Hseen & Hne)].
    + apply checkMeetingAwareness_idle in Hidle as [Hnil _].
      rewrite Hnil in Hn. by apply elem_of_nil in Hn.
    + destruct (checkMeetingAwareness_run w env evs Hen Hseen Hne) as [Hf _].
      rewrite Hf in Hn. unfold warn_loop in Hn.
      apply (warn_fold _ _ evs (World.notifiedMeetings w) []) in Hn
        as [Hn|(e & _ & -> & _)]; [by apply elem_of_nil in Hn|by eexists].
Qed.

(** *** Sequences of actions *)

Lemma and_then_budget d a b :
  within_budget d a -> within_budget d b -> within_budget d (a >+> b).
Proof.
  intros Ha Hb w env n Hd Hn. unfold and_then.
  specialize (Ha w env n Hd Hn). destruct (a w env) as [w1 l1].
  specialize (Hb w1 env n Hd Hn). destruct (b w1 env) as [w2 l2].
  simpl in *. rewrite occurrences_app. lia.
Qed.

Lemma and_then_alert d a b :
  alert_spaced d a -> alert_spaced d b -> alert_spaced d (a >+> b).
Proof.
  intros Ha Hb w env Hd. unfold and_then.
  specialize (Ha w env Hd). destruct (a w env) as [w1 l1].
  specialize (Hb w1 env Hd). destruct (b w1 env) as [w2 l2].
  simpl in *. rewrite occurrences_app. unfold cooldown in *.
  destruct Ha as [[Ha1 Ha2]|(Ha1 & Ha2 & Ha3)];
    destruct Hb as [[Hb1 Hb2]|(Hb1 & Hb2 & Hb3)]; [left|right|right|exfalso];
    repeat split; lia.
Qed.

Lemma endPreviousSession_ledger w now :
  World.dailyState (Tracker.endPreviousSession w now) = World.dailyState w
  ∧ Db.settings (World.db (Tracker.endPreviousSession w now)) = Db.settings (World.db w).
Proof. unfold Tracker.endPreviousSession. repeat case_match; done. Qed.

Lemma handleTabChange_budget d tab : within_budget d (Tracker.handleTabChange tab).
Proof.
  intros w env n Hd Hn. unfold Tracker.handleTabChange.
  destruct (endPreviousSession_ledger w (Clock.now (Env.clock env))) as [Hs Hset].
  destruct (Tracker.shouldExclude (Tab.url tab)).
  - cbn [fst snd]. rewrite occurrences_nil.
    rewrite (armed_ext d w _ n); [lia|exact Hs|exact Hset].
  - etransitivity; [apply (celebrate_budget d _ _ env n Hd Hn)|].
    rewrite (armed_ext d w _ n); [lia|exact Hs|exact Hset].
Qed.

Lemma handleTabChange_alert d tab : alert_spaced d (Tracker.handleTabChange tab).
Proof.
  intros w env Hd. unfold Tracker.handleTabChange.
  destruct (endPreviousSession_ledger w (Clock.now (Env.clock env))) as [Hs _].
  destruct (Tracker.shouldExclude (Tab.url tab)).
  - left. cbn [fst snd]. split; [reflexivity|by apply last_alert_ext].
  - rewrite <- (last_alert_ext d w
                 (World.with_activeTabState
                    (Some (TabState.mk (Tab.url tab)
                             (Tracker.extractDomain env (Tab.url tab)) (Tab.title tab)
                             (Clock.now (Env.clock env)) (Clock.today (Env.clock env))
                             "unclassified"
                             (Clock.now (Env.clock env) + Tracker.retention)))
                    (Tracker.endPreviousSession w (Clock.now (Env.clock env)))))
      by exact Hs.
    by apply celebrate_alert.
Qed.

Lemma export_quiet : quiet (fun w _ => (w, [])).
Proof. intros w env. repeat split. intros n Hn. by apply elem_of_nil in Hn. Qed.

Lemma onAlarm_budget d a : within_budget d (Worker.onAlarm a).
Proof.
  destruct a; simpl.
  - repeat apply and_then_budget.
    + apply quiet_budget, persistActiveSession_quiet.
    + apply quiet_budget, aggregateDailyStats_quiet.
    + apply checkProgressMilestones_budget.
    + apply checkDistractionAlert_budget.
    + apply quiet_budget, checkMeetingAwareness_quiet.
  - apply quiet_budget, runCleanup_quiet.
  - apply quiet_budget, export_quiet.
  - apply quiet_budget, batchClassifyDomains_quiet.
  - apply checkMorningBriefing_budget.
  - apply checkReadyToStart_budget.
  - apply checkEndOfDay_budget.
Qed.

Lemma onAlarm_alert d a : alert_spaced d (Worker.onAlarm a).
Proof.
  destruct a; simpl.
  - repeat apply and_then_alert.
    + apply quiet_alert, persistActiveSession_quiet.
    + apply quiet_alert, aggregateDailyStats_quiet.
    + apply checkProgressMilestones_alert.
    + apply checkDistractionAlert_alert.
    + apply quiet_alert, checkMeetingAwareness_quiet.
  - apply quiet_alert, runCleanup_quiet.
  - apply quiet_alert, export_quiet.
  - apply quiet_alert, batchClassifyDomains_quiet.
  - apply checkMorningBriefing_alert.
  - apply checkReadyToStart_alert.
  - apply checkEndOfDay_alert.
Qed.

(** *** A start of the worker *)

Lemma start_settings w env k :
  Db.settings (World.db (Worker.start w env).1) !! k
  = match Db.settings (World.db w) !! k with
    | Some v => Some v
    | None => Config.DEFAULT_CONFIG !! k
    end.
Proof.
  unfold Worker.start. cbn [fst World.db World.initial Db.settings Db.with_settings].
  rewrite initializeSettings_union, lookup_union.
  destruct (Db.settings (World.db w) !! k); simpl;
    by destruct (Config.DEFAULT_CONFIG !! k).
Qed.

Lemma start_config_get w env k :
  Db.config_get (World.db (Worker.start w env).1) k = Db.config_get (World.db w) k.
Proof.
  unfold Db.config_get, Config.getSetting. rewrite start_settings.
  destruct (Db.settings (World.db w) !! k); [done|].
  by destruct (Config.DEFAULT_CONFIG !! k).
Qed.

Lemma summaryKey_not_default d : Config.DEFAULT_CONFIG !! summaryKey d = None.
Proof.
  unfold Config.DEFAULT_CONFIG, summaryKey. apply not_elem_of_list_to_map_1.
  cbn [fmap list_fmap fst]. rewrite !not_elem_of_cons.
  repeat split; try (simpl; intros [=]). apply not_elem_of_nil.
Qed.

Lemma workStartKey_not_default d : Config.DEFAULT_CONFIG !! Tracker.workStartKey d = None.
Proof.
  unfold Config.DEFAULT_CONFIG, Tracker.workStartKey. apply not_elem_of_list_to_map_1.
  cbn [fmap list_fmap fst]. rewrite !not_elem_of_cons.
  repeat split; try (simpl; intros [=]). apply not_elem_of_nil.
Qed.

(** The marker of the end-of-day summary outlives a start. *)
Lemma start_marker w env d :
  Db.settings (World.db (Worker.start w env).1) !! summaryKey d
  = Db.settings (World.db w) !! summaryKey d.
Proof.
  rewrite start_settings, summaryKey_not_default.
  by destruct (Db.settings (World.db w) !! summaryKey d).
Qed.

(** The ledger does not: after a start every rule of the ledger is
    armed again, and the time of the last alert reads 0. *)
Lemma start_ledger w env :
  World.dailyState (Worker.start w env).1 = DailyState.initial
  ∧ World.notifiedMeetings (Worker.start w env).1 = ∅
  ∧ World.activeTabState (Worker.start w env).1 = None
  ∧ (Worker.start w env).2 = [].
Proof. done. Qed.

Lemma start_armed w env d n :
  n ≠ Notif.end_of_day -> armed d (Worker.start w env).1 n = 1%nat.
Proof.
  intros Hn. unfold armed. destruct (start_ledger w env) as (-> & _).
  by destruct n.
Qed.

Lemma start_last_alert w env d : last_alert d (Worker.start w env).1 = 0.
Proof.
  unfold last_alert. by destruct (start_ledger w env) as (-> & _).
Qed.

(** *** Events and runs *)

Lemma fired_count_stamp n t l :
  Worker.fired_count n (map (fun m => (m, t)) l) = occurrences n l.
Proof.
  unfold Worker.fired_count, occurrences.
  induction l as [|m l IH]; [reflexivity|].
  simpl. rewrite !filter_cons. simpl. destruct (decide (m = n)); simpl; by rewrite IH.
Qed.

Lemma fired_at_stamp n t l :
  Worker.fired_at n (map (fun m => (m, t)) l) = replicate (occurrences n l) t.
Proof.
  unfold Worker.fired_at, occurrences.
  induction l as [|m l IH]; [reflexivity|].
  simpl. rewrite !filter_cons. simpl. destruct (decide (m = n)); simpl; by rewrite IH.
Qed.

Lemma fired_count_app n l1 l2 :
  Worker.fired_count n (l1 ++ l2)
  = (Worker.fired_count n l1 + Worker.fired_count n l2)%nat.
Proof. unfold Worker.fired_count. by rewrite filter_app, length_app. Qed.

Lemma fired_at_app n l1 l2 :
  Worker.fired_at n (l1 ++ l2) = Worker.fired_at n l1 ++ Worker.fired_at n l2.
Proof. unfold Worker.fired_at. by rewrite filter_app, map_app. Qed.

Lemma step_budget d w e n :
  Worker.day_of e = d -> Worker.is_start e = false -> Notif.daily_once n = true ->
  (Worker.fired_count n (Worker.step w e).2 + armed d (Worker.step w e).1 n
   <= armed d w n)%nat.
Proof.
  intros Hd Hlife Hn. unfold Worker.step.
  destruct e as [a env|tab env|env]; [| |discriminate];
    unfold Worker.day_of in Hd; simpl in Hd.
  - pose proof (onAlarm_budget d a w env n Hd Hn) as H.
    destruct (Worker.onAlarm a w env) as [w' l]. cbn [fst snd] in *.
    by rewrite fired_count_stamp.
  - pose proof (handleTabChange_budget d tab w env n Hd Hn) as H.
    destruct (Tracker.handleTabChange tab w env) as [w' l]. cbn [fst snd] in *.
    by rewrite fired_count_stamp.
Qed.

Lemma run_budget d n es : ∀ w,
  Forall (fun e => Worker.day_of e = d) es -> Worker.lifetime es ->
  Notif.daily_once n = true ->
  (Worker.fired_count n (Worker.run w es).2 + armed d (Worker.run w es).1 n
   <= armed d w n)%nat.
Proof.
  induction es as [|e es IH]; intros w Hday Hlife Hn.
  - simpl. unfold Worker.fired_count. simpl. lia.
  - apply Forall_cons in Hday as [He Hes]. apply Forall_cons in Hlife as [Hl Hls].
    pose proof (step_budget d w e n He Hl Hn) as Hstep.
    cbn [Worker.run]. destruct (Worker.step w e) as [w1 l1].
    specialize (IH w1 Hes Hls Hn). destruct (Worker.run w1 es) as [w2 l2].
    cbn [fst snd] in *. rewrite fired_count_app. lia.
Qed.

(** The end-of-day summary is held back by its marker, which is in the
    database: its allowance is not restored by a start. *)
Lemma step_budget_durable d w e :
  Worker.day_of e = d ->
  (Worker.fired_count Notif.end_of_day (Worker.step w e).2
   + armed d (Worker.step w e).1 Notif.end_of_day
   <= armed d w Notif.end_of_day)%nat.
Proof.
  intros Hd. destruct (Worker.is_start e) eqn:Hs.
  - destruct e as [a env|tab env|env]; try discriminate.
    unfold Worker.step. pose proof (start_marker w env d) as Hm.
    destruct (Worker.start w env) as [w' l] eqn:Hst.
    assert (Hl : l = []) by (by injection Hst as _ <-).
    subst l. cbn [fst snd map] in *. unfold Worker.fired_count, armed. simpl.
    rewrite Hm. lia.
  - by apply step_budget.
Qed.

Lemma run_budget_durable d es : ∀ w,
  Forall (fun e => Worker.day_of e = d) es ->
  (Worker.fired_count Notif.end_of_day (Worker.run w es).2
   + armed d (Worker.run w es).1 Notif.end_of_day
   <= armed d w Notif.end_of_day)%nat.
Proof.
  induction es as [|e es IH]; intros w Hday.
  - simpl. unfold Worker.fired_count. simpl. lia.
  - apply Forall_cons in Hday as [He Hes].
    pose proof (step_budget_durable d w e He) as Hstep.
    cbn [Worker.run]. destruct (Worker.step w e) as [w1 l1].
    specialize (IH w1 Hes). destruct (Worker.run w1 es) as [w2 l2].
    cbn [fst snd] in *. rewrite fired_count_app. lia.
Qed.

Lemma step_alert d w e :
  Worker.day_of e = d -> Worker.is_start e = false ->
  let now := Clock.now (Env.clock (Worker.env_of e)) in
  (Worker.fired_at Notif.distraction_alert (Worker.step w e).2 = []
   ∧ last_alert d (Worker.step w e).1 = last_alert d w)
  ∨ (Worker.fired_at Notif.distraction_alert (Worker.step w e).2 = [now]
     ∧ last_alert d w + cooldown <= now
     ∧ last_alert d (Worker.step w e).1 = now).
Proof.
  intros Hd Hlife now. unfold Worker.step. subst now.
  destruct e as [a env|tab env|env]; [| |discriminate];
    unfold Worker.day_of in Hd; simpl in Hd; simpl Worker.env_of.
  - pose proof (onAlarm_alert d a w env Hd) as H.
    destruct (Worker.onAlarm a w env) as [w' l]. cbn [fst snd] in *.
    rewrite fired_at_stamp.
    destruct H as [[-> H]|(-> & H1 & H2)]; [by left|by right].
  - pose proof (handleTabChange_alert d tab w env Hd) as H.
    destruct (Tracker.handleTabChange tab w env) as [w' l]. cbn [fst snd] in *.
    rewrite fired_at_stamp.
    destruct H as [[-> H]|(-> & H1 & H2)]; [by left|by right].
Qed.

Lemma run_alert d es : ∀ w,
  Forall (fun e => Worker.day_of e = d) es -> Worker.lifetime es ->
  Forall (fun t => last_alert d w + cooldown <= t)
         (Worker.fired_at Notif.distraction_alert (Worker.run w es).2)
  ∧ spaced cooldown (Worker.fired_at Notif.distraction_alert (Worker.run w es).2).
Proof.
  induction es as [|e es IH]; intros w Hday Hlife.
  - simpl. split; [constructor|exact I].
  - apply Forall_cons in Hday as [He Hes]. apply Forall_cons in Hlife as [Hl Hls].
    pose proof (step_alert d w e He Hl) as Hstep.
    cbn [Worker.run]. destruct (Worker.step w e) as [w1 l1].
    specialize (IH w1 Hes Hls). destruct (Worker.run w1 es) as [w2 l2].
    cbn [fst snd] in *. rewrite fired_at_app.
    destruct IH as [IH1 IH2].
    destruct Hstep as [[-> Hl']|(-> & Hcd & Hl')]; rewrite Hl' in IH1; simpl.
    + by split.
    + assert (0 <= cooldown) by (unfold cooldown; lia).
      split; [|by split].
      constructor; [exact Hcd|].
      eapply Forall_impl; [exact IH1|]. simpl. intros t Ht. lia.
Qed.

Lemma spaced_lookup gap l : ∀ i j t1 t2,
  spaced gap l -> (i < j)%nat -> l !! i = Some t1 -> l !! j = Some t2 -> t1 + gap <= t2.
Proof.
  induction l as [|t l IH]; intros i j t1 t2 Hs Hij Hi Hj; [discriminate|].
  destruct Hs as [Hall Hs]. destruct j as [|j]; [lia|]. simpl in Hj.
  destruct i as [|i]; simpl in Hi.
  - injection Hi as ->. rewrite Forall_forall in Hall.
    apply Hall. by apply list_elem_of_lookup_2 with j.
  - apply (IH i j); [done|lia|done|done].
Qed.

(** *** Every ledger rule is evaluated on the ledger after the reset *)

Lemma checks_reset_first w env :
  let r := World.reset w (Env.clock env) in
  checkMorningBriefing w env = checkMorningBriefing r env
  ∧ checkReadyToStart w env = checkReadyToStart r env
  ∧ checkProgressMilestones w env = checkProgressMilestones r env
  ∧ checkDistractionAlert w env = checkDistractionAlert r env
  ∧ ∀ dom, Tracker.celebrateFirstProductiveAction dom w env
           = Tracker.celebrateFirstProductiveAction dom r env.
Proof.
  intros r. subst r.
  unfold checkMorningBriefing, checkReadyToStart, checkProgressMilestones,
    checkDistractionAlert, Tracker.celebrateFirstProductiveAction.
  rewrite !reset_idempotent. repeat split.
Qed.

Lemma checks_without_ledger w env s :
  (checkEndOfDay (World.with_dailyState s w) env).2 = (checkEndOfDay w env).2
  ∧ (checkMeetingAwareness (World.with_dailyState s w) env).2
    = (checkMeetingAwareness w env).2.
Proof.
  split.
  - unfold checkEndOfDay. simpl. repeat case_match; reflexivity.
  - unfold checkMeetingAwareness. simpl. repeat case_match; simplify_eq; reflexivity.
Qed.

End SchedulerFacts.

(** C5 (counterexample).  The ledger of the day is memory of the
    worker, and a start of the worker begins with the empty ledger.  The
    briefing is created by the alarm of 09:00:10; the worker is stopped
    and started again; the heartbeat of 09:00:40 and the alarm of
    09:01:10 run on a ledger that no longer knows of the briefing, and
    the briefing is created a second time on the same wall-clock day. *)
Lemma daily_once_refires_after_restart :
  (Worker.run (World.initial Db.empty) Examples.morning_restarted).2
  = [(Notif.morning_briefing, 1704099610000); (Notif.morning_briefing, 1704099670000)]
  ∧ Forall (fun e => Worker.day_of e = "2024-01-01") Examples.morning_restarted
  ∧ Notif.daily_once Notif.morning_briefing = true
  ∧ (Worker.fired_count Notif.morning_briefing
       (Worker.run (World.initial Db.empty) Examples.morning_restarted).2 = 2)%nat.
Proof.
  split; [vm_compute; reflexivity|].
  split; [repeat constructor|].
  split; [reflexivity|vm_compute; reflexivity].
Qed.

(** C5 (amended).  In a run of events that all fall on one wall-clock
    day and in which the worker is not started again, every notification
    with a once-per-day policy (morning briefing, ready-to-start nudge,
    first-productive celebration, one-hour milestone, daily-goal
    milestone, end-of-day summary) is created at most once, however many
    events there are.  The end-of-day summary is held back by a marker in
    the database and is created at most once on that day in every run,
    with or without starts of the worker.  A start of the worker leaves
    the empty ledger (no day, every flag false, last alert 0) and keeps
    the markers of the database.  The rollover test compares the day
    stored in the ledger with the wall-clock day: on a mismatch the
    ledger becomes the cleared ledger of the new day, otherwise it is
    kept.  Each check that reads the ledger runs on the ledger after that
    test, and the two checks that skip the test (end of day, meetings) do
    not depend on the ledger. *)
Theorem daily_once_within_lifetime :
  (∀ d w es n,
     Forall (fun e => Worker.day_of e = d) es -> Worker.lifetime es ->
     Notif.daily_once n = true ->
     (Worker.fired_count n (Worker.run w es).2 <= 1)%nat)
  ∧ (∀ d w es,
       Forall (fun e => Worker.day_of e = d) es ->
       (Worker.fired_count Notif.end_of_day (Worker.run w es).2 <= 1)%nat)
  ∧ (∀ w env,
       let w' := (Worker.step w (Worker.Started env)).1 in
       World.dailyState w' = DailyState.initial
       ∧ (Worker.step w (Worker.Started env)).2 = []
       ∧ ∀ d, Db.settings (World.db w') !! Scheduler.summaryKey d
              = Db.settings (World.db w) !! Scheduler.summaryKey d)
  ∧ (∀ s today, DailyState.date s ≠ Some today ->
       DailyState.resetDailyStateIfNeeded s today = DailyState.cleared today)
  ∧ (∀ s today, DailyState.date s = Some today ->
       DailyState.resetDailyStateIfNeeded s today = s)
  ∧ (∀ w env,
       let r := World.reset w (Env.clock env) in
       Scheduler.checkMorningBriefing w env = Scheduler.checkMorningBriefing r env
       ∧ Scheduler.checkReadyToStart w env = Scheduler.checkReadyToStart r env
       ∧ Scheduler.checkProgressMilestones w env = Scheduler.checkProgressMilestones r env
       ∧ Scheduler.checkDistractionAlert w env = Scheduler.checkDistractionAlert r env
       ∧ ∀ dom, Tracker.celebrateFirstProductiveAction dom w env
                = Tracker.celebrateFirstProductiveAction dom r env)
  ∧ (∀ w env s,
       (Scheduler.checkEndOfDay (World.with_dailyState s w) env).2
       = (Scheduler.checkEndOfDay w env).2
       ∧ (Scheduler.checkMeetingAwareness (World.with_dailyState s w) env).2
         = (Scheduler.checkMeetingAwareness w env).2).
Proof.
  split; [|split; [|split; [|split; [|split; [|split]]]]].
  - intros d w es n Hday Hlife Hn.
    pose proof (run_budget d n es w Hday Hlife Hn) as H.
    pose proof (armed_le_1 d w n). lia.
  - intros d w es Hday.
    pose proof (run_budget_durable d es w Hday) as H.
    pose proof (armed_le_1 d w Notif.end_of_day). lia.
  - intros w env. cbv zeta. unfold Worker.step.
    pose proof (start_marker w env) as Hm.
    destruct (start_ledger w env) as (Hs & _ & _ & Hl).
    destruct (Worker.start w env) as [w' l]. cbn [fst snd] in *.
    subst l. by repeat split.
  - intros s today H. unfold DailyState.resetDailyStateIfNeeded.
    by rewrite bool_decide_eq_false_2.
  - intros s today H. unfold DailyState.resetDailyStateIfNeeded.
    by rewrite bool_decide_eq_true_2.
  - apply checks_reset_first.
  - apply checks_without_ledger.
Qed.

Lemma daily_once_lifetime_witness :
  (Worker.fired_count Notif.morning_briefing
     (Worker.run (World.initial Db.empty) Examples.morning).2 <= 1)%nat
  ∧ (Worker.run (World.initial Db.empty) Examples.morning).2
    = [(Notif.morning_briefing, 1704099610000)]
  ∧ (Worker.fired_count Notif.end_of_day
       (Worker.run (World.initial Db.empty) Examples.morning_restarted).2 <= 1)%nat.
Proof.
  destruct daily_once_within_lifetime as (Honce & Heod & _).
  split; [|split].
  - apply (Honce "2024-01-01"); [| |reflexivity]; repeat constructor.
  - vm_compute. reflexivity.
  - apply (Heod "2024-01-01"). repeat constructor.
Defined.

(** C6 (counterexample).  An alert at 23:50; the day changes, a tab on
    www.youtube.com opens at 00:00:05 and the heartbeat of 00:17 finds
    16 minutes 55 seconds of distraction on the new day against a 15
    minute threshold: the ledger was cleared at the rollover and the
    alert is created again, 27 minutes after the previous one.  The
    worker is not started again in between. *)
Lemma distraction_alert_refires_after_midnight :
  (Worker.run (World.initial Examples.binge) Examples.across_midnight).2
  = [(Notif.distraction_alert, 1704153000000); (Notif.distraction_alert, 1704154620000)]
  ∧ 1704154620000 - 1704153000000 < Scheduler.cooldown
  ∧ Worker.lifetime Examples.across_midnight
  ∧ Env.url_hostname (Examples.quiet_env Examples.after_midnight)
      (Tab.url Examples.youtube_tab) = Some "www.youtube.com".
Proof.
  split; [vm_compute; reflexivity|].
  split; [unfold Scheduler.cooldown; lia|].
  split; [repeat constructor|vm_compute; reflexivity].
Qed.

(** The time of the last alert is memory of the worker as well: alerts
    at 23:00 and, after a start of the worker, at 23:10 of the same
    day. *)
Lemma distraction_alert_refires_after_restart :
  (Worker.run (World.initial Examples.binge) Examples.evening_restarted).2
  = [(Notif.distraction_alert, 1704150000000); (Notif.distraction_alert, 1704150600000)]
  ∧ Forall (fun e => Worker.day_of e = "2024-01-01") Examples.evening_restarted
  ∧ 1704150600000 - 1704150000000 < Scheduler.cooldown.
Proof.
  split; [vm_compute; reflexivity|].
  split; [repeat constructor|unfold Scheduler.cooldown; lia].
Qed.

(** C6 (amended).  In a run of events that all fall on one wall-clock
    day and in which the worker is not started again, any two
    distraction alerts are at least 30 minutes apart, whatever the
    distraction time is in between.  (The rollover and a start of the
    worker both clear the time of the last alert, so an alert of the
    next day, or of the next lifetime of the worker, may follow
    sooner.) *)
Theorem distraction_alert_cooldown_within_day (d : string) (w : World.t)
    (es : list Worker.event) :
  Forall (fun e => Worker.day_of e = d) es ->
  Worker.lifetime es ->
  ∀ i j t1 t2,
    (i < j)%nat ->
    Worker.fired_at Notif.distraction_alert (Worker.run w es).2 !! i = Some t1 ->
    Worker.fired_at Notif.distraction_alert (Worker.run w es).2 !! j = Some t2 ->
    t1 + 30 * 60 * 1000 <= t2.
Proof.
  intros Hday Hlife i j t1 t2 Hij Hi Hj.
  destruct (run_alert d es w Hday Hlife) as [_ Hs].
  exact (spaced_lookup Scheduler.cooldown _ i j t1 t2 Hs Hij Hi Hj).
Qed.

Lemma distraction_alert_witness :
  Worker.fired_at Notif.distraction_alert
    (Worker.run (World.initial Examples.binge) Examples.evening).2
  = [1704150000000; 1704152400000]
  ∧ 1704150000000 + 30 * 60 * 1000 <= 1704152400000.
Proof.
  assert (Hlog : Worker.fired_at Notif.distraction_alert
                   (Worker.run (World.initial Examples.binge) Examples.evening).2
                 = [1704150000000; 1704152400000]) by (vm_compute; reflexivity).
  split; [exact Hlog|].
  apply (distraction_alert_cooldown_within_day "2024-01-01"
           (World.initial Examples.binge) Examples.evening
           ltac:(repeat constructor) ltac:(repeat constructor) 0%nat 1%nat).
  - lia.
  - rewrite Hlog. reflexivity.
  - rewrite Hlog. reflexivity.
Defined.

(** * Further properties *)

(** ** Settings store: reading and writing *)

(** X1.  A value written by setSetting is what getSetting returns for
    that key, whatever the default; no other key changes; the last of
    two writes to a key wins. *)
Theorem setting_written_is_read {V : Type} (defaults settings : gmap string V)
    (key : string) (value : V) :
  Settings.getSetting defaults (Settings.setSetting key value settings) key = Some value
  ∧ (∀ other, other ≠ key ->
       Settings.getSetting defaults (Settings.setSetting key value settings) other
       = Settings.getSetting defaults settings other)
  ∧ (∀ earlier,
       Settings.setSetting key value (Settings.setSetting key earlier settings)
       = Settings.setSetting key value settings).
Proof.
  unfold Settings.getSetting, Settings.setSetting. repeat split.
  - by rewrite lookup_insert_eq.
  - intros other Hne. by rewrite lookup_insert_ne.
  - intros earlier. apply insert_insert_eq.
Qed.

(** X2.  initializeSettings never overwrites a stored value, stores every
    default whose key was missing, leaves the answer of getSetting
    unchanged for every key, and running it again changes nothing. *)
Theorem initialize_keeps_stored_values {V : Type} (defaults settings : gmap string V) :
  let s' := Settings.initializeSettings defaults settings in
  (∀ key v, settings !! key = Some v -> s' !! key = Some v)
  ∧ (∀ key v, settings !! key = None -> defaults !! key = Some v -> s' !! key = Some v)
  ∧ (∀ key, settings !! key = None -> defaults !! key = None -> s' !! key = None)
  ∧ (∀ key, Settings.getSetting defaults s' key = Settings.getSetting defaults settings key)
  ∧ Settings.initializeSettings defaults s' = s'.
Proof.
  intros s'. subst s'. rewrite !initializeSettings_union. repeat split.
  - intros key v H. by apply lookup_union_Some_l.
  - intros key v Hn Hd. rewrite lookup_union_r; done.
  - intros key Hn Hd. by apply lookup_union_None_2.
  - intros key. rewrite !getSetting_union.
    rewrite <- (assoc_L (∪)), (idemp_L (∪) defaults). done.
  - rewrite <- (assoc_L (∪)), (idemp_L (∪) defaults). done.
Qed.

Lemma initialize_witness :
  Settings.initializeSettings Config.DEFAULT_CONFIG
    {["dailyFocusGoalMinutes" := Js.VNum 120]} !! "dailyFocusGoalMinutes"
  = Some (Js.VNum 120)
  ∧ Settings.initializeSettings Config.DEFAULT_CONFIG
      {["dailyFocusGoalMinutes" := Js.VNum 120]} !! "endOfDayHour"
    = Some (Js.VNum 18).
Proof.
  destruct (initialize_keeps_stored_values Config.DEFAULT_CONFIG
              {["dailyFocusGoalMinutes" := Js.VNum 120]}) as (Hkeep & Hfill & _).
  split.
  - apply Hkeep. vm_compute. reflexivity.
  - apply Hfill; vm_compute; reflexivity.
Defined.

(** X3.  The object getAllSettings builds answers every key as
    getSetting does, and after resetSettings every key reads as its
    default. *)
Theorem getAll_agrees_with_get {V : Type} (defaults settings : gmap string V) (key : string) :
  Settings.getAllSettings defaults settings !! key = Settings.getSetting defaults settings key
  ∧ Settings.getSetting defaults (Settings.resetSettings settings) key = defaults !! key
  ∧ Settings.getAllSettings defaults (Settings.resetSettings settings) = defaults.
Proof.
  rewrite getAllSettings_union, getSetting_union. repeat split.
Qed.

Lemma setting_written_witness :
  Settings.getSetting Config.DEFAULT_CONFIG
    (Settings.setSetting "endOfDayHour" (Js.VNum 17) ∅) "morningBriefingHour"
  = Some (Js.VNum 9).
Proof.
  destruct (setting_written_is_read Config.DEFAULT_CONFIG ∅ "endOfDayHour" (Js.VNum 17))
    as (_ & Hframe & _).
  rewrite (Hframe "morningBriefingHour") by discriminate.
  vm_compute. reflexivity.
Defined.

(** ** Message router *)

(** X4.  A request sent with sendMessage for a registered action gets
    what the handler registered last for that action returns; an error
    thrown by the handler reaches the caller with the same message,
    except that an empty message arrives as "Unknown error".  The
    response of the listener echoes the request id. *)
Theorem sendMessage_reaches_handler {P R : Type}
    (handlers : gmap string (Router.handler P R)) (h : Router.handler P R)
    (a : string) (p : P) (ty rid : string) :
  a ≠ "" ->
  let hs := Router.registerHandler a h handlers in
  Router.sendMessage hs a p ty rid
  = match h p with
    | Res.Ok r => Res.Ok (Some r)
    | Res.Err msg => Res.Err (if String.eqb msg "" then "Unknown error" else msg)
    end
  ∧ Router.echo (Router.onMessage hs (Some (Router.mkMessage ty a p rid))) = Some rid
  ∧ ∀ (b : string) (g : Router.handler P R), b ≠ a ->
      Router.sendMessage (Router.registerHandler b g hs) a p ty rid
      = Router.sendMessage hs a p ty rid.
Proof.
  intros Ha hs. apply String.eqb_neq in Ha.
  unfold Router.sendMessage, Router.onMessage, hs, Router.registerHandler. simpl.
  rewrite Ha. rewrite lookup_insert_eq. repeat split.
  - by destruct (h p).
  - by destruct (h p).
  - intros b g Hb. by rewrite lookup_insert_ne, lookup_insert_eq.
Qed.

Lemma sendMessage_witness :
  Router.sendMessage
    (Router.registerHandler "GET_TAB_COUNT" (fun _ : unit => Res.Ok 3%nat) ∅)
    "GET_TAB_COUNT" tt "QUERY" "r-1"
  = Res.Ok (Some 3%nat).
Proof.
  destruct (sendMessage_reaches_handler (∅ : gmap string (Router.handler unit nat))
              (fun _ => Res.Ok 3%nat) "GET_TAB_COUNT" tt "QUERY" "r-1") as (H & _).
  - discriminate.
  - exact H.
Defined.

(** X5.  A message without an action is answered "Invalid message
    format" and an action without a handler "Unknown action: <action>":
    sendMessage rejects with that text, whatever handlers are
    registered for other actions; after unregisterHandler an action is
    unknown again. *)
Theorem sendMessage_rejects_unknown {P R : Type}
    (handlers : gmap string (Router.handler P R)) (a : string) (p : P) (ty rid : string) :
  Router.sendMessage handlers "" p ty rid = Res.Err "Invalid message format"
  ∧ Router.success (Router.onMessage handlers None) = false
  ∧ (a ≠ "" -> handlers !! a = None ->
     Router.sendMessage handlers a p ty rid = Res.Err ("Unknown action: " +:+ a))
  ∧ (a ≠ "" ->
     Router.sendMessage (Router.unregisterHandler a handlers) a p ty rid
     = Res.Err ("Unknown action: " +:+ a)).
Proof.
  assert (Hmsg : Router.error_or_unknown (Some ("Unknown action: " +:+ a))
                 = "Unknown action: " +:+ a) by reflexivity.
  unfold Router.sendMessage, Router.onMessage, Router.unregisterHandler.
  repeat split.
  - intros Ha Hn. apply String.eqb_neq in Ha. cbn [Router.action].
    rewrite Ha. unfold Router.handler in *. rewrite Hn.
    cbn [Router.success Router.error]. by rewrite Hmsg.
  - intros Ha. apply String.eqb_neq in Ha. cbn [Router.action].
    rewrite Ha. unfold Router.handler in *. rewrite lookup_delete_eq.
    cbn [Router.success Router.error]. by rewrite Hmsg.
Qed.

Lemma sendMessage_rejects_witness :
  Router.sendMessage
    (Router.unregisterHandler "GET_WEATHER"
       (Router.registerHandler "GET_WEATHER" (fun _ : unit => Res.Ok 3%nat) ∅))
    "GET_WEATHER" tt "QUERY" "r-2"
  = Res.Err "Unknown action: GET_WEATHER".
Proof.
  destruct (sendMessage_rejects_unknown
              (Router.registerHandler "GET_WEATHER" (fun _ : unit => Res.Ok 3%nat) ∅)
              "GET_WEATHER" tt "QUERY" "r-2") as (_ & _ & _ & H).
  apply H. discriminate.
Defined.

(** ** Session tracker: heartbeat flushes *)

Section FlushFacts.
Import Tracker Measure Track.

#[local] Arguments Db.config_get : simpl never.
#[local] Arguments Scheduler.summaryKey : simpl never.
#[local] Arguments Tracker.workStartKey : simpl never.
#[local] Arguments Tracker.checkIfProductive : simpl never.

Lemma durations_app l1 l2 : durations (l1 ++ l2) = durations l1 + durations l2.
Proof. unfold durations. induction l1 as [|s l1 IH]; simpl; lia. Qed.

(** What one flush writes. *)
Lemma persistActiveSession_sessions w env :
  sessions (persistActiveSession w env).1
  = sessions w
    ++ match World.activeTabState w with
       | Some st =>
           if 5000 <? Clock.now (Env.clock env) - TabState.startTime st
           then [TabState.to_session st (Clock.now (Env.clock env))
                   (Clock.now (Env.clock env) - TabState.startTime st)]
           else []
       | None => []
       end.
Proof.
  unfold persistActiveSession, sessions.
  destruct (World.activeTabState w) as [st|]; [|by rewrite app_nil_r].
  destruct (5000 <? _); [reflexivity|by rewrite app_nil_r].
Qed.

Lemma persistActiveSession_persisted w env :
  persisted persistActiveSession w env
  = match World.activeTabState w with
    | Some st =>
        if 5000 <? Clock.now (Env.clock env) - TabState.startTime st
        then [TabState.to_session st (Clock.now (Env.clock env))
                (Clock.now (Env.clock env) - TabState.startTime st)]
        else []
    | None => []
    end.
Proof.
  unfold persisted. fold (sessions w). fold (sessions (persistActiveSession w env).1).
  rewrite persistActiveSession_sessions. apply drop_app_length.
Qed.

End FlushFacts.

(** X6.  A heartbeat flush of an open session loses no time and counts
    none twice: the duration it stores is exactly the distance by which
    it moves the start of the open session, and nothing is stored when
    the session has been open for five seconds or less.  The flushed
    record ends now and carries the url, title, domain, classification,
    expiry and, in particular, the day of the moment the tab was opened;
    the open session keeps all of these.  No notification is created. *)
Theorem flush_moves_start_by_duration (w : World.t) (env : Env.t) (st : TabState.t) :
  World.activeTabState w = Some st ->
  let now := Clock.now (Env.clock env) in
  let saved := Measure.persisted Tracker.persistActiveSession w env in
  (Tracker.persistActiveSession w env).2 = []
  ∧ ∃ st', World.activeTabState (Tracker.persistActiveSession w env).1 = Some st'
      ∧ Track.same_tab st st'
      ∧ Measure.durations saved = TabState.startTime st' - TabState.startTime st
      ∧ (now - TabState.startTime st <= 5000 -> saved = [] ∧ st' = st)
      ∧ (5000 < now - TabState.startTime st -> TabState.startTime st' = now)
      ∧ ∀ s, s ∈ saved ->
          Session.startTime s = TabState.startTime st
          ∧ Session.endTime s = now
          ∧ Session.duration s = now - TabState.startTime st
          ∧ 5000 < Session.duration s
          ∧ Session.url s = TabState.url st
          ∧ Session.title s = TabState.title st
          ∧ Session.date s = TabState.date st
          ∧ Session.domain s = TabState.domain st
          ∧ Session.classification s = TabState.classification st
          ∧ Session.expiresAt s = TabState.expiresAt st.
Proof.
  intros Hact now saved. subst saved. rewrite persistActiveSession_persisted.
  unfold Tracker.persistActiveSession. rewrite Hact. fold now.
  destruct (5000 <? now - TabState.startTime st) eqn:Hd; simpl.
  - apply Z.ltb_lt in Hd. split; [reflexivity|].
    exists (TabState.with_startTime now st).
    split; [reflexivity|]. split; [by repeat split|].
    split; [unfold Measure.durations; simpl; lia|].
    split; [lia|]. split; [done|].
    intros s Hs. apply list_elem_of_singleton in Hs. subst s. simpl.
    repeat split; lia.
  - apply Z.ltb_ge in Hd. split; [reflexivity|].
    exists st.
    split; [exact Hact|]. split; [by repeat split|].
    split; [unfold Measure.durations; simpl; lia|].
    split; [done|]. split; [lia|].
    intros s Hs. by apply elem_of_nil in Hs.
Qed.

Lemma flush_witness :
  ∃ st', World.activeTabState
           (Tracker.persistActiveSession Examples.browsing
              (Examples.quiet_env Examples.new_year)).1 = Some st'
         ∧ TabState.startTime st' = 1704070900000
         ∧ TabState.date st' = "2024-01-01".
Proof.
  destruct (flush_moves_start_by_duration Examples.browsing
              (Examples.quiet_env Examples.new_year)
              (TabState.mk "https://github.com/" "github.com" "GitHub" 1704067200000
                           "2024-01-01" "unclassified" 1706659200000) eq_refl)
    as (_ & st' & Hact & Hsame & _ & _ & Hmove & _).
  exists st'. split; [exact Hact|]. split.
  - apply Hmove. vm_compute. reflexivity.
  - destruct Hsame as (_ & _ & _ & Hdate & _). exact Hdate.
Defined.

Section TrackingFacts.
Import Tracker Measure Track Scheduler.

#[local] Arguments Db.config_get : simpl never.
#[local] Arguments Scheduler.summaryKey : simpl never.
#[local] Arguments Tracker.workStartKey : simpl never.
#[local] Arguments Tracker.checkIfProductive : simpl never.

Lemma getTodaysEvents_sessions d env :
  Db.browsing_sessions (Remote.db (Remote.getTodaysEvents d env)) = Db.browsing_sessions d.
Proof. unfold Remote.getTodaysEvents. repeat case_match; reflexivity. Qed.

Lemma safeTodaysEvents_sessions d env :
  Db.browsing_sessions (Remote.safeTodaysEvents d env).2 = Db.browsing_sessions d.
Proof. apply getTodaysEvents_sessions. Qed.

Ltac hands_off_tac :=
  intros w env; unfold sessions;
  repeat case_match; simplify_eq; simpl;
  repeat match goal with
    | H : Remote.safeTodaysEvents ?d ?env = (_, _) |- _ =>
        let E := fresh "E" in
        pose proof (safeTodaysEvents_sessions d env) as E;
        rewrite H in E; simpl in E; clear H
    end;
  rewrite ?getTodaysEvents_sessions; split; first [reflexivity | congruence].

Lemma checkMorningBriefing_hands_off : hands_off checkMorningBriefing.
Proof. unfold checkMorningBriefing, World.reset. hands_off_tac. Qed.

Lemma checkReadyToStart_hands_off : hands_off checkReadyToStart.
Proof. unfold checkReadyToStart, World.reset. hands_off_tac. Qed.

Lemma checkEndOfDay_hands_off : hands_off checkEndOfDay.
Proof. unfold checkEndOfDay. hands_off_tac. Qed.

Lemma checkProgressMilestones_hands_off : hands_off checkProgressMilestones.
Proof. unfold checkProgressMilestones, World.reset. hands_off_tac. Qed.

Lemma checkDistractionAlert_hands_off : hands_off checkDistractionAlert.
Proof. unfold checkDistractionAlert, World.reset. hands_off_tac. Qed.

Lemma checkMeetingAwareness_hands_off : hands_off checkMeetingAwareness.
Proof.
  unfold checkMeetingAwareness. hands_off_tac.
Qed.

Lemma celebrate_hands_off dom : hands_off (celebrateFirstProductiveAction dom).
Proof.
  intros w env. unfold celebrateFirstProductiveAction, World.reset, sessions.
  destruct (DailyState.firstProductiveCelebrated _); [done|].
  by destruct (negb _).
Qed.

Lemma aggregateDailyStats_hands_off : hands_off Worker.aggregateDailyStats.
Proof. intros w env. by unfold sessions. Qed.

Lemma batchClassifyDomains_hands_off : hands_off Worker.batchClassifyDomains.
Proof.
  intros w env. unfold Worker.batchClassifyDomains, sessions. simpl. split; [|done].
  rewrite batchClassifyDomains_eq.
  destruct (negb _); [done|].
  destruct (Classifier.uncached _ _); [done|].
  destruct (Env.ai_request env _) as [items|msg]; simpl; [|done].
  by destruct (fold_put_ai_other (Clock.now (Env.clock env)) items (World.db w)) as [-> _].
Qed.

Lemma hands_off_and_then a b : hands_off a -> hands_off b -> hands_off (a >+> b).
Proof.
  intros Ha Hb w env. unfold and_then.
  destruct (Ha w env) as [Ha1 Ha2]. destruct (a w env) as [w1 l1].
  destruct (Hb w1 env) as [Hb1 Hb2]. destruct (b w1 env) as [w2 l2].
  simpl in *. split; congruence.
Qed.

Lemma hands_off_appends a : hands_off a -> appends a.
Proof.
  intros Ha w env. exists []. destruct (Ha w env) as [-> _].
  by rewrite app_nil_r.
Qed.

Lemma appends_and_then a b : appends a -> appends b -> appends (a >+> b).
Proof.
  intros Ha Hb w env. unfold and_then.
  destruct (Ha w env) as (n1 & H1 & F1). destruct (a w env) as [w1 l1].
  destruct (Hb w1 env) as (n2 & H2 & F2). destruct (b w1 env) as [w2 l2].
  simpl in *. exists (n1 ++ n2). split.
  - by rewrite H2, H1, (assoc_L (++)).
  - by apply Forall_app.
Qed.

Lemma persistActiveSession_appends : appends persistActiveSession.
Proof.
  intros w env. rewrite persistActiveSession_sessions. eexists. split; [reflexivity|].
  destruct (World.activeTabState w) as [st|]; [|constructor].
  destruct (5000 <? _) eqn:Hd; [|constructor].
  apply Z.ltb_lt in Hd. repeat constructor; simpl; lia.
Qed.

Lemma handleTabChange_appends tab : appends (handleTabChange tab).
Proof.
  intros w env. unfold sessions. rewrite handleTabChange_sessions.
  eexists. split; [reflexivity|]. unfold closing.
  destruct (World.activeTabState w) as [st|]; [|constructor].
  destruct (1000 <? _) eqn:Hd; [|constructor].
  apply Z.ltb_lt in Hd. repeat constructor; simpl; lia.
Qed.

(** The checks that follow the flush in a heartbeat. *)
Lemma heartbeat_rest_hands_off :
  hands_off (Worker.aggregateDailyStats >+> checkProgressMilestones
             >+> checkDistractionAlert >+> checkMeetingAwareness).
Proof.
  repeat apply hands_off_and_then.
  - apply aggregateDailyStats_hands_off.
  - apply checkProgressMilestones_hands_off.
  - apply checkDistractionAlert_hands_off.
  - apply checkMeetingAwareness_hands_off.
Qed.

Lemma and_then_hands_off_r a b w env :
  hands_off b ->
  sessions ((a >+> b) w env).1 = sessions (a w env).1
  ∧ World.activeTabState ((a >+> b) w env).1 = World.activeTabState (a w env).1.
Proof.
  intros Hb. unfold and_then. destruct (a w env) as [w1 l1].
  specialize (Hb w1 env). destruct (b w1 env) as [w2 l2]. exact Hb.
Qed.

Lemma heartbeat_tracking w env :
  sessions (Worker.onAlarm Worker.heartbeat w env).1 = sessions (persistActiveSession w env).1
  ∧ World.activeTabState (Worker.onAlarm Worker.heartbeat w env).1
    = World.activeTabState (persistActiveSession w env).1.
Proof.
  simpl Worker.onAlarm.
  destruct (and_then_hands_off_r
              (persistActiveSession >+> Worker.aggregateDailyStats
               >+> checkProgressMilestones >+> checkDistractionAlert)
              checkMeetingAwareness w env checkMeetingAwareness_hands_off) as [-> ->].
  destruct (and_then_hands_off_r
              (persistActiveSession >+> Worker.aggregateDailyStats
               >+> checkProgressMilestones)
              checkDistractionAlert w env checkDistractionAlert_hands_off) as [-> ->].
  destruct (and_then_hands_off_r
              (persistActiveSession >+> Worker.aggregateDailyStats)
              checkProgressMilestones w env checkProgressMilestones_hands_off) as [-> ->].
  apply and_then_hands_off_r, aggregateDailyStats_hands_off.
Qed.

Lemma onAlarm_appends a : a ≠ Worker.cleanup -> appends (Worker.onAlarm a).
Proof.
  intros Hne. destruct a; simpl; try congruence.
  - repeat apply appends_and_then.
    + apply persistActiveSession_appends.
    + apply hands_off_appends, aggregateDailyStats_hands_off.
    + apply hands_off_appends, checkProgressMilestones_hands_off.
    + apply hands_off_appends, checkDistractionAlert_hands_off.
    + apply hands_off_appends, checkMeetingAwareness_hands_off.
  - intros w env. exists []. by rewrite app_nil_r.
  - apply hands_off_appends, batchClassifyDomains_hands_off.
  - apply hands_off_appends, checkMorningBriefing_hands_off.
  - apply hands_off_appends, checkReadyToStart_hands_off.
  - apply hands_off_appends, checkEndOfDay_hands_off.
Qed.

Lemma runCleanup_sessions w env :
  sessions (Worker.runCleanup w env).1
  = filter (fun s => Clock.now (Env.clock env) < Session.expiresAt s) (sessions w).
Proof. reflexivity. Qed.

Lemma step_sessions w e :
  (Track.is_cleanup e = false
   ∧ ∃ new, sessions (Worker.step w e).1 = sessions w ++ new ∧ Forall well_formed new)
  ∨ (Track.is_cleanup e = true
     ∧ sessions (Worker.step w e).1
       = filter (fun s => Clock.now (Env.clock (Worker.env_of e)) < Session.expiresAt s)
                (sessions w)).
Proof.
  unfold Worker.step. destruct e as [a env|tab env|env].
  - assert (Hcases : a = Worker.cleanup ∨ a ≠ Worker.cleanup)
      by (destruct a; (by left) || (by right)).
    destruct Hcases as [->|Hne].
    + right. split; [reflexivity|]. simpl Worker.onAlarm.
      pose proof (runCleanup_sessions w env) as H.
      destruct (Worker.runCleanup w env). exact H.
    + left. split; [by destruct a|].
      pose proof (onAlarm_appends a Hne w env) as H.
      destruct (Worker.onAlarm a w env). exact H.
  - left. split; [reflexivity|].
    pose proof (handleTabChange_appends tab w env) as H.
    destruct (handleTabChange tab w env). exact H.
  - left. split; [reflexivity|]. exists []. split; [|constructor].
    unfold sessions. simpl. by rewrite app_nil_r.
Qed.

End TrackingFacts.

Section RunFacts.
Import Tracker Measure Track.

(** Any number of heartbeats over an open session. *)
(** One flush: the open session keeps its identity, and what is stored
    is the distance its start moves. *)
Lemma persistActiveSession_flush w env st :
  World.activeTabState w = Some st ->
  ∃ st', World.activeTabState (persistActiveSession w env).1 = Some st'
    ∧ same_tab st st'
    ∧ durations (persisted persistActiveSession w env)
      = TabState.startTime st' - TabState.startTime st
    ∧ ∀ s, s ∈ persisted persistActiveSession w env ->
        Session.date s = TabState.date st ∧ Session.domain s = TabState.domain st.
Proof.
  intros Hact. rewrite persistActiveSession_persisted.
  unfold persistActiveSession. rewrite Hact.
  destruct (5000 <? Clock.now (Env.clock env) - TabState.startTime st); simpl.
  - exists (TabState.with_startTime (Clock.now (Env.clock env)) st).
    split; [reflexivity|]. split; [by repeat split|].
    split; [unfold durations; simpl; lia|].
    intros s Hs. apply list_elem_of_singleton in Hs. by subst s.
  - exists st. split; [exact Hact|]. split; [by repeat split|].
    split; [unfold durations; simpl; lia|].
    intros s Hs. by apply elem_of_nil in Hs.
Qed.

Lemma run_heartbeats envs : ∀ w st,
  World.activeTabState w = Some st ->
  ∃ st1 flushed,
    World.activeTabState (Worker.run w (heartbeats envs)).1 = Some st1
    ∧ same_tab st st1
    ∧ sessions (Worker.run w (heartbeats envs)).1 = sessions w ++ flushed
    ∧ durations flushed = TabState.startTime st1 - TabState.startTime st
    ∧ Forall (fun s => Session.date s = TabState.date st
                       ∧ Session.domain s = TabState.domain st) flushed.
Proof.
  induction envs as [|env envs IH]; intros w st Hact.
  - exists st, []. simpl. rewrite app_nil_r.
    repeat split; try done. unfold durations. simpl. lia.
  - cbn [heartbeats map Worker.run]. fold (heartbeats envs).
    destruct (heartbeat_tracking w env) as [Hs Ha].
    destruct (persistActiveSession_flush w env st Hact)
      as (st' & Hact' & Hsame & Hdur & Hrec).
    unfold Worker.step.
    destruct (Worker.onAlarm Worker.heartbeat w env) as [w1 l1]. simpl in Hs, Ha.
    rewrite <- Ha in Hact'.
    destruct (IH w1 st' Hact') as (st1 & fl & Hact1 & Hsame1 & Hs1 & Hdur1 & Hall1).
    destruct (Worker.run w1 (heartbeats envs)) as [w2 l2]. simpl in *.
    exists st1, (persisted persistActiveSession w env ++ fl).
    destruct Hsame as (E1 & E2 & E3 & E4 & E5 & E6).
    destruct Hsame1 as (F1 & F2 & F3 & F4 & F5 & F6).
    split; [exact Hact1|]. split; [repeat split; congruence|].
    split.
    { rewrite Hs1, Hs. rewrite persistActiveSession_sessions.
      rewrite persistActiveSession_persisted. by rewrite (assoc_L (++)). }
    split; [rewrite durations_app; lia|].
    apply Forall_app. split.
    + apply Forall_forall. intros s Hin.
      by apply Hrec.
    + eapply Forall_impl; [exact Hall1|]. simpl. intros s [Hd Hdom].
      split; congruence.
Qed.

(** What the heartbeats over an open session write: every record
    carries the url, the day and the expiry of the open session. *)
Lemma run_heartbeats_stamp envs : ∀ w st,
  World.activeTabState w = Some st ->
  ∃ flushed,
    sessions (Worker.run w (heartbeats envs)).1 = sessions w ++ flushed
    ∧ Forall (fun s => Session.url s = TabState.url st
                       ∧ Session.date s = TabState.date st
                       ∧ Session.expiresAt s = TabState.expiresAt st
                       ∧ TabState.startTime st <= Session.startTime s) flushed
    ∧ (∀ env rest, envs = env :: rest ->
         5000 < Clock.now (Env.clock env) - TabState.startTime st -> flushed ≠ []).
Proof.
  induction envs as [|env envs IH]; intros w st Hact.
  - exists []. simpl. rewrite app_nil_r. repeat split; [constructor|discriminate].
  - cbn [heartbeats map Worker.run]. fold (heartbeats envs).
    destruct (heartbeat_tracking w env) as [Hs Ha].
    rewrite persistActiveSession_sessions, Hact in Hs.
    unfold persistActiveSession in Ha. rewrite Hact in Ha.
    unfold Worker.step.
    destruct (Worker.onAlarm Worker.heartbeat w env) as [w1 l1]. cbn [fst snd] in *.
    destruct (5000 <? Clock.now (Env.clock env) - TabState.startTime st) eqn:Hd;
      cbn [fst World.activeTabState World.with_activeTabState] in Ha.
    + apply Z.ltb_lt in Hd.
      destruct (IH w1 _ Ha) as (fl & Hs1 & Hall & _).
      destruct (Worker.run w1 (heartbeats envs)) as [w2 l2]. cbn [fst snd] in *.
      exists (TabState.to_session st (Clock.now (Env.clock env))
                (Clock.now (Env.clock env) - TabState.startTime st) :: fl).
      split; [by rewrite Hs1, Hs, <- (assoc_L (++))|]. split; [|discriminate].
      constructor; [simpl; repeat split; lia|].
      eapply Forall_impl; [exact Hall|]. simpl. intros s (H1 & H2 & H3 & H4).
      repeat split; try done. lia.
    + apply Z.ltb_ge in Hd. rewrite app_nil_r in Hs. rewrite Hact in Ha.
      destruct (IH w1 st Ha) as (fl & Hs1 & Hall & _).
      destruct (Worker.run w1 (heartbeats envs)) as [w2 l2]. cbn [fst snd] in *.
      exists fl. split; [by rewrite Hs1, Hs|]. split; [exact Hall|].
      intros env' rest [= <- <-] Hlong. lia.
Qed.

End RunFacts.

(** X7.  However many heartbeats flush an open session before the tab
    changes, the durations of all the records written for it add up to
    the time from its opening to the tab change when the last stretch
    exceeds one second, and fall short of it by that last stretch
    otherwise; every record carries the day and the domain of the moment
    the tab was opened. *)
Theorem heartbeats_then_close (w : World.t) (st : TabState.t) (envs : list Env.t)
    (tab : Tab.t) (envc : Env.t) :
  World.activeTabState w = Some st ->
  let w1 := (Worker.run w (Track.heartbeats envs)).1 in
  let w2 := (Worker.step w1 (Worker.TabChanged tab envc)).1 in
  let close := Clock.now (Env.clock envc) in
  ∃ st1 written,
    World.activeTabState w1 = Some st1
    ∧ Track.sessions w2 = Track.sessions w ++ written
    ∧ Measure.durations written
      = (TabState.startTime st1 - TabState.startTime st)
        + (if 1000 <? close - TabState.startTime st1
           then close - TabState.startTime st1 else 0)
    ∧ (1000 < close - TabState.startTime st1 ->
       Measure.durations written = close - TabState.startTime st)
    ∧ close - TabState.startTime st - 1000 <= Measure.durations written
    ∧ Forall (fun s => Session.date s = TabState.date st
                       ∧ Session.domain s = TabState.domain st) written.
Proof.
  intros Hact w1 w2 close.
  destruct (run_heartbeats envs w st Hact) as (st1 & fl & Hact1 & Hsame & Hs1 & Hdur & Hall).
  fold w1 in Hact1, Hs1.
  assert (Hs2 : Track.sessions w2
                = Track.sessions w1 ++ Measure.closing w1 close).
  { subst w2. unfold Worker.step, Track.sessions.
    pose proof (handleTabChange_sessions tab w1 envc) as H.
    destruct (Tracker.handleTabChange tab w1 envc). exact H. }
  exists st1, (fl ++ Measure.closing w1 close).
  split; [exact Hact1|]. split; [by rewrite Hs2, Hs1, (assoc_L (++))|].
  unfold Measure.closing. rewrite Hact1.
  destruct Hsame as (_ & Hdom & _ & Hdate & _).
  destruct (1000 <? close - TabState.startTime st1) eqn:Hlast.
  - apply Z.ltb_lt in Hlast. rewrite durations_app.
    assert (Hc : Measure.durations
                   [TabState.to_session st1 close (close - TabState.startTime st1)]
                 = close - TabState.startTime st1)
      by (unfold Measure.durations; simpl; lia).
    rewrite Hc. repeat split; try lia.
    apply Forall_app. split; [exact Hall|]. repeat constructor; simpl; congruence.
  - apply Z.ltb_ge in Hlast. rewrite app_nil_r. repeat split; try lia. exact Hall.
Qed.

Lemma heartbeats_then_close_witness :
  ∃ st1 written,
    World.activeTabState
      (Worker.run Examples.browsing
         (Track.heartbeats [Examples.quiet_env Examples.new_year])).1 = Some st1
    ∧ Track.sessions
        (Worker.step
           (Worker.run Examples.browsing
              (Track.heartbeats [Examples.quiet_env Examples.new_year])).1
           (Worker.TabChanged Examples.docs_tab (Examples.quiet_env Examples.new_year_later))).1
      = Track.sessions Examples.browsing ++ written
    ∧ 1704070930000 - 1704067200000 - 1000 <= Measure.durations written.
Proof.
  destruct (heartbeats_then_close Examples.browsing
              (TabState.mk "https://github.com/" "github.com" "GitHub" 1704067200000
                           "2024-01-01" "unclassified" 1706659200000)
              [Examples.quiet_env Examples.new_year] Examples.docs_tab
              (Examples.quiet_env Examples.new_year_later) eq_refl)
    as (st1 & written & H1 & H2 & _ & _ & H5 & _).
  exists st1, written. split; [exact H1|]. split; [exact H2|exact H5].
Defined.

(** X8.  Every stored session has duration = endTime - startTime and a
    duration above one second, and this is kept by every alarm, tab
    change and start of the worker, the retention sweep included. *)
Theorem stored_sessions_stay_well_formed (w : World.t) (es : list Worker.event) :
  Forall Track.well_formed (Track.sessions w) ->
  Forall Track.well_formed (Track.sessions (Worker.run w es).1).
Proof.
  revert w. induction es as [|e es IH]; intros w Hwf; [exact Hwf|].
  cbn [Worker.run].
  pose proof (step_sessions w e) as Hstep.
  destruct (Worker.step w e) as [w1 l1]. simpl in Hstep.
  specialize (IH w1). destruct (Worker.run w1 es) as [w2 l2]. simpl in *.
  apply IH. destruct Hstep as [(_ & new & -> & Hnew)|(_ & ->)].
  - by apply Forall_app.
  - apply Forall_forall. intros s Hs. apply list_elem_of_filter in Hs as [_ Hs].
    by apply (proj1 (Forall_forall _ _) Hwf).
Qed.

Lemma stored_sessions_witness :
  Forall Track.well_formed
    (Track.sessions (Worker.run (World.initial Examples.binge) Examples.across_midnight).1).
Proof.
  apply stored_sessions_stay_well_formed.
  repeat constructor; vm_compute; reflexivity.
Defined.

(** X9.  Stored sessions are never altered, reordered or removed by an
    alarm, a tab change or a start of the worker other than the
    retention sweep: after any run without a cleanup alarm the earlier
    records are a prefix of the store.  A cleanup alarm keeps, in order,
    exactly the records whose expiresAt lies after the clock reading. *)
Theorem stored_sessions_only_grow (w : World.t) :
  (∀ es, Forall (fun e => Track.is_cleanup e = false) es ->
         Track.sessions w `prefix_of` Track.sessions (Worker.run w es).1)
  ∧ (∀ env, Track.sessions (Worker.step w (Worker.Alarm Worker.cleanup env)).1
            = filter (fun s => Clock.now (Env.clock env) < Session.expiresAt s)
                     (Track.sessions w)).
Proof.
  split.
  - intros es. revert w. induction es as [|e es IH]; intros w Hes; [done|].
    apply Forall_cons in Hes as [He Hes]. cbn [Worker.run].
    pose proof (step_sessions w e) as Hstep.
    destruct (Worker.step w e) as [w1 l1]. simpl in Hstep.
    specialize (IH w1 Hes). destruct (Worker.run w1 es) as [w2 l2]. simpl in *.
    destruct Hstep as [(_ & new & Hs & _)|(Hc & _)]; [|congruence].
    etransitivity; [|exact IH]. rewrite Hs. by apply prefix_app_r.
  - intros env. destruct (step_sessions w (Worker.Alarm Worker.cleanup env))
      as [(Hc & _)|(_ & H)]; [discriminate|exact H].
Qed.

Lemma stored_sessions_grow_witness :
  Track.sessions (World.initial Examples.binge)
  `prefix_of`
  Track.sessions (Worker.run (World.initial Examples.binge) Examples.across_midnight).1.
Proof.
  destruct (stored_sessions_only_grow (World.initial Examples.binge)) as [H _].
  apply H. repeat constructor.
Defined.

Section OpenFacts.
Import Tracker.

#[local] Arguments Tracker.checkIfProductive : simpl never.
#[local] Arguments Tracker.workStartKey : simpl never.

Lemma celebrate_activeTabState dom w env :
  World.activeTabState (celebrateFirstProductiveAction dom w env).1
  = World.activeTabState w.
Proof. by destruct (celebrate_hands_off dom w env). Qed.

Lemma prefix_append p rest : String.prefix p (p +:+ rest) = true.
Proof.
  induction p as [|a p IH]; simpl; [by destruct rest|].
  destruct (ascii_dec a a); [exact IH|congruence].
Qed.

End OpenFacts.

(** X10.  A tab change to a URL that is excluded stops tracking: no
    session is open afterwards and no notification is created; a missing
    URL and every URL under chrome://, chrome-extension:// or about: is
    excluded.  A tab change to any other URL opens a session that starts
    now, is stamped with the current day and the parsed host name
    ("unknown" when the URL does not parse), is unclassified and expires
    thirty days later. *)
Theorem tab_change_opens_session (tab : Tab.t) (w : World.t) (env : Env.t) :
  let now := Clock.now (Env.clock env) in
  let r := Tracker.handleTabChange tab w env in
  (Tracker.shouldExclude (Tab.url tab) = true ->
   World.activeTabState r.1 = None ∧ r.2 = [])
  ∧ (Tracker.shouldExclude (Tab.url tab) = false ->
     World.activeTabState r.1
     = Some (TabState.mk (Tab.url tab)
               (default "unknown" (Env.url_hostname env (Tab.url tab)))
               (Tab.title tab) now (Clock.today (Env.clock env)) "unclassified"
               (now + 30 * 24 * 60 * 60 * 1000)))
  ∧ Tracker.shouldExclude "" = true
  ∧ ∀ rest, Tracker.shouldExclude ("chrome://" +:+ rest) = true
            ∧ Tracker.shouldExclude ("chrome-extension://" +:+ rest) = true
            ∧ Tracker.shouldExclude ("about:" +:+ rest) = true.
Proof.
  intros now r. subst r. unfold Tracker.handleTabChange. fold now.
  split; [|split; [|split]].
  - intros ->. done.
  - intros ->. rewrite celebrate_activeTabState. simpl.
    unfold Tracker.extractDomain, Tracker.retention.
    by destruct (Env.url_hostname env (Tab.url tab)).
  - reflexivity.
  - intros rest. unfold Tracker.shouldExclude, Tracker.startsWith.
    rewrite !prefix_append. repeat split.
Qed.

Lemma tab_change_opens_witness :
  World.activeTabState
    (Tracker.handleTabChange (Tab.mk "chrome://settings" "Settings") Examples.browsing
       (Examples.quiet_env Examples.new_year)).1 = None.
Proof.
  destruct (tab_change_opens_session (Tab.mk "chrome://settings" "Settings")
              Examples.browsing (Examples.quiet_env Examples.new_year)) as (Hex & _).
  apply Hex. vm_compute. reflexivity.
Defined.

(** ** Daily aggregator: buckets and top domains *)

Section TallyFacts.
Import Aggregator Measure Tally.

Lemma step_domainMap dc a s :
  domainMap (step dc a s)
  = domainMap_add (domainMap a) (Session.domain s) (Session.duration s) (resolve dc s).
Proof. unfold step. repeat case_match; reflexivity. Qed.

Lemma entry_total_add m dom d c x :
  entry_total (domainMap_add m dom d c) x
  = entry_total m x + (if String.eqb dom x then d else 0).
Proof.
  induction m as [|e m IH]; simpl.
  - destruct (String.eqb dom x); lia.
  - destruct (String.eqb_spec (DomainStat.domain e) dom) as [He|He]; simpl.
    + rewrite He. destruct (String.eqb dom x); lia.
    + rewrite IH. lia.
Qed.

Lemma entries_total_add m dom d c :
  entries_total (domainMap_add m dom d c) = entries_total m + d.
Proof.
  induction m as [|e m IH]; simpl; [lia|].
  destruct (String.eqb (DomainStat.domain e) dom); simpl; lia.
Qed.

Lemma domains_add m dom d c :
  map DomainStat.domain (domainMap_add m dom d c)
  = if bool_decide (dom ∈ map DomainStat.domain m)
    then map DomainStat.domain m
    else map DomainStat.domain m ++ [dom].
Proof.
  induction m as [|e m IH]; cbn [domainMap_add map].
  - rewrite bool_decide_eq_false_2; [done|]. apply not_elem_of_nil.
  - destruct (String.eqb_spec (DomainStat.domain e) dom) as [He|He]; cbn [map DomainStat.domain].
    + rewrite bool_decide_eq_true_2; [by rewrite He|]. rewrite He. apply list_elem_of_here.
    + rewrite IH. case_bool_decide as H1; case_bool_decide as H2; try done.
      * exfalso. apply H2. by apply list_elem_of_further.
      * exfalso. apply elem_of_cons in H2 as [H2|H2]; [congruence|done].
Qed.

Lemma domain_total_cons s l x :
  domain_total (s :: l) x
  = (if String.eqb (Session.domain s) x then Session.duration s else 0) + domain_total l x.
Proof.
  unfold domain_total. rewrite filter_cons.
  destruct (String.eqb_spec (Session.domain s) x) as [He|He].
  - rewrite decide_True by done. reflexivity.
  - rewrite decide_False by done. unfold durations. lia.
Qed.

(** The map of domains the loop builds. *)
Lemma fold_domainMap dc l : ∀ a,
  NoDup (map DomainStat.domain (domainMap a)) ->
  let m := domainMap (foldl (step dc) a l) in
  NoDup (map DomainStat.domain m)
  ∧ (∀ x, entry_total m x = entry_total (domainMap a) x + domain_total l x)
  ∧ entries_total m = entries_total (domainMap a) + durations l
  ∧ (∀ x, x ∈ map DomainStat.domain m
          ↔ x ∈ map DomainStat.domain (domainMap a) ∨ ∃ s, s ∈ l ∧ Session.domain s = x).
Proof.
  induction l as [|s l IH]; intros a Hnd m.
  - subst m. simpl. repeat split; try done.
    + intros x. unfold domain_total, durations. simpl. lia.
    + unfold durations. simpl. lia.
    + by left.
    + intros [H|(s & Hs & _)]; [done|by apply elem_of_nil in Hs].
  - subst m. simpl foldl.
    assert (Hnd' : NoDup (map DomainStat.domain (domainMap (step dc a s)))).
    { rewrite step_domainMap, domains_add. case_bool_decide as Hin; [done|].
      apply NoDup_app. repeat split; [done| |apply NoDup_singleton].
      intros x Hx Hx'. apply list_elem_of_singleton in Hx'. by subst x. }
    destruct (IH (step dc a s) Hnd') as (H1 & H2 & H3 & H4). repeat split.
    + exact H1.
    + intros x. rewrite H2, step_domainMap, entry_total_add, domain_total_cons. lia.
    + rewrite H3, step_domainMap, entries_total_add. unfold durations. simpl. lia.
    + intros Hx. apply H4 in Hx as [Hx|(s' & Hs' & Hd)].
      * rewrite step_domainMap, domains_add in Hx.
        case_bool_decide as Hin; [by left|].
        apply elem_of_app in Hx as [Hx|Hx]; [by left|].
        apply list_elem_of_singleton in Hx. right. exists s.
        split; [apply list_elem_of_here|done].
      * right. exists s'. split; [by apply list_elem_of_further|done].
    + intros Hx. apply H4. destruct Hx as [Hx|(s' & Hs' & Hd)].
      * left. rewrite step_domainMap, domains_add.
        case_bool_decide; [done|]. apply elem_of_app. by left.
      * apply elem_of_cons in Hs' as [->|Hs'].
        -- left. rewrite step_domainMap, domains_add, Hd.
           case_bool_decide; [done|]. apply elem_of_app. right.
           by apply list_elem_of_singleton.
        -- right. by exists s'.
Qed.

Lemma entry_total_absent m x :
  x ∉ map DomainStat.domain m -> entry_total m x = 0.
Proof.
  induction m as [|e m IH]; intros Hx; simpl; [done|].
  destruct (String.eqb_spec (DomainStat.domain e) x) as [He|He].
  - exfalso. apply Hx. simpl. rewrite He. apply list_elem_of_here.
  - rewrite IH; [lia|]. intros H. apply Hx. by apply list_elem_of_further.
Qed.

Lemma entry_total_member m e :
  NoDup (map DomainStat.domain m) -> e ∈ m ->
  entry_total m (DomainStat.domain e) = DomainStat.duration e.
Proof.
  induction m as [|e' m IH]; intros Hnd He; [by apply elem_of_nil in He|].
  simpl in Hnd. apply NoDup_cons in Hnd as [Hfresh Hnd]. simpl.
  apply elem_of_cons in He as [->|He].
  - rewrite String.eqb_refl, entry_total_absent by done. lia.
  - destruct (String.eqb_spec (DomainStat.domain e') (DomainStat.domain e)) as [Heq|_].
    + exfalso. apply Hfresh. rewrite Heq. apply list_elem_of_fmap. by exists e.
    + rewrite IH by done. lia.
Qed.

(** The sort. *)
Lemma insert_desc_perm x l : insert_desc x l ≡ₚ x :: l.
Proof.
  induction l as [|y l IH]; simpl; [done|].
  destruct (_ <? _); [|done]. rewrite IH. apply Permutation_swap.
Qed.

Lemma sort_desc_perm l : sort_desc l ≡ₚ l.
Proof.
  unfold sort_desc. induction l as [|x l IH]; simpl; [done|].
  by rewrite insert_desc_perm, IH.
Qed.

Lemma insert_desc_sorted x l : sorted_desc l -> sorted_desc (insert_desc x l).
Proof.
  induction l as [|y l IH]; intros Hs; simpl.
  - split; [constructor|exact I].
  - destruct Hs as [Hall Hs].
    destruct (DomainStat.duration x <? DomainStat.duration y) eqn:Hlt; simpl.
    + apply Z.ltb_lt in Hlt. split; [|by apply IH].
      rewrite insert_desc_perm. constructor; [lia|exact Hall].
    + apply Z.ltb_ge in Hlt. repeat split; try done.
      constructor; [exact Hlt|].
      eapply Forall_impl; [exact Hall|]. simpl. intros z Hz. lia.
Qed.

Lemma sort_desc_sorted l : sorted_desc (sort_desc l).
Proof.
  unfold sort_desc. induction l as [|x l IH]; simpl; [exact I|].
  by apply insert_desc_sorted.
Qed.

Lemma sorted_desc_lookup l : ∀ i j x y,
  sorted_desc l -> (i < j)%nat -> l !! i = Some x -> l !! j = Some y ->
  DomainStat.duration y <= DomainStat.duration x.
Proof.
  induction l as [|z l IH]; intros i j x y Hs Hij Hi Hj; [discriminate|].
  destruct Hs as [Hall Hs]. destruct j as [|j]; [lia|]. simpl in Hj.
  destruct i as [|i]; simpl in Hi.
  - injection Hi as ->. rewrite Forall_forall in Hall.
    apply Hall. by apply list_elem_of_lookup_2 with j.
  - apply (IH i j); [done|lia|done|done].
Qed.

Lemma sorted_desc_take n l : sorted_desc l -> sorted_desc (take n l).
Proof.
  revert n. induction l as [|x l IH]; intros n Hs; destruct n; simpl; try done.
  destruct Hs as [Hall Hs]. split; [|by apply IH].
  apply Forall_take. exact Hall.
Qed.

(** The three category totals. *)
Lemma fold_buckets_by_label dc l : ∀ a,
  productiveTime (foldl (step dc) a l) = productiveTime a + bucket dc "productive" l
  ∧ distractionTime (foldl (step dc) a l) = distractionTime a + bucket dc "distraction" l
  ∧ neutralTime (foldl (step dc) a l) = neutralTime a + bucket_rest dc l.
Proof.
  unfold bucket, bucket_rest.
  induction l as [|s l IH]; intros a; simpl.
  - unfold durations. simpl. lia.
  - destruct (IH (step dc a s)) as (-> & -> & ->). rewrite !filter_cons.
    unfold step.
    destruct (String.eqb_spec (resolve dc s) "productive") as [Hp|Hp].
    { rewrite Hp. rewrite decide_True by done.
      rewrite (decide_False (P := "productive" = "distraction")) by discriminate.
      rewrite decide_False by (intros [? _]; done).
      unfold durations. simpl. lia. }
    destruct (String.eqb_spec (resolve dc s) "distraction") as [Hd|Hd].
    { rewrite Hd. rewrite (decide_False (P := "distraction" = "productive")) by discriminate.
      rewrite decide_True by done.
      rewrite decide_False by (intros [_ ?]; done).
      unfold durations. simpl. lia. }
    rewrite decide_False by done. rewrite decide_False by done.
    rewrite decide_True by done.
    unfold durations. simpl. lia.
Qed.

(** The aggregation writes today's record only. *)
Lemma aggregate_other_days d c day :
  day ≠ Clock.today c ->
  Db.daily_stats (aggregateDailyStats d c) !! day = Db.daily_stats d !! day.
Proof.
  intros Hday. unfold aggregateDailyStats. simpl.
  apply lookup_insert_ne. simpl. congruence.
Qed.

Lemma aggregate_snapshot d c : snapshot (aggregateDailyStats d c) c = snapshot d c.
Proof. reflexivity. Qed.

End TallyFacts.

(** X11.  The topDomains list of the snapshot aggregateDailyStats stores
    has at most 20 entries, one per domain, ordered by non-increasing
    duration; each entry carries the summed duration of the day's sessions
    of its domain, and that domain has a session that day; a domain of the
    day that is not listed has no more time than any listed entry; and
    when fewer than 20 entries are listed, their durations add up to the
    snapshot's totalTime. *)
Theorem top_domains_ranked (d : Db.t) (c : Clock.t) :
  let ss := Db.sessions_by_date d (Clock.today c) in
  let s := Aggregator.snapshot d c in
  let top := Stats.topDomains s in
  Db.daily_stats (Aggregator.aggregateDailyStats d c) !! Clock.today c = Some s
  ∧ (length top <= 20)%nat
  ∧ NoDup (map DomainStat.domain top)
  ∧ Tally.sorted_desc top
  ∧ (∀ e, e ∈ top ->
        DomainStat.duration e = Tally.domain_total ss (DomainStat.domain e)
        ∧ ∃ x, x ∈ ss ∧ Session.domain x = DomainStat.domain e)
  ∧ (∀ x, x ∈ ss -> Session.domain x ∉ map DomainStat.domain top ->
        ∀ e, e ∈ top -> Tally.domain_total ss (Session.domain x) <= DomainStat.duration e)
  ∧ ((length top < 20)%nat -> Tally.entries_total top = Stats.totalTime s).
Proof.
  intros ss s top.
  set (a := foldl (Aggregator.step (Db.domain_classifications d)) Aggregator.acc0 ss).
  set (m := Aggregator.domainMap a).
  assert (Htop : top = take 20 (Aggregator.sort_desc m)) by reflexivity.
  destruct (fold_domainMap (Db.domain_classifications d) ss Aggregator.acc0)
    as (Hnd & Htot & Hsum & Hdom); [simpl; constructor|].
  fold a in Hnd, Htot, Hsum, Hdom. fold m in Hnd, Htot, Hsum, Hdom.
  pose proof (sort_desc_perm m) as Hperm.
  pose proof (sort_desc_sorted m) as Hsorted.
  assert (Hnd' : NoDup (map DomainStat.domain (Aggregator.sort_desc m))).
  { change (map DomainStat.domain) with (fmap (M:=list) DomainStat.domain) in *.
    by rewrite Hperm. }
  assert (Hin : ∀ e, e ∈ top -> e ∈ m).
  { intros e He. rewrite <- Hperm. rewrite Htop in He.
    apply elem_of_take in He as (i & Hi & _). by apply list_elem_of_lookup_2 with i. }
  split; [apply aggregate_writes|].
  split; [rewrite Htop, length_take; lia|].
  split.
  { rewrite Htop. change (map DomainStat.domain) with (fmap (M:=list) DomainStat.domain).
    rewrite fmap_take. eapply sublist_NoDup; [exact Hnd'|apply sublist_take]. }
  split; [rewrite Htop; by apply sorted_desc_take|].
  split.
  { intros e He. specialize (Hin e He).
    pose proof (entry_total_member m e Hnd Hin) as Hd.
    rewrite Htot in Hd. simpl in Hd. split; [lia|].
    assert (Hm : DomainStat.domain e ∈ map DomainStat.domain m).
    { apply list_elem_of_fmap. by exists e. }
    apply Hdom in Hm as [Hm|Hm]; [by apply elem_of_nil in Hm|exact Hm]. }
  split.
  { intros x Hx Hout e He.
    assert (Hm : Session.domain x ∈ map DomainStat.domain m).
    { apply Hdom. right. by exists x. }
    apply list_elem_of_fmap in Hm as (y & Hy & Hym).
    assert (Hys : y ∈ Aggregator.sort_desc m) by (by rewrite Hperm).
    apply list_elem_of_lookup in Hys as (j & Hj).
    rewrite Htop in He. apply list_elem_of_lookup in He as (i & Hi).
    apply lookup_take_Some in Hi as [Hi Hlt].
    assert (Hge : (20 <= j)%nat).
    { destruct (decide (j < 20)%nat) as [Hjlt|]; [|lia].
      exfalso. apply Hout. rewrite Hy, Htop. apply list_elem_of_fmap. exists y.
      split; [done|]. apply list_elem_of_lookup. exists j.
      apply lookup_take_Some. by split. }
    pose proof (entry_total_member m y Hnd Hym) as Hd.
    rewrite Htot in Hd. simpl in Hd. rewrite Hy.
    pose proof (sorted_desc_lookup _ i j e y Hsorted ltac:(lia) Hi Hj). lia. }
  intros Hlen.
  assert (Hall : top = Aggregator.sort_desc m).
  { rewrite Htop. apply take_ge. rewrite Htop, length_take in Hlen. lia. }
  assert (Hpe : ∀ l l' : list DomainStat.t,
             l ≡ₚ l' -> Tally.entries_total l = Tally.entries_total l').
  { induction 1; simpl; lia. }
  rewrite Hall, (Hpe _ _ Hperm), Hsum.
  pose proof (fold_totalTime (Db.domain_classifications d) ss Aggregator.acc0) as Ht.
  change (Stats.totalTime s) with (Aggregator.totalTime a).
  subst a. rewrite Ht. reflexivity.
Qed.

(** X12.  The three category totals of the stored snapshot are the summed
    durations of the day's sessions by resolved label: productiveTime and
    distractionTime take the sessions resolved to "productive" and to
    "distraction", neutralTime takes every other session, whatever its
    label.  A session's own stamp decides unless it is "unclassified" or
    empty; then the cached record of its domain decides, and without one
    the session counts as neutral time. *)
Theorem category_totals_by_label (d : Db.t) (c : Clock.t) :
  let dc := Db.domain_classifications d in
  let ss := Db.sessions_by_date d (Clock.today c) in
  let s := Aggregator.snapshot d c in
  Db.daily_stats (Aggregator.aggregateDailyStats d c) !! Clock.today c = Some s
  ∧ Stats.productiveTime s = Tally.bucket dc "productive" ss
  ∧ Stats.distractionTime s = Tally.bucket dc "distraction" ss
  ∧ Stats.neutralTime s = Tally.bucket_rest dc ss
  ∧ (∀ x, Session.classification x ≠ "" -> Session.classification x ≠ "unclassified" ->
        Aggregator.resolve dc x = Session.classification x)
  ∧ (∀ x r, Session.classification x = "" ∨ Session.classification x = "unclassified" ->
        dc !! Session.domain x = Some r ->
        Aggregator.resolve dc x = ClassRecord.classification r)
  ∧ (∀ x, Session.classification x = "" ∨ Session.classification x = "unclassified" ->
        dc !! Session.domain x = None ->
        Aggregator.resolve dc x = "unclassified").
Proof.
  intros dc ss s.
  destruct (fold_buckets_by_label dc ss Aggregator.acc0) as (Hp & Hd & Hn).
  split; [apply aggregate_writes|].
  split; [exact Hp|]. split; [exact Hd|]. split; [exact Hn|].
  unfold Aggregator.resolve. repeat split.
  - intros x H1 H2.
    destruct (String.eqb_spec (Session.classification x) "") as [|_]; [done|].
    by destruct (String.eqb_spec (Session.classification x) "unclassified").
  - intros x r [H|H] Hr; rewrite H, Hr; reflexivity.
  - intros x [H|H] Hr; rewrite H, Hr; reflexivity.
Qed.

(** ** The percentage in binary64 *)

Section NumberFacts.

Import Js.








End NumberFacts.



(** X14.  aggregateDailyStats writes one record, today's, into
    daily_stats: the snapshots of other days and every other store stay
    as they are.  The snapshot counts today's sessions only: a session
    dated another day in the store does not change it. *)
Theorem aggregate_touches_only_today (d : Db.t) (c : Clock.t) :
  let d' := Aggregator.aggregateDailyStats d c in
  (∀ day, day ≠ Clock.today c -> Db.daily_stats d' !! day = Db.daily_stats d !! day)
  ∧ Db.browsing_sessions d' = Db.browsing_sessions d
  ∧ Db.domain_classifications d' = Db.domain_classifications d
  ∧ Db.settings d' = Db.settings d
  ∧ Db.cache_weather d' = Db.cache_weather d
  ∧ Db.cache_github d' = Db.cache_github d
  ∧ Db.cache_calendar d' = Db.cache_calendar d
  ∧ Aggregator.snapshot d' c = Aggregator.snapshot d c
  ∧ (∀ x l1 l2, Db.browsing_sessions d = l1 ++ l2 -> Session.date x ≠ Clock.today c ->
        Aggregator.snapshot (Db.with_sessions (l1 ++ x :: l2) d) c = Aggregator.snapshot d c).
Proof.
  intros d'. repeat split.
  - intros day Hday. subst d'. unfold Aggregator.aggregateDailyStats. simpl.
    apply lookup_insert_ne. simpl. congruence.
  - intros x l1 l2 Hl Hx. unfold Aggregator.snapshot, Db.sessions_by_date. simpl.
    rewrite Hl, !filter_app, filter_cons, decide_False by exact Hx. reflexivity.
Qed.

(** ** On-demand classification: the CLASSIFY_DOMAIN handler *)

Section HandlerFacts.
Import Classifier.

Lemma split_cached_fold d domains : ∀ results unc,
  foldl (fun '(results, unc) dom =>
           match Db.domain_classifications d !! dom with
           | Some r => (results ++ [r], unc)
           | None => (results, unc ++ [dom])
           end)
        (results, unc) domains
  = (results ++ omap (fun dom => Db.domain_classifications d !! dom) domains,
     unc ++ filter (fun dom => Db.domain_classifications d !! dom = None) domains).
Proof.
  induction domains as [|x l IH]; intros results unc; simpl.
  - by rewrite !app_nil_r.
  - rewrite filter_cons. destruct (Db.domain_classifications d !! x) as [r|] eqn:Hx.
    + rewrite IH, decide_False by done. by rewrite <- app_assoc.
    + rewrite IH, decide_True by done. by rewrite <- app_assoc.
Qed.

Lemma split_cached_spec d domains :
  split_cached d domains
  = (omap (fun dom => Db.domain_classifications d !! dom) domains,
     filter (fun dom => Db.domain_classifications d !! dom = None) domains).
Proof. unfold split_cached. by rewrite split_cached_fold. Qed.

Lemma fold_put_ai_stats now items : ∀ d,
  Db.daily_stats (foldl (put_ai now) d items) = Db.daily_stats d.
Proof.
  induction items as [|it items IH]; intros d; simpl; [done|].
  by rewrite IH.
Qed.

End HandlerFacts.

(** X15.  The CLASSIFY_DOMAIN handler answers with the cached records
    of the requested domains first, in request order.  It sends no request
    when every requested domain is cached or when AI is not enabled, and
    then the uncached domains get no record at all; otherwise it sends
    one request, for the first 20 uncached domains, and on success appends
    and stores a record for each returned item.  It never touches the
    sessions, the settings or the stored daily snapshots. *)
Theorem classify_handler_serves_cache (d : Db.t) (env : Env.t) (domains : list string) :
  let dc := Db.domain_classifications d in
  let cached := omap (fun dom => dc !! dom) domains in
  let unc := filter (fun dom => dc !! dom = None) domains in
  let now := Clock.now (Env.clock env) in
  let r := Classifier.handleClassifyDomain d env domains in
  cached `prefix_of` r.1.1
  ∧ (r.2 = [] ∨ r.2 = [take 20 unc])
  ∧ (unc = [] ∨ Classifier.isAIEnabled d = false -> r = (cached, d, []))
  ∧ (Classifier.isAIEnabled d = true -> unc ≠ [] -> r.2 = [take 20 unc])
  ∧ (∀ items, Classifier.isAIEnabled d = true -> unc ≠ [] ->
       Env.ai_request env (take 20 unc) = Res.Ok items ->
       r.1.1 = cached ++ map (Classifier.record_of now) items
       ∧ r.1.2 = foldl (Classifier.put_ai now) d items)
  ∧ Db.browsing_sessions r.1.2 = Db.browsing_sessions d
  ∧ Db.settings r.1.2 = Db.settings d
  ∧ Db.daily_stats r.1.2 = Db.daily_stats d.
Proof.
  intros dc cached unc now r. subst r. unfold Classifier.handleClassifyDomain.
  destruct domains as [|x l].
  { subst cached unc. simpl. repeat split; try done. by left. }
  rewrite split_cached_spec. fold dc. fold cached. fold unc.
  destruct unc as [|y unc'] eqn:Hunc.
  { simpl. repeat split; try done. by left. }
  destruct (Classifier.isAIEnabled d) eqn:Hen.
  2: { simpl. repeat split; try done; try (by left). }
  rewrite classifyDomains_requests by discriminate. fold now.
  destruct (Env.ai_request env (take 20 (y :: unc'))) as [items|msg] eqn:Hreq; cbn [fst snd].
  - destruct (fold_put_ai_other now items d) as [Hs Hset].
    repeat split; try done;
      try (by apply prefix_app_r); try (by right); try (by intros [?|?]);
      try (by intros items' _ _ [= <-]); try apply fold_put_ai_stats.
    all: congruence.
  - repeat split; try done;
      try (by apply prefix_app_r); try (by right); try (by intros [?|?]).
Qed.

(** ** Batch classification: the backlog *)

Section BacklogFacts.
Import Classifier.

Lemma set_add_filter (P : string -> Prop) `{!∀ x, Decision (P x)} x acc :
  filter P (set_add x acc) = if decide (P x) then set_add x (filter P acc) else filter P acc.
Proof.
  unfold set_add. destruct (decide (P x)) as [Hp|Hp].
  - case_bool_decide as Hin.
    + rewrite bool_decide_eq_true_2; [done|]. apply list_elem_of_filter. by split.
    + rewrite bool_decide_eq_false_2.
      * rewrite filter_app, filter_cons, decide_True by done. reflexivity.
      * intros Hf. apply list_elem_of_filter in Hf as [_ Hf]. done.
  - case_bool_decide as Hin; [done|].
    rewrite filter_app, filter_cons, decide_False by done. simpl. by rewrite app_nil_r.
Qed.

(** The backlog read against a cache that has grown is the old backlog
    without the domains that have a record now. *)
Lemma uncached_fold_filter d d' sessions :
  (∀ x, Db.domain_classifications d' !! x = None -> Db.domain_classifications d !! x = None) ->
  ∀ acc,
    foldl (fun acc s =>
             if String.eqb (Session.classification s) "unclassified" then
               match Db.domain_classifications d' !! Session.domain s with
               | Some _ => acc
               | None => set_add (Session.domain s) acc
               end
             else acc)
          (filter (fun x => Db.domain_classifications d' !! x = None) acc) sessions
    = filter (fun x => Db.domain_classifications d' !! x = None)
        (foldl (fun acc s =>
                  if String.eqb (Session.classification s) "unclassified" then
                    match Db.domain_classifications d !! Session.domain s with
                    | Some _ => acc
                    | None => set_add (Session.domain s) acc
                    end
                  else acc)
               acc sessions).
Proof.
  intros Hgrow. induction sessions as [|s l IH]; intros acc; [done|].
  cbn [foldl]. destruct (String.eqb (Session.classification s) "unclassified"); [|apply IH].
  destruct (Db.domain_classifications d' !! Session.domain s) as [r'|] eqn:H'.
  - destruct (Db.domain_classifications d !! Session.domain s) as [r|] eqn:H; [apply IH|].
    rewrite <- IH. f_equal. rewrite set_add_filter, decide_False; [done|]. by rewrite H'.
  - rewrite (Hgrow _ H'). rewrite <- IH. f_equal.
    rewrite set_add_filter, decide_True by done. reflexivity.
Qed.

Lemma uncached_filter d d' sessions :
  (∀ x, Db.domain_classifications d' !! x = None -> Db.domain_classifications d !! x = None) ->
  uncached d' sessions
  = filter (fun x => Db.domain_classifications d' !! x = None) (uncached d sessions).
Proof.
  intros Hgrow. unfold uncached.
  by rewrite <- (uncached_fold_filter d d' sessions Hgrow []).
Qed.

Lemma set_add_NoDup x acc : NoDup acc -> NoDup (set_add x acc).
Proof.
  intros Hnd. unfold set_add. case_bool_decide as Hin; [done|].
  apply NoDup_app. repeat split; [done| |apply NoDup_singleton].
  intros y Hy Hy'. apply list_elem_of_singleton in Hy'. by subst y.
Qed.

Lemma set_add_elem x y acc : y ∈ set_add x acc ↔ y = x ∨ y ∈ acc.
Proof.
  unfold set_add. case_bool_decide as Hin.
  - split; [by right|]. intros [->|H]; done.
  - rewrite elem_of_app, list_elem_of_singleton. tauto.
Qed.

(** The backlog lists each domain once, and only domains without a
    record that have a session stamped "unclassified". *)
Lemma uncached_fold_spec d sessions : ∀ acc,
  NoDup acc ->
  let r := foldl (fun acc s =>
                    if String.eqb (Session.classification s) "unclassified" then
                      match Db.domain_classifications d !! Session.domain s with
                      | Some _ => acc
                      | None => set_add (Session.domain s) acc
                      end
                    else acc) acc sessions in
  NoDup r
  ∧ ∀ x, x ∈ r ->
      x ∈ acc ∨ (Db.domain_classifications d !! x = None
                 ∧ ∃ s, s ∈ sessions ∧ Session.domain s = x
                        ∧ Session.classification s = "unclassified").
Proof.
  induction sessions as [|s l IH]; intros acc Hnd r.
  - subst r. simpl. split; [done|]. intros x Hx. by left.
  - subst r. cbn [foldl].
    destruct (String.eqb_spec (Session.classification s) "unclassified") as [Hc|Hc].
    2: { destruct (IH acc Hnd) as [H1 H2]. split; [exact H1|].
         intros x Hx. destruct (H2 x Hx) as [?|(? & s' & ? & ? & ?)]; [by left|].
         right. split; [done|]. exists s'. split; [by apply list_elem_of_further|done]. }
    destruct (Db.domain_classifications d !! Session.domain s) as [r|] eqn:Hr.
    { destruct (IH acc Hnd) as [H1 H2]. split; [exact H1|].
      intros x Hx. destruct (H2 x Hx) as [?|(? & s' & ? & ? & ?)]; [by left|].
      right. split; [done|]. exists s'. split; [by apply list_elem_of_further|done]. }
    destruct (IH (set_add (Session.domain s) acc) (set_add_NoDup _ _ Hnd)) as [H1 H2].
    split; [exact H1|].
    intros x Hx. destruct (H2 x Hx) as [Hin|(? & s' & ? & ? & ?)].
    + apply set_add_elem in Hin as [->|Hin]; [|by left].
      right. split; [done|]. exists s. split; [apply list_elem_of_here|done].
    + right. split; [done|]. exists s'. split; [by apply list_elem_of_further|done].
Qed.

Lemma uncached_spec d sessions :
  NoDup (uncached d sessions)
  ∧ ∀ x, x ∈ uncached d sessions ->
      Db.domain_classifications d !! x = None
      ∧ ∃ s, s ∈ sessions ∧ Session.domain s = x
             ∧ Session.classification s = "unclassified".
Proof.
  destruct (uncached_fold_spec d sessions [] (NoDup_nil_2)) as [H1 H2].
  split; [exact H1|]. intros x Hx.
  destruct (H2 x Hx) as [H|H]; [by apply elem_of_nil in H|exact H].
Qed.

Lemma fold_put_ai_missing now items : ∀ d x,
  Db.domain_classifications (foldl (put_ai now) d items) !! x = None
  ↔ Db.domain_classifications d !! x = None ∧ x ∉ map ClassItem.domain items.
Proof.
  induction items as [|it items IH]; intros d x; simpl.
  - split; [intros H; split; [done|apply not_elem_of_nil]|by intros [? _]].
  - rewrite IH, put_ai_classifications, not_elem_of_cons.
    destruct (decide (ClassItem.domain it = x)) as [->|Hne].
    + rewrite lookup_insert_eq. split; [by intros [? _]|by intros (_ & ? & _)].
    + rewrite lookup_insert_ne by done. split.
      * intros [? ?]. repeat split; try done; congruence.
      * intros (? & _ & ?). done.
Qed.

Lemma filter_agree {A} (P Q : A -> Prop) `{!∀ x, Decision (P x)} `{!∀ x, Decision (Q x)}
    (l : list A) :
  (∀ x, x ∈ l -> P x ↔ Q x) -> filter P l = filter Q l.
Proof.
  induction l as [|a l IH]; intros Hpq; [done|].
  rewrite !filter_cons. rewrite IH by (intros x Hx; apply Hpq; by apply list_elem_of_further).
  destruct (decide (P a)) as [Hp|Hp], (decide (Q a)) as [Hq|Hq]; try done.
  - exfalso. apply Hq, (Hpq a); [apply list_elem_of_here|done].
  - exfalso. apply Hp, (Hpq a); [apply list_elem_of_here|done].
Qed.

Lemma filter_none {A} (P : A -> Prop) `{!∀ x, Decision (P x)} (l : list A) :
  (∀ x, x ∈ l -> ¬ P x) -> filter P l = [].
Proof.
  induction l as [|a l IH]; intros Hl; [done|].
  rewrite filter_cons, decide_False by (apply Hl, list_elem_of_here).
  apply IH. intros x Hx. apply Hl. by apply list_elem_of_further.
Qed.

Lemma filter_all {A} (P : A -> Prop) `{!∀ x, Decision (P x)} (l : list A) :
  (∀ x, x ∈ l -> P x) -> filter P l = l.
Proof.
  induction l as [|a l IH]; intros Hl; [done|].
  rewrite filter_cons, decide_True by (apply Hl, list_elem_of_here).
  f_equal. apply IH. intros x Hx. apply Hl. by apply list_elem_of_further.
Qed.

Lemma filter_take_drop {A} (P : A -> Prop) `{!∀ x, Decision (P x)} (n : nat) (l : list A) :
  (∀ x, x ∈ take n l -> ¬ P x) -> (∀ x, x ∈ drop n l -> P x) ->
  filter P l = drop n l.
Proof.
  intros Ht Hd. rewrite <- (take_drop n l) at 1.
  by rewrite filter_app, filter_none, filter_all.
Qed.

End BacklogFacts.

(** X16.  After a batch run whose request succeeded, the backlog of
    unresolved domains is the old backlog, in the same order, without the
    domains the answer named.  When the answer names every domain of the
    request, the backlog has shrunk by the size of the request at least;
    when it names exactly those, the backlog is the old one without its
    first 20 entries, which the next run takes up. *)
Theorem batch_shrinks_backlog (d : Db.t) (env : Env.t) (items : list ClassItem.t) :
  let c := Env.clock env in
  let u := Classifier.uncached d (Db.sessions_by_date d (Clock.today c)) in
  let d' := (Classifier.batchClassifyDomains d env).1 in
  let u' := Classifier.uncached d' (Db.sessions_by_date d' (Clock.today c)) in
  let named := map ClassItem.domain items in
  Classifier.isAIEnabled d = true ->
  u ≠ [] ->
  Env.ai_request env (take 20 u) = Res.Ok items ->
  u' = filter (fun x => x ∉ named) u
  ∧ ((∀ x, x ∈ take 20 u -> x ∈ named) ->
     (length u' + length (take 20 u) <= length u)%nat)
  ∧ ((∀ x, x ∈ take 20 u ↔ x ∈ named) -> u' = drop 20 u).
Proof.
  intros c u d' u' named Hen Hu Hreq.
  set (d1 := foldl (Classifier.put_ai (Clock.now c)) d items).
  assert (Hd' : d' = Aggregator.aggregateDailyStats d1 c).
  { subst d'. rewrite batchClassifyDomains_eq. fold c. fold u. rewrite Hen. simpl.
    destruct u as [|y u0]; [done|]. by rewrite Hreq. }
  destruct (fold_put_ai_other (Clock.now c) items d) as [Hss _]. fold d1 in Hss.
  assert (Hsame : Db.sessions_by_date d' (Clock.today c) = Db.sessions_by_date d (Clock.today c)).
  { rewrite Hd'. unfold Db.sessions_by_date. simpl. by rewrite Hss. }
  assert (Hdc : Db.domain_classifications d' = Db.domain_classifications d1)
    by (by rewrite Hd').
  destruct (uncached_spec d (Db.sessions_by_date d (Clock.today c))) as [Hnd Hmiss].
  fold u in Hnd, Hmiss.
  assert (Hu' : u' = filter (fun x => x ∉ named) u).
  { subst u'. rewrite Hsame, (uncached_filter d d').
    - fold u. apply filter_agree. intros x Hx. rewrite Hdc. unfold d1.
      rewrite fold_put_ai_missing. fold named. destruct (Hmiss x Hx) as [Hn _]. tauto.
    - intros x. rewrite Hdc. unfold d1. rewrite fold_put_ai_missing. tauto. }
  split; [exact Hu'|]. split.
  - intros Hcover. rewrite Hu'. rewrite <- (take_drop 20 u) at 1 3.
    rewrite filter_app, !length_app.
    assert (H0 : filter (fun x => x ∉ named) (take 20 u) = []).
    { apply filter_none. intros x Hx Hn. apply Hn. by apply Hcover. }
    rewrite H0. simpl. pose proof (length_filter (fun x => x ∉ named) (drop 20 u)). lia.
  - intros Hexact. rewrite Hu'. apply filter_take_drop.
    + intros x Hx Hn. apply Hn. by apply Hexact.
    + intros x Hx Hn. apply Hexact in Hn.
      rewrite <- (take_drop 20 u) in Hnd. apply NoDup_app in Hnd as (_ & Hdis & _).
      by apply (Hdis x).
Qed.

Lemma batch_shrinks_witness :
  let d := Examples.forty_five in
  let env := Examples.answering_env Examples.new_year in
  let d' := (Classifier.batchClassifyDomains d env).1 in
  Classifier.uncached d' (Db.sessions_by_date d' "2024-01-01")
  = drop 20 (Classifier.uncached d (Db.sessions_by_date d "2024-01-01")).
Proof.
  intros d env d'.
  apply (batch_shrinks_backlog d env (map Examples.verdict (Examples.sites 20))).
  - vm_compute. reflexivity.
  - vm_compute. discriminate.
  - vm_compute. reflexivity.
  - assert (Heq : take 20 (Classifier.uncached d
                             (Db.sessions_by_date d (Clock.today (Env.clock env))))
                  = map ClassItem.domain (map Examples.verdict (Examples.sites 20)))
      by (vm_compute; reflexivity).
    intros x. by rewrite Heq.
Defined.

(** ** The snapshot a heartbeat leaves *)

Section FreshFacts.
Import Scheduler Books.

#[local] Arguments Db.config_get : simpl never.

Lemma same_refl d : same d d.
Proof. by repeat split. Qed.

Lemma same_trans d1 d2 d3 : same d1 d2 -> same d2 d3 -> same d1 d3.
Proof. intros (? & ? & ? & ?) (? & ? & ? & ?). repeat split; congruence. Qed.

Lemma getTodaysEvents_same d env : same d (Remote.db (Remote.getTodaysEvents d env)).
Proof. unfold Remote.getTodaysEvents. repeat case_match; by repeat split. Qed.

Lemma safeTodaysEvents_same d env : same d (Remote.safeTodaysEvents d env).2.
Proof. apply getTodaysEvents_same. Qed.

Lemma checkProgressMilestones_kept : kept checkProgressMilestones.
Proof.
  intros w env. unfold checkProgressMilestones, World.reset.
  repeat case_match; simplify_eq; apply same_refl.
Qed.

Lemma checkDistractionAlert_kept : kept checkDistractionAlert.
Proof.
  intros w env. unfold checkDistractionAlert, World.reset.
  repeat case_match; simplify_eq; apply same_refl.
Qed.

Lemma checkMeetingAwareness_kept : kept checkMeetingAwareness.
Proof.
  intros w env. unfold checkMeetingAwareness.
  destruct (Js.is_false _); [apply same_refl|].
  pose proof (safeTodaysEvents_same (World.db w) env) as Hs.
  destruct (Remote.safeTodaysEvents (World.db w) env) as [events db'].
  destruct events as [[|e l]|]; simpl; try exact Hs.
  destruct (warn_loop _ _ _ _). exact Hs.
Qed.

Lemma and_then_kept_r a b w env :
  kept b -> same (World.db (a w env).1) (World.db ((a >+> b) w env).1).
Proof.
  intros Hb. unfold and_then. destruct (a w env) as [w1 l1].
  specialize (Hb w1 env). destruct (b w1 env) as [w2 l2]. exact Hb.
Qed.

Lemma snapshot_same d d' c : same d d' -> Aggregator.snapshot d' c = Aggregator.snapshot d c.
Proof.
  intros (Hs & Hc & _ & Hset).
  unfold Aggregator.snapshot, Aggregator.goalMinutes, Db.sessions_by_date, Db.config_get.
  by rewrite Hs, Hc, Hset.
Qed.

(** The database a heartbeat leaves is the one the flush and the
    aggregation produced, but for the calendar cache. *)
Lemma heartbeat_books w env :
  same (Aggregator.aggregateDailyStats
          (World.db (Tracker.persistActiveSession w env).1) (Env.clock env))
       (World.db (Worker.onAlarm Worker.heartbeat w env).1).
Proof.
  simpl Worker.onAlarm.
  eapply same_trans;
    [|apply (and_then_kept_r
               (Tracker.persistActiveSession >+> Worker.aggregateDailyStats
                >+> checkProgressMilestones >+> checkDistractionAlert)
               checkMeetingAwareness w env checkMeetingAwareness_kept)].
  eapply same_trans;
    [|apply (and_then_kept_r
               (Tracker.persistActiveSession >+> Worker.aggregateDailyStats
                >+> checkProgressMilestones)
               checkDistractionAlert w env checkDistractionAlert_kept)].
  eapply same_trans;
    [|apply (and_then_kept_r
               (Tracker.persistActiveSession >+> Worker.aggregateDailyStats)
               checkProgressMilestones w env checkProgressMilestones_kept)].
  unfold and_then, Worker.aggregateDailyStats.
  destruct (Tracker.persistActiveSession w env) as [w1 l1]. simpl. apply same_refl.
Qed.

End FreshFacts.

(** X17.  Right after a heartbeat the dashboard reads consistent numbers:
    GET_BROWSING_STATS for today returns a stored record, which is the
    snapshot of the database as the heartbeat left it, stamped with the
    heartbeat's clock reading; its totalTime is the sum of the durations of
    the sessions GET_TODAYS_SESSIONS lists, and its sessionCount their
    number.  For a date without a stored record GET_BROWSING_STATS
    returns the placeholder of zeros for that date. *)
Theorem heartbeat_leaves_fresh_stats (w : World.t) (env : Env.t) (c2 : Clock.t) :
  Clock.today c2 = Clock.today (Env.clock env) ->
  let d' := World.db (Worker.onAlarm Worker.heartbeat w env).1 in
  let listed := Handlers.handleGetTodaysSessions d' c2 in
  (∃ s, Handlers.handleGetBrowsingStats d' c2 None = Handlers.Stored s
        ∧ s = Aggregator.snapshot d' (Env.clock env)
        ∧ Stats.totalTime s = Measure.durations listed
        ∧ Stats.sessionCount s = length listed
        ∧ Stats.updatedAt s = Clock.now (Env.clock env))
  ∧ Handlers.handleGetBrowsingStats d' c2 (Some "") = Handlers.handleGetBrowsingStats d' c2 None
  ∧ (∀ day, day ≠ "" -> Db.daily_stats d' !! day = None ->
       Handlers.handleGetBrowsingStats d' c2 (Some day) = Handlers.Placeholder day).
Proof.
  intros Hday d' listed.
  pose proof (heartbeat_books w env) as Hb. fold d' in Hb.
  set (d1 := World.db (Tracker.persistActiveSession w env).1) in *.
  set (c := Env.clock env) in *.
  pose proof Hb as (Hs & Hc & Hst & Hset).
  assert (Hsnap : Aggregator.snapshot d' c = Aggregator.snapshot d1 c).
  { rewrite (snapshot_same _ _ c Hb). apply aggregate_snapshot. }
  split.
  - exists (Aggregator.snapshot d' c).
    unfold Handlers.handleGetBrowsingStats, Handlers.targetDate.
    assert (Hlisted : listed = Db.sessions_by_date d1 (Clock.today c)).
    { subst listed. unfold Handlers.handleGetTodaysSessions, Db.sessions_by_date.
      by rewrite Hday, Hs. }
    rewrite Hday, Hst, aggregate_writes, Hsnap, Hlisted. repeat split.
    unfold Aggregator.snapshot. cbn [Stats.totalTime].
    rewrite fold_totalTime. simpl. lia.
  - split; [reflexivity|].
    intros day Hne Hnone. unfold Handlers.handleGetBrowsingStats, Handlers.targetDate.
    destruct (String.eqb_spec day "") as [|_]; [done|]. by rewrite Hnone.
Qed.

Lemma heartbeat_fresh_witness :
  let env := Examples.quiet_env Examples.new_year in
  let d' := World.db (Worker.onAlarm Worker.heartbeat Examples.browsing env).1 in
  let listed := Handlers.handleGetTodaysSessions d' Examples.new_year_later in
  ∃ s, Handlers.handleGetBrowsingStats d' Examples.new_year_later None = Handlers.Stored s
       ∧ s = Aggregator.snapshot d' (Env.clock env)
       ∧ Stats.totalTime s = Measure.durations listed
       ∧ Stats.sessionCount s = length listed
       ∧ Stats.updatedAt s = Clock.now (Env.clock env).
Proof.
  exact (proj1 (heartbeat_leaves_fresh_stats Examples.browsing
                  (Examples.quiet_env Examples.new_year) Examples.new_year_later eq_refl)).
Defined.

(** X18.  A session is booked on the day its tab was opened for as long
    as the tab stays open.  When a heartbeat of a later day flushes it,
    the record goes to the opening day: the sessions listed for the
    heartbeat's day and the snapshot the heartbeat writes for that day do
    not count the flushed time, and the stored snapshot of the opening
    day is left as it was. *)
Theorem flush_after_midnight_books_opening_day (w : World.t) (env : Env.t) (st : TabState.t) :
  World.activeTabState w = Some st ->
  TabState.date st ≠ Clock.today (Env.clock env) ->
  5000 < Clock.now (Env.clock env) - TabState.startTime st ->
  let c := Env.clock env in
  let w' := (Worker.onAlarm Worker.heartbeat w env).1 in
  let flushed := TabState.to_session st (Clock.now c) (Clock.now c - TabState.startTime st) in
  Track.sessions w' = Track.sessions w ++ [flushed]
  ∧ Session.date flushed = TabState.date st
  ∧ Db.sessions_by_date (World.db w') (Clock.today c)
    = Db.sessions_by_date (World.db w) (Clock.today c)
  ∧ Db.sessions_by_date (World.db w') (TabState.date st)
    = Db.sessions_by_date (World.db w) (TabState.date st) ++ [flushed]
  ∧ (∃ s, Db.daily_stats (World.db w') !! Clock.today c = Some s
          ∧ Stats.totalTime s
            = Measure.durations (Db.sessions_by_date (World.db w) (Clock.today c)))
  ∧ Db.daily_stats (World.db w') !! TabState.date st
    = Db.daily_stats (World.db w) !! TabState.date st.
Proof.
  intros Hact Hdate Hlong c w' flushed.
  pose proof (heartbeat_books w env) as (Hs & Hc & Hst & Hset). fold w' in Hs, Hc, Hst, Hset.
  assert (Hp : World.db (Tracker.persistActiveSession w env).1
               = Tracker.put_session flushed (World.db w)).
  { unfold Tracker.persistActiveSession. rewrite Hact. fold c.
    assert (Hlt : (5000 <? Clock.now c - TabState.startTime st) = true) by (apply Z.ltb_lt; exact Hlong).
    rewrite Hlt. reflexivity. }
  rewrite Hp in Hs, Hst. fold c in Hst.
  assert (Hsess : Track.sessions w' = Track.sessions w ++ [flushed]).
  { unfold Track.sessions. rewrite Hs. reflexivity. }
  unfold Track.sessions in Hsess.
  split; [exact Hsess|]. split; [reflexivity|]. split.
  { unfold Db.sessions_by_date. rewrite Hsess, filter_app, filter_cons.
    rewrite decide_False by exact Hdate. simpl. by rewrite app_nil_r. }
  split.
  { unfold Db.sessions_by_date. rewrite Hsess, filter_app, filter_cons.
    rewrite decide_True by reflexivity. reflexivity. }
  split.
  { exists (Aggregator.snapshot (Tracker.put_session flushed (World.db w)) c).
    rewrite Hst. split; [apply aggregate_writes|].
    unfold Aggregator.snapshot. cbn [Stats.totalTime]. rewrite fold_totalTime.
    unfold Db.sessions_by_date, Tracker.put_session. simpl.
    rewrite filter_app, filter_cons, decide_False by exact Hdate.
    simpl. rewrite app_nil_r. lia. }
  rewrite Hst.
  rewrite aggregate_other_days by exact Hdate. reflexivity.
Qed.

Lemma flush_after_midnight_witness :
  let env := Examples.quiet_env Examples.after_midnight in
  let w' := (Worker.onAlarm Worker.heartbeat Examples.browsing env).1 in
  Track.sessions w'
  = Track.sessions Examples.browsing
      ++ [Session.mk "https://github.com/" "github.com" "GitHub" 1704067200000
            1704153605000 86405000 "2024-01-01" "unclassified" 1706659200000]
  ∧ Db.sessions_by_date (World.db w') "2024-01-02" = [].
Proof.
  intros env w'.
  destruct (flush_after_midnight_books_opening_day Examples.browsing env
              (TabState.mk "https://github.com/" "github.com" "GitHub" 1704067200000
                           "2024-01-01" "unclassified" 1706659200000))
    as (H1 & _ & H3 & _).
  - reflexivity.
  - discriminate.
  - reflexivity.
  - split; [exact H1|exact H3].
Defined.

(** ** Remote caches: refresh and expiry *)

Section RefreshFacts.
Import Remote Refresh.

Lemma fresh_stored {A} ttl now now2 (data : A) x :
  now2 - now < ttl -> fresh ttl now2 (Some (CacheEntry.mk data now x)) = Some data.
Proof.
  intros H. unfold fresh. simpl.
  destruct (Z.ltb_spec (now2 - now) ttl); [done|lia].
Qed.

Lemma fresh_expired {A} ttl now now2 (data : A) x :
  ttl <= now2 - now -> fresh ttl now2 (Some (CacheEntry.mk data now x)) = None.
Proof.
  intros H. unfold fresh. simpl.
  destruct (Z.ltb_spec (now2 - now) ttl); [lia|done].
Qed.

Lemma weather_served_until :
  served_until (15 * 60 * 1000) (fun now => Some (now + day_ms))
    Db.cache_weather Env.weather_fetch handleGetWeather.
Proof.
  intros d env data now Hold Hfetch o. subst o. unfold handleGetWeather. fold now.
  rewrite Hold, Hfetch. cbn [value fetcher_called db Db.cache_weather Db.with_weather].
  repeat split.
  - intros env2 H2. by rewrite (fresh_stored _ _ _ _ _ H2).
  - intros env2 H2. rewrite (fresh_expired _ _ _ _ _ H2). by repeat case_match.
Qed.

Lemma github_served_until :
  served_until (5 * 60 * 1000) (fun now => Some (now + day_ms))
    Db.cache_github Env.github_fetch handleGetGithubRepos.
Proof.
  intros d env data now Hold Hfetch o. subst o. unfold handleGetGithubRepos. fold now.
  rewrite Hold, Hfetch. cbn [value fetcher_called db Db.cache_github Db.with_github].
  repeat split.
  - intros env2 H2. by rewrite (fresh_stored _ _ _ _ _ H2).
  - intros env2 H2. rewrite (fresh_expired _ _ _ _ _ H2). by repeat case_match.
Qed.

Lemma calendar_served_until :
  served_until CACHE_TTL (fun _ => None)
    Db.cache_calendar Env.calendar_fetch getTodaysEvents.
Proof.
  intros d env data now Hold Hfetch o. subst o. unfold getTodaysEvents. fold now.
  rewrite Hold, Hfetch. cbn [value fetcher_called db Db.cache_calendar Db.with_calendar].
  repeat split.
  - intros env2 H2. by rewrite (fresh_stored _ _ _ _ _ H2).
  - intros env2 H2. rewrite (fresh_expired _ _ _ _ _ H2). by repeat case_match.
Qed.

End RefreshFacts.

(** X19.  When no cached record is younger than the TTL and the fetch
    succeeds, the weather, GitHub and calendar paths return the fetched
    payload unmarked and store it with the clock reading (expiring a day
    later for weather and GitHub, without expiry for the calendar),
    leaving sessions, classifications, snapshots and settings as they
    are; every call less than a TTL later is answered
    with that payload from the cache without a fetch, and a call a TTL
    or more later fetches again. *)
Theorem fetched_payload_served_until_ttl :
  Refresh.served_until (15 * 60 * 1000) (fun now => Some (now + Remote.day_ms))
    Db.cache_weather Env.weather_fetch Remote.handleGetWeather
  ∧ Refresh.served_until (5 * 60 * 1000) (fun now => Some (now + Remote.day_ms))
      Db.cache_github Env.github_fetch Remote.handleGetGithubRepos
  ∧ Refresh.served_until Remote.CACHE_TTL (fun _ => None)
      Db.cache_calendar Env.calendar_fetch Remote.getTodaysEvents.
Proof.
  split; [apply weather_served_until|].
  split; [apply github_served_until|apply calendar_served_until].
Qed.

(** The weather scenario: fetched at 01:01:40, asked again half a
    minute later. *)
Lemma fetched_payload_witness :
  let env := Env.mk Examples.new_year (Res.Ok Examples.sunny) (Res.Err "offline")
                    (Res.Err "offline") (fun _ => Res.Err "offline") Examples.hostname in
  let o := Remote.handleGetWeather Db.empty env in
  Remote.handleGetWeather (Remote.db o) (Examples.quiet_env Examples.new_year_later)
  = Remote.mkOutcome (Res.Ok (Remote.mkReturned Examples.sunny false)) (Remote.db o) false.
Proof.
  intros env o.
  destruct fetched_payload_served_until_ttl as (Hw & _).
  destruct (Hw Db.empty env Examples.sunny) as (_ & _ & _ & _ & Hserved & _).
  - reflexivity.
  - reflexivity.
  - apply Hserved. reflexivity.
Defined.

(** X20.  How long a cached payload backs a failing fetch.  A weather
    record stored by a successful fetch survives every cleanup alarm for
    24 hours: until then a failing fetch is answered with the payload
    marked stale; a cleanup alarm 24 hours or more after the fetch deletes
    the record, and a failing fetch then throws its error.  A calendar
    record carries no expiry: no cleanup alarm deletes it, and a failing
    fetch is answered with the stored events however old they are. *)
Theorem stale_fallback_lifetime (w : World.t) (env1 env2 env3 : Env.t)
    (data : Weather.t) (events : list CalEvent.t) (msg msg' : string) :
  let t1 := Clock.now (Env.clock env1) in
  let t2 := Clock.now (Env.clock env2) in
  let t3 := Clock.now (Env.clock env3) in
  Remote.fresh (15 * 60 * 1000) t1 (Db.cache_weather (World.db w)) = None ->
  Remote.fresh Remote.CACHE_TTL t1 (Db.cache_calendar (World.db w)) = None ->
  Env.weather_fetch env1 = Res.Ok data ->
  Env.calendar_fetch env1 = Res.Ok events ->
  Env.weather_fetch env3 = Res.Err msg ->
  Env.calendar_fetch env3 = Res.Err msg' ->
  15 * 60 * 1000 <= t3 - t1 ->
  let dw := Remote.db (Remote.handleGetWeather (World.db w) env1) in
  let dc := Remote.db (Remote.getTodaysEvents (World.db w) env1) in
  let swept d := World.db (Worker.onAlarm Worker.cleanup (World.with_db d w) env2).1 in
  (t2 < t1 + Remote.day_ms ->
   Remote.value (Remote.handleGetWeather (swept dw) env3)
   = Res.Ok (Remote.mkReturned data true))
  ∧ (t1 + Remote.day_ms <= t2 ->
     Remote.value (Remote.handleGetWeather (swept dw) env3) = Res.Err msg)
  ∧ Db.cache_calendar (swept dc) = Some (CacheEntry.mk events t1 None)
  ∧ Remote.value (Remote.getTodaysEvents (swept dc) env3)
    = Res.Ok (Remote.mkReturned events false).
Proof.
  intros t1 t2 t3 Hw Hc Hwf Hcf Hwfail Hcfail Hlate dw dc swept.
  assert (Hdw : Db.cache_weather (swept dw)
                = Worker.sweep t2 (Some (CacheEntry.mk data t1 (Some (t1 + Remote.day_ms))))).
  { subst swept dw. unfold Remote.handleGetWeather. fold t1. rewrite Hw, Hwf. reflexivity. }
  assert (Hdc : Db.cache_calendar (swept dc) = Some (CacheEntry.mk events t1 None)).
  { subst swept dc. unfold Remote.getTodaysEvents. fold t1. rewrite Hc, Hcf. reflexivity. }
  repeat split.
  - intros Hyoung. unfold Remote.handleGetWeather. fold t3. rewrite Hdw.
    unfold Worker.sweep, Worker.expired. cbn [CacheEntry.expiresAt].
    destruct (Z.leb_spec (t1 + Remote.day_ms) t2); [lia|].
    rewrite fresh_expired by exact Hlate. by rewrite Hwfail.
  - intros Hold. unfold Remote.handleGetWeather. fold t3. rewrite Hdw.
    unfold Worker.sweep, Worker.expired. cbn [CacheEntry.expiresAt].
    destruct (Z.leb_spec (t1 + Remote.day_ms) t2); [|lia].
    cbn [Remote.fresh]. by rewrite Hwfail.
  - exact Hdc.
  - unfold Remote.getTodaysEvents. fold t3. rewrite Hdc.
    unfold Remote.fresh. cbn [CacheEntry.fetchedAt CacheEntry.data].
    destruct (t3 - t1 <? Remote.CACHE_TTL); [done|]. by rewrite Hcfail.
Qed.

Lemma stale_fallback_witness :
  let env1 := Env.mk Examples.new_year (Res.Ok Examples.sunny) (Res.Err "offline")
                     (Res.Ok [Examples.standup]) (fun _ => Res.Err "offline")
                     Examples.hostname in
  let w := World.initial Db.empty in
  let swept d :=
    World.db (Worker.onAlarm Worker.cleanup (World.with_db d w)
                (Examples.quiet_env Examples.eleven)).1 in
  Remote.value (Remote.handleGetWeather
                  (swept (Remote.db (Remote.handleGetWeather (World.db w) env1)))
                  (Examples.quiet_env Examples.late_evening))
  = Res.Ok (Remote.mkReturned Examples.sunny true).
Proof.
  intros env1 w swept.
  apply (stale_fallback_lifetime w env1 (Examples.quiet_env Examples.eleven)
           (Examples.quiet_env Examples.late_evening) Examples.sunny [Examples.standup]
           "offline" "offline"); try reflexivity.
  - vm_compute. discriminate.
Defined.

(** ** Google sign-out and the calendar handler *)

(** X21.  The db object has no member named delete, so calendar.clearCache
    throws a TypeError and the GOOGLE_SIGN_OUT handler always fails with
    it, leaving the database as it was.  GET_CALENDAR_EVENTS answers
    authenticated: false only when the fetch fails with a message that
    contains "Not authenticated" and no calendar record is cached; while
    a record is cached, as it still is after sign-out, a fetch failing
    with googleFetch's "Not authenticated" error is answered with the
    cached events and authenticated: true. *)
Theorem sign_out_keeps_calendar_cache (d : Db.t) (env : Env.t) :
  Google.handleGoogleSignOut d = (Res.Err "db.delete is not a function", d)
  ∧ (∀ e, Db.cache_calendar d = Some e ->
       Env.calendar_fetch env = Res.Err Google.not_signed_in ->
       (Google.handleGetCalendarEvents (Google.handleGoogleSignOut d).2 env).1
       = Res.Ok (Google.mkReply (CacheEntry.data e) true))
  ∧ (Db.cache_calendar d = None ->
     Env.calendar_fetch env = Res.Err Google.not_signed_in ->
     Google.handleGetCalendarEvents d env = (Res.Ok (Google.mkReply [] false), d))
  ∧ (∀ reply, (Google.handleGetCalendarEvents d env).1 = Res.Ok reply ->
       Google.authenticated reply = false ->
       Db.cache_calendar d = None
       ∧ Google.events reply = []
       ∧ ∃ msg, Env.calendar_fetch env = Res.Err msg
                ∧ Tracker.includes msg "Not authenticated" = true).
Proof.
  assert (Hout : Google.handleGoogleSignOut d = (Res.Err "db.delete is not a function", d)).
  { unfold Google.handleGoogleSignOut, Google.clearCache, Google.db_call.
    rewrite bool_decide_eq_false_2; [reflexivity|].
    unfold Google.db_members. rewrite !not_elem_of_cons.
    repeat split; try discriminate. apply not_elem_of_nil. }
  split; [exact Hout|]. rewrite Hout. cbn [snd].
  unfold Google.handleGetCalendarEvents, Remote.getTodaysEvents. repeat split.
  - intros e He Hfail. rewrite He, Hfail. unfold Remote.fresh.
    destruct (_ <? _); reflexivity.
  - intros Hnone Hfail. rewrite Hnone, Hfail. reflexivity.
  - destruct (Db.cache_calendar d) as [e|] eqn:He; [|done].
    exfalso. revert H H0. unfold Remote.fresh.
    destruct (_ <? _); [simpl; by intros [= <-]|].
    destruct (Env.calendar_fetch env); simpl; by intros [= <-].
  - revert H H0. destruct (Db.cache_calendar d) as [e|] eqn:He.
    + unfold Remote.fresh. destruct (_ <? _); [simpl; by intros [= <-]|].
      destruct (Env.calendar_fetch env); simpl; by intros [= <-].
    + simpl. destruct (Env.calendar_fetch env) as [evs|msg]; simpl; [by intros [= <-]|].
      destruct (Tracker.includes msg "Not authenticated"); [|done].
      by intros [= <-].
  - revert H H0. destruct (Db.cache_calendar d) as [e|] eqn:He.
    + unfold Remote.fresh. destruct (_ <? _); [simpl; by intros [= <-]|].
      destruct (Env.calendar_fetch env); simpl; by intros [= <-].
    + simpl. destruct (Env.calendar_fetch env) as [evs|msg]; simpl; [by intros [= <-]|].
      destruct (Tracker.includes msg "Not authenticated") eqn:Hinc; [|done].
      intros _ _. by exists msg.
Qed.

(** ** Switches *)

Section SwitchFacts.
Import Scheduler Tracker Switch.

#[local] Arguments Db.config_get : simpl never.
#[local] Arguments summaryKey : simpl never.
#[local] Arguments workStartKey : simpl never.
#[local] Arguments checkIfProductive : simpl never.

Lemma config_off k w : off k w -> Db.config_get (World.db w) k = Js.VBool false.
Proof. intros H. unfold Db.config_get, Config.getSetting. by rewrite H. Qed.

Lemma summaryKey_not_flag day n k : flag n = Some k -> summaryKey day ≠ k.
Proof. unfold summaryKey. destruct n; intros [= <-]; simpl; intros [=]. Qed.

Lemma workStartKey_not_flag day n k : flag n = Some k -> workStartKey day ≠ k.
Proof. unfold workStartKey. destruct n; intros [= <-]; simpl; intros [=]. Qed.

Lemma obeys_nil k (w w' : World.t) :
  off k w' -> off k w' ∧ ∀ n, n ∈ (w', @nil Notif.t).2 -> flag n ≠ Some k.
Proof. intros H. split; [exact H|]. intros n Hn. by apply elem_of_nil in Hn. Qed.

Lemma obeys_one k w' m :
  off k w' -> flag m ≠ Some k ->
  off k w' ∧ ∀ n, n ∈ (w', [m]).2 -> flag n ≠ Some k.
Proof.
  intros H Hm. split; [exact H|]. intros n Hn.
  apply list_elem_of_singleton in Hn. by subst n.
Qed.

Lemma checkMorningBriefing_obeys k : obeys k checkMorningBriefing.
Proof.
  intros w env Hoff. unfold checkMorningBriefing.
  cbn [World.dailyState World.reset World.with_dailyState World.db].
  destruct (DailyState.morningBriefingSent _); [by apply (obeys_nil k w)|].
  destruct (decide (k = "enableMorningBriefing")) as [->|Hne].
  { rewrite (config_off _ _ Hoff). by apply (obeys_nil "enableMorningBriefing" w). }
  destruct (Js.is_false _); [by apply (obeys_nil k w)|].
  destruct (_ && _); [|by apply (obeys_nil k w)].
  pose proof (safeTodaysEvents_settings (World.db w) env) as Hs.
  destruct (Remote.safeTodaysEvents _ _) as [evs db'] eqn:Hsafe.
  apply (obeys_one k); [|simpl; congruence].
  unfold off. simpl in *. by rewrite Hs.
Qed.

Lemma checkReadyToStart_obeys k : obeys k checkReadyToStart.
Proof.
  intros w env Hoff. unfold checkReadyToStart.
  cbn [World.dailyState World.reset World.with_dailyState World.db].
  destruct (_ || _); [by apply (obeys_nil k w)|].
  destruct (decide (k = "enableStartNudges")) as [->|Hne].
  { rewrite (config_off _ _ Hoff). by apply (obeys_nil "enableStartNudges" w). }
  destruct (Js.is_false _); [by apply (obeys_nil k w)|].
  destruct (_ && _); [|by apply (obeys_nil k w)].
  match goal with |- context [if ?b then _ else _] => destruct b end;
    [|by apply (obeys_nil k w)].
  pose proof (safeTodaysEvents_settings (World.db w) env) as Hs.
  destruct (Remote.safeTodaysEvents _ _) as [evs db'] eqn:Hsafe.
  apply (obeys_one k); [|simpl; congruence].
  unfold off. simpl in *. by rewrite Hs.
Qed.

Lemma checkEndOfDay_obeys k n0 : flag n0 = Some k -> obeys k checkEndOfDay.
Proof.
  intros Hk w env Hoff. unfold checkEndOfDay.
  destruct (decide (k = "enableEndOfDaySummary")) as [->|Hne].
  { rewrite (config_off _ _ Hoff). by apply (obeys_nil "enableEndOfDaySummary" w). }
  destruct (Js.is_false _); [by apply (obeys_nil k w)|].
  destruct (Db.settings (World.db w) !! summaryKey _); [by apply (obeys_nil k w)|].
  destruct (_ && _); [|by apply (obeys_nil k w)].
  assert (Hoff' : ∀ w', Db.settings (World.db w')
                        = <[summaryKey (Clock.today (Env.clock env)) := Js.VBool true]>
                            (Db.settings (World.db w)) -> off k w').
  { intros w' Hw'. unfold off. rewrite Hw', lookup_insert_ne; [exact Hoff|].
    by apply (summaryKey_not_flag _ n0). }
  cbn [Db.daily_stats Db.with_settings].
  destruct (Db.daily_stats (World.db w) !! _) as [stats|].
  - destruct (0 <? _).
    + apply (obeys_one k); [by apply Hoff'|simpl; congruence].
    + apply (obeys_nil k w). by apply Hoff'.
  - apply (obeys_nil k w). by apply Hoff'.
Qed.

Lemma checkProgressMilestones_obeys k : obeys k checkProgressMilestones.
Proof.
  intros w env Hoff. unfold checkProgressMilestones.
  cbn [World.dailyState World.reset World.with_dailyState World.db].
  destruct (Db.daily_stats (World.db w) !! _) as [stats|]; [|by apply (obeys_nil k w)].
  repeat match goal with |- context [if ?b then _ else _] => destruct b end;
    (split; [exact Hoff|]); simpl; intros n Hn;
    repeat (apply elem_of_cons in Hn as [->|Hn]; [done|]);
    by apply elem_of_nil in Hn.
Qed.

Lemma checkDistractionAlert_obeys k : obeys k checkDistractionAlert.
Proof.
  intros w env Hoff. unfold checkDistractionAlert.
  cbn [World.dailyState World.reset World.with_dailyState World.db].
  destruct (decide (k = "enableDistractionAlerts")) as [->|Hne].
  { rewrite (config_off _ _ Hoff). by apply (obeys_nil "enableDistractionAlerts" w). }
  destruct (Js.is_false _); [by apply (obeys_nil k w)|].
  destruct (_ <? _); [by apply (obeys_nil k w)|].
  destruct (Db.daily_stats (World.db w) !! _) as [stats|]; [|by apply (obeys_nil k w)].
  destruct (_ <=? _); [|by apply (obeys_nil k w)].
  apply (obeys_one k); [exact Hoff|simpl; congruence].
Qed.

Lemma checkMeetingAwareness_obeys k : obeys k checkMeetingAwareness.
Proof.
  intros w env Hoff.
  destruct (decide (k = "enableMeetingAwareness")) as [->|Hne].
  { unfold checkMeetingAwareness. rewrite (config_off _ _ Hoff).
    by apply (obeys_nil "enableMeetingAwareness" w). }
  destruct (checkMeetingAwareness_quiet w env) as (_ & Hs & Hm).
  split; [unfold off; by rewrite Hs|].
  intros n Hn. destruct (Hm n Hn) as [id ->]. simpl. congruence.
Qed.

Lemma celebrate_obeys k n0 dom :
  flag n0 = Some k -> obeys k (celebrateFirstProductiveAction dom).
Proof.
  intros Hk w env Hoff. unfold celebrateFirstProductiveAction.
  cbn [World.dailyState World.reset World.with_dailyState World.db].
  destruct (DailyState.firstProductiveCelebrated _); [by apply (obeys_nil k w)|].
  destruct (negb _); [by apply (obeys_nil k w)|].
  apply (obeys_one k); [|done].
  unfold off. simpl. rewrite lookup_insert_ne; [exact Hoff|].
  by apply (workStartKey_not_flag _ n0).
Qed.

Lemma handleTabChange_obeys k n0 tab : flag n0 = Some k -> obeys k (handleTabChange tab).
Proof.
  intros Hk w env Hoff. unfold handleTabChange.
  assert (Hend : off k (endPreviousSession w (Clock.now (Env.clock env)))).
  { unfold endPreviousSession. destruct (World.activeTabState w); [|done].
    by destruct (_ <? _). }
  destruct (shouldExclude _); [by apply (obeys_nil k w)|].
  by apply (celebrate_obeys k n0).
Qed.

Lemma silent_obeys k (a : action) :
  (∀ w env, (a w env).2 = [] ∧ Db.settings (World.db (a w env).1) = Db.settings (World.db w)) ->
  obeys k a.
Proof.
  intros Ha w env Hoff. destruct (Ha w env) as [Hnil Hs].
  split; [unfold off; by rewrite Hs|].
  intros n Hn. rewrite Hnil in Hn. by apply elem_of_nil in Hn.
Qed.

Lemma and_then_obeys k a b : obeys k a -> obeys k b -> obeys k (a >+> b).
Proof.
  intros Ha Hb w env Hoff. unfold and_then.
  specialize (Ha w env Hoff). destruct (a w env) as [w1 l1]. destruct Ha as [Hoff1 Hl1].
  specialize (Hb w1 env Hoff1). destruct (b w1 env) as [w2 l2]. destruct Hb as [Hoff2 Hl2].
  split; [exact Hoff2|]. intros n Hn. apply elem_of_app in Hn as [Hn|Hn]; auto.
Qed.

Lemma onAlarm_obeys k n0 a : flag n0 = Some k -> obeys k (Worker.onAlarm a).
Proof.
  intros Hk. destruct a; simpl.
  - repeat apply and_then_obeys.
    + apply silent_obeys. intros w env. split.
      * unfold persistActiveSession. by repeat case_match.
      * by destruct (persistActiveSession_quiet w env) as (_ & ? & _).
    + apply silent_obeys. by intros w env.
    + apply checkProgressMilestones_obeys.
    + apply checkDistractionAlert_obeys.
    + apply checkMeetingAwareness_obeys.
  - apply silent_obeys. by intros w env.
  - apply silent_obeys. by intros w env.
  - apply silent_obeys. intros w env. split; [done|].
    apply batchClassifyDomains_settings.
  - apply checkMorningBriefing_obeys.
  - apply checkReadyToStart_obeys.
  - by apply (checkEndOfDay_obeys k n0).
Qed.

Lemma step_obeys k n0 w e :
  flag n0 = Some k -> off k w ->
  off k (Worker.step w e).1 ∧ ∀ x, x ∈ (Worker.step w e).2 -> flag x.1 ≠ Some k.
Proof.
  intros Hk Hoff. unfold Worker.step. destruct e as [a env|tab env|env].
  - destruct (onAlarm_obeys k n0 a Hk w env Hoff) as [H1 H2].
    destruct (Worker.onAlarm a w env) as [w' l]. split; [exact H1|].
    intros x Hx. apply list_elem_of_fmap in Hx as (m & -> & Hm). by apply H2.
  - destruct (handleTabChange_obeys k n0 tab Hk w env Hoff) as [H1 H2].
    destruct (handleTabChange tab w env) as [w' l]. split; [exact H1|].
    intros x Hx. apply list_elem_of_fmap in Hx as (m & -> & Hm). by apply H2.
  - pose proof (start_settings w env k) as Hs. unfold off in *. rewrite Hoff in Hs.
    destruct (start_ledger w env) as (_ & _ & _ & Hl).
    destruct (Worker.start w env) as [w' l]. cbn [fst snd] in *. subst l.
    split; [exact Hs|]. intros x Hx. by apply elem_of_nil in Hx.
Qed.

Lemma run_obeys k n0 es : ∀ w,
  flag n0 = Some k -> off k w ->
  off k (Worker.run w es).1 ∧ ∀ x, x ∈ (Worker.run w es).2 -> flag x.1 ≠ Some k.
Proof.
  induction es as [|e es IH]; intros w Hk Hoff.
  - split; [exact Hoff|]. intros x Hx. by apply elem_of_nil in Hx.
  - cbn [Worker.run]. destruct (step_obeys k n0 w e Hk Hoff) as [H1 H2].
    destruct (Worker.step w e) as [w1 l1].
    destruct (IH w1 Hk H1) as [H3 H4]. destruct (Worker.run w1 es) as [w2 l2].
    split; [exact H3|]. intros x Hx. apply elem_of_app in Hx as [Hx|Hx]; auto.
Qed.

End SwitchFacts.

(** X22.  A notification whose switch is stored as false is never
    created: over any sequence of alarms, tab changes and starts of the
    worker the morning briefing, the ready nudge, the end-of-day summary,
    the distraction alert and the meeting warnings stay silent while
    their enable setting is false, and none of these events alters that
    setting.  The first-productive celebration and the two milestones
    have no switch. *)
Theorem switched_off_stays_silent (w : World.t) (es : list Worker.event)
    (n : Notif.t) (k : string) :
  Switch.flag n = Some k ->
  Switch.off k w ->
  Worker.fired_count n (Worker.run w es).2 = 0%nat
  ∧ Switch.off k (Worker.run w es).1
  ∧ (∀ m, Switch.flag m = None ->
       m = Notif.first_productive ∨ m = Notif.milestone_1hr ∨ m = Notif.milestone_goal).
Proof.
  intros Hk Hoff. destruct (run_obeys k n es w Hk Hoff) as [H1 H2].
  split; [|split; [exact H1|]].
  - unfold Worker.fired_count.
    assert (Hnone : filter (fun x : Notif.t * Z => x.1 = n) (Worker.run w es).2 = []).
    { apply filter_none. intros x Hx Hn. apply (H2 x Hx). by rewrite Hn. }
    by rewrite Hnone.
  - intros m Hm. destruct m; try discriminate; tauto.
Qed.

Lemma switched_off_witness :
  let w := World.initial (Db.with_settings {["enableDistractionAlerts" := Js.VBool false]}
                            Examples.binge) in
  Worker.fired_count Notif.distraction_alert (Worker.run w Examples.across_midnight).2 = 0%nat.
Proof.
  intros w.
  apply (switched_off_stays_silent w Examples.across_midnight Notif.distraction_alert
           "enableDistractionAlerts").
  - reflexivity.
  - reflexivity.
Defined.

(** ** What a heartbeat decides *)

Section HeartbeatFacts.
Import Scheduler Measure.

#[local] Arguments Db.config_get : simpl never.

Lemma and_then_eq (a b : action) w env :
  (a >+> b) w env = ((b (a w env).1 env).1, (a w env).2 ++ (b (a w env).1 env).2).
Proof.
  unfold and_then. destruct (a w env) as [w1 l1]. cbn [fst snd].
  by destruct (b w1 env).
Qed.

(** The state a heartbeat's checks start from. *)
Lemma heartbeat_eq w env :
  let w1 := (Tracker.persistActiveSession w env).1 in
  let w2 := World.with_db (Aggregator.aggregateDailyStats (World.db w1) (Env.clock env)) w1 in
  let rm := checkProgressMilestones w2 env in
  let rd := checkDistractionAlert rm.1 env in
  let rc := checkMeetingAwareness rd.1 env in
  Worker.onAlarm Worker.heartbeat w env = (rc.1, rm.2 ++ rd.2 ++ rc.2)
  ∧ World.dailyState w2 = World.dailyState w
  ∧ Db.settings (World.db w2) = Db.settings (World.db w)
  ∧ Db.daily_stats (World.db w2) !! Clock.today (Env.clock env)
    = Some (Aggregator.snapshot (World.db w1) (Env.clock env)).
Proof.
  intros w1 w2 rm rd rc.
  destruct (persistActiveSession_quiet w env) as (Hds & Hset & _).
  assert (Hnil : (Tracker.persistActiveSession w env).2 = []).
  { unfold Tracker.persistActiveSession. by repeat case_match. }
  split; [|split; [exact Hds|split; [exact Hset|apply aggregate_writes]]].
  simpl Worker.onAlarm. rewrite !and_then_eq. cbn [fst snd].
  unfold Worker.aggregateDailyStats. cbn [fst snd].
  rewrite Hnil. cbn [app]. fold w1. fold w2. fold rm. fold rd. fold rc.
  by rewrite <- app_assoc.
Qed.

Lemma checkProgressMilestones_spec w env s :
  let c := Env.clock env in
  let d := Clock.today c in
  let p := Stats.productiveTime s in
  let goalMs := Js.num_or (Db.config_get (World.db w) "dailyFocusGoalMinutes") 240 * 60 * 1000 in
  let r := checkProgressMilestones w env in
  Db.daily_stats (World.db w) !! d = Some s ->
  occurrences Notif.milestone_1hr r.2
  = (if 3600000 <=? p then armed d w Notif.milestone_1hr else 0%nat)
  ∧ occurrences Notif.milestone_goal r.2
    = (if goalMs <=? p then armed d w Notif.milestone_goal else 0%nat)
  ∧ (3600000 <= p -> armed d r.1 Notif.milestone_1hr = 0%nat)
  ∧ (goalMs <= p -> armed d r.1 Notif.milestone_goal = 0%nat).
Proof.
  intros c d p goalMs r Hs. subst r d c. unfold checkProgressMilestones.
  set (c := Env.clock env) in *. set (d := Clock.today c) in *.
  pose proof (reset_armed d w c Notif.milestone_1hr eq_refl) as H1.
  pose proof (reset_armed d w c Notif.milestone_goal eq_refl) as H2.
  pose proof (reset_date w c) as Hdate. fold d in Hdate. rewrite <- H1, <- H2.
  assert (Hdb : World.db (World.reset w c) = World.db w) by reflexivity.
  rewrite Hdb, Hs. fold p. fold goalMs.
  clear H1 H2 Hdb. generalize dependent (World.reset w c).
  intros [db1 [date1 f1 f2 f3 la f4 f5] N1 act1]. simpl. intros ->.
  assert (Hbd : bool_decide (Some d = Some d) = true) by (by apply bool_decide_eq_true_2).
  unfold armed, occurrences. simpl. rewrite !Hbd.
  destruct (Z.leb_spec 3600000 p), (Z.leb_spec goalMs p), f4, f5;
    simpl; rewrite ?Hbd; simpl; repeat split; try done; lia.
Qed.

Lemma checkDistractionAlert_only w env n :
  n ∈ (checkDistractionAlert w env).2 -> n = Notif.distraction_alert.
Proof.
  unfold checkDistractionAlert. repeat case_match; simpl; intros Hn;
    try (by apply elem_of_nil in Hn).
  by apply list_elem_of_singleton in Hn.
Qed.

Lemma checkProgressMilestones_only w env n :
  n ∈ (checkProgressMilestones w env).2 -> n = Notif.milestone_1hr ∨ n = Notif.milestone_goal.
Proof.
  unfold checkProgressMilestones. repeat case_match; simplify_eq; simpl; intros Hn;
    repeat (apply elem_of_cons in Hn as [->|Hn]; [tauto|]);
    by apply elem_of_nil in Hn.
Qed.

Lemma armed_not_rearmed d (a : action) w env n :
  within_budget d a -> Clock.today (Env.clock env) = d -> Notif.daily_once n = true ->
  armed d w n = 0%nat -> armed d (a w env).1 n = 0%nat.
Proof. intros Ha Hd Hn H0. specialize (Ha w env n Hd Hn). lia. Qed.

End HeartbeatFacts.

(** X23.  A heartbeat decides on the milestones with the snapshot it has
    just stored, which counts the time it has just flushed: the one-hour
    milestone is created exactly when that snapshot's productive time is
    at least one hour and the milestone has not been celebrated that day,
    the goal milestone exactly when it is at least dailyFocusGoalMinutes
    (240 when unset) and not yet celebrated; and once the productive time
    is that high the milestone is marked as celebrated, whether it fired
    now or before. *)
Theorem heartbeat_fires_milestones (w : World.t) (env : Env.t) :
  let c := Env.clock env in
  let today := Clock.today c in
  let s := Aggregator.snapshot (World.db (Tracker.persistActiveSession w env).1) c in
  let p := Stats.productiveTime s in
  let goalMs := Js.num_or (Db.config_get (World.db w) "dailyFocusGoalMinutes") 240 * 60 * 1000 in
  let r := Worker.onAlarm Worker.heartbeat w env in
  Db.daily_stats (World.db r.1) !! today = Some s
  ∧ Measure.occurrences Notif.milestone_1hr r.2
    = (if 3600000 <=? p then Measure.armed today w Notif.milestone_1hr else 0%nat)
  ∧ Measure.occurrences Notif.milestone_goal r.2
    = (if goalMs <=? p then Measure.armed today w Notif.milestone_goal else 0%nat)
  ∧ (3600000 <= p -> Measure.armed today r.1 Notif.milestone_1hr = 0%nat)
  ∧ (goalMs <= p -> Measure.armed today r.1 Notif.milestone_goal = 0%nat).
Proof.
  intros c today s p goalMs r.
  destruct (heartbeat_eq w env) as (Heq & Hds & Hset & Hstats).
  set (w1 := (Tracker.persistActiveSession w env).1) in *.
  set (w2 := World.with_db (Aggregator.aggregateDailyStats (World.db w1) (Env.clock env)) w1) in *.
  set (rm := Scheduler.checkProgressMilestones w2 env) in *.
  set (rd := Scheduler.checkDistractionAlert rm.1 env) in *.
  set (rc := Scheduler.checkMeetingAwareness rd.1 env) in *.
  fold c in Hstats. fold today in Hstats. fold s in Hstats.
  destruct (checkProgressMilestones_spec w2 env s Hstats) as (H1 & H2 & H3 & H4).
  fold rm in H1, H2, H3, H4. fold c in H1, H2, H3, H4. fold today in H1, H2, H3, H4.
  fold p in H1, H2, H3, H4.
  assert (Hgoal : Js.num_or (Db.config_get (World.db w2) "dailyFocusGoalMinutes") 240 * 60 * 1000
                  = goalMs).
  { subst goalMs. unfold Db.config_get. by rewrite Hset. }
  rewrite Hgoal in H2, H4.
  rewrite (armed_ext today w w2 _ Hds Hset) in H1.
  rewrite (armed_ext today w w2 _ Hds Hset) in H2.
  assert (Hzero : ∀ n, (n = Notif.milestone_1hr ∨ n = Notif.milestone_goal) ->
            Measure.occurrences n rd.2 = 0%nat ∧ Measure.occurrences n rc.2 = 0%nat).
  { intros n Hn. split.
    - apply occurrences_absent. intros m Hm ->.
      apply checkDistractionAlert_only in Hm. destruct Hn; congruence.
    - apply (quiet_occurrences _ rd.1 env n checkMeetingAwareness_quiet).
      intros id. destruct Hn; congruence. }
  assert (Hlatch : ∀ n, Notif.daily_once n = true ->
            Measure.armed today rm.1 n = 0%nat -> Measure.armed today rc.1 n = 0%nat).
  { intros n Hn H0.
    apply (armed_not_rearmed today _ rd.1 env n
             (quiet_budget today _ checkMeetingAwareness_quiet) eq_refl Hn).
    apply (armed_not_rearmed today _ rm.1 env n
             (checkDistractionAlert_budget today) eq_refl Hn H0). }
  subst r. rewrite Heq. cbn [fst snd].
  split.
  { destruct (checkMeetingAwareness_kept rd.1 env) as (_ & _ & Hst3 & _).
    destruct (checkDistractionAlert_kept rm.1 env) as (_ & _ & Hst2 & _).
    destruct (checkProgressMilestones_kept w2 env) as (_ & _ & Hst1 & _).
    fold rc in Hst3. fold rd in Hst2. fold rm in Hst1.
    by rewrite Hst3, Hst2, Hst1. }
  rewrite !occurrences_app.
  destruct (Hzero Notif.milestone_1hr (or_introl eq_refl)) as [-> ->].
  destruct (Hzero Notif.milestone_goal (or_intror eq_refl)) as [-> ->].
  rewrite !Nat.add_0_r. repeat split; try done.
  - intros Hp. apply Hlatch; [done|]. by apply H3.
  - intros Hp. apply Hlatch; [done|]. by apply H4.
Qed.

Section AlertFacts.
Import Scheduler Measure.

#[local] Arguments Db.config_get : simpl never.

Lemma checkDistractionAlert_spec w env s :
  let c := Env.clock env in
  let d := Clock.today c in
  let thresholdMs :=
    Js.num_or (Db.config_get (World.db w) "distractionAlertMinutes") 60 * 60 * 1000 in
  let r := checkDistractionAlert w env in
  Db.daily_stats (World.db w) !! d = Some s ->
  occurrences Notif.distraction_alert r.2
  = (if Js.is_false (Db.config_get (World.db w) "enableDistractionAlerts") then 0%nat
     else if Clock.now c - last_alert d w <? cooldown then 0%nat
     else if thresholdMs <=? Stats.distractionTime s then 1%nat else 0%nat)
  ∧ last_alert d r.1
    = (if (occurrences Notif.distraction_alert r.2 =? 1)%nat then Clock.now c
       else last_alert d w).
Proof.
  intros c d thresholdMs r Hs. subst r d c. unfold checkDistractionAlert.
  set (c := Env.clock env) in *. set (d := Clock.today c) in *.
  pose proof (reset_last_alert d w c eq_refl) as H1.
  pose proof (reset_date w c) as Hdate. fold d in Hdate. rewrite <- H1.
  assert (Hdb : World.db (World.reset w c) = World.db w) by reflexivity.
  rewrite Hdb, Hs. fold thresholdMs.
  clear H1 Hdb. generalize dependent (World.reset w c).
  intros [db1 [date1 f1 f2 f3 la f4 f5] N1 act1]. simpl. intros ->.
  assert (Hbd : bool_decide (Some d = Some d) = true) by (by apply bool_decide_eq_true_2).
  unfold last_alert, occurrences. simpl. rewrite !Hbd.
  destruct (Js.is_false _); simpl; [by rewrite Hbd|].
  destruct (_ <? cooldown); simpl; [by rewrite Hbd|].
  destruct (_ <=? _); simpl; by rewrite Hbd.
Qed.

Lemma checkProgressMilestones_last_alert w env :
  last_alert (Clock.today (Env.clock env)) (checkProgressMilestones w env).1
  = last_alert (Clock.today (Env.clock env)) w.
Proof.
  destruct (checkProgressMilestones_alert _ w env eq_refl) as [[_ H]|[H _]]; [exact H|].
  rewrite occurrences_absent in H; [discriminate|].
  intros m Hm ->. apply checkProgressMilestones_only in Hm. destruct Hm; discriminate.
Qed.

End AlertFacts.

(** X24.  A heartbeat decides on the distraction alert with the snapshot
    it has just stored: the alert is created exactly when the switch is
    not false, the clock reading is at least 30 minutes past the day's
    last alert (read as 0 when there was none that day) and the snapshot's
    distraction time has
    reached distractionAlertMinutes (60 when unset); the time of the alert
    is then recorded as the day's last alert, and otherwise the record of
    the last alert is left alone. *)
Theorem heartbeat_fires_distraction_alert (w : World.t) (env : Env.t) :
  let c := Env.clock env in
  let today := Clock.today c in
  let s := Aggregator.snapshot (World.db (Tracker.persistActiveSession w env).1) c in
  let thresholdMs :=
    Js.num_or (Db.config_get (World.db w) "distractionAlertMinutes") 60 * 60 * 1000 in
  let r := Worker.onAlarm Worker.heartbeat w env in
  let fired := Measure.occurrences Notif.distraction_alert r.2 in
  fired
  = (if Js.is_false (Db.config_get (World.db w) "enableDistractionAlerts") then 0%nat
     else if Clock.now c - Measure.last_alert today w <? Scheduler.cooldown then 0%nat
     else if thresholdMs <=? Stats.distractionTime s then 1%nat else 0%nat)
  ∧ Measure.last_alert today r.1
    = (if (fired =? 1)%nat then Clock.now c else Measure.last_alert today w).
Proof.
  intros c today s thresholdMs r fired.
  destruct (heartbeat_eq w env) as (Heq & Hds & Hset & Hstats).
  set (w1 := (Tracker.persistActiveSession w env).1) in *.
  set (w2 := World.with_db (Aggregator.aggregateDailyStats (World.db w1) (Env.clock env)) w1) in *.
  set (rm := Scheduler.checkProgressMilestones w2 env) in *.
  set (rd := Scheduler.checkDistractionAlert rm.1 env) in *.
  set (rc := Scheduler.checkMeetingAwareness rd.1 env) in *.
  fold c in Hstats. fold today in Hstats. fold s in Hstats.
  destruct (checkProgressMilestones_kept w2 env) as (_ & _ & Hst1 & Hset1). fold rm in Hst1, Hset1.
  assert (Hstats' : Db.daily_stats (World.db rm.1) !! today = Some s) by (by rewrite Hst1).
  destruct (checkDistractionAlert_spec rm.1 env s Hstats') as [H1 H2].
  fold rd in H1, H2. fold c in H1, H2. fold today in H1, H2.
  assert (Hcfg : ∀ key, Db.config_get (World.db rm.1) key = Db.config_get (World.db w) key).
  { intros key. unfold Db.config_get. by rewrite Hset1, Hset. }
  rewrite !Hcfg in H1. fold thresholdMs in H1.
  assert (Hla : Measure.last_alert today rm.1 = Measure.last_alert today w).
  { subst rm today c. rewrite checkProgressMilestones_last_alert.
    by apply last_alert_ext. }
  rewrite Hla in H1, H2.
  assert (Hfired : fired = Measure.occurrences Notif.distraction_alert rd.2).
  { subst fired r. rewrite Heq. cbn [snd]. rewrite !occurrences_app.
    rewrite (occurrences_absent _ rm.2), (quiet_occurrences _ rd.1 env _ checkMeetingAwareness_quiet).
    - lia.
    - intros id. discriminate.
    - intros m Hm ->. apply checkProgressMilestones_only in Hm. destruct Hm; discriminate. }
  rewrite Hfired. split; [exact H1|].
  subst r. rewrite Heq. cbn [fst].
  destruct (checkMeetingAwareness_quiet rd.1 env) as (Hds3 & _ & _). fold rc in Hds3.
  rewrite (last_alert_ext today rd.1 rc.1 Hds3). exact H2.
Qed.

(** ** The end-of-day marker *)

Section MarkerFacts.
Import Scheduler Measure.

#[local] Arguments Db.config_get : simpl never.
#[local] Arguments summaryKey : simpl never.


End MarkerFacts.



(** ** Which event creates which notification *)

Section OriginFacts.
Import Scheduler Tracker Origin.

#[local] Arguments Db.config_get : simpl never.
#[local] Arguments summaryKey : simpl never.
#[local] Arguments workStartKey : simpl never.
#[local] Arguments checkIfProductive : simpl never.

Lemma checkMorningBriefing_only w env n :
  n ∈ (checkMorningBriefing w env).2 -> n = Notif.morning_briefing.
Proof.
  unfold checkMorningBriefing. repeat case_match; simpl; intros Hn;
    try (by apply elem_of_nil in Hn).
  by apply list_elem_of_singleton in Hn.
Qed.

Lemma checkReadyToStart_only w env n :
  n ∈ (checkReadyToStart w env).2 -> n = Notif.ready_nudge.
Proof.
  unfold checkReadyToStart. repeat case_match; simpl; intros Hn;
    try (by apply elem_of_nil in Hn).
  all: by apply list_elem_of_singleton in Hn.
Qed.

Lemma checkEndOfDay_only w env n :
  n ∈ (checkEndOfDay w env).2 -> n = Notif.end_of_day.
Proof.
  unfold checkEndOfDay.
  destruct (Js.is_false _); [intros Hn; by apply elem_of_nil in Hn|].
  destruct (Db.settings (World.db w) !! _); [intros Hn; by apply elem_of_nil in Hn|].
  destruct (_ && _); [|intros Hn; by apply elem_of_nil in Hn].
  cbn [Db.daily_stats Db.with_settings].
  destruct (Db.daily_stats (World.db w) !! _) as [stats|];
    [|intros Hn; by apply elem_of_nil in Hn].
  destruct (0 <? _); intros Hn; [|by apply elem_of_nil in Hn].
  by apply list_elem_of_singleton in Hn.
Qed.

Lemma handleTabChange_only tab w env n :
  n ∈ (handleTabChange tab w env).2 -> n = Notif.first_productive.
Proof.
  unfold handleTabChange.
  destruct (shouldExclude _); [intros Hn; by apply elem_of_nil in Hn|].
  unfold celebrateFirstProductiveAction.
  destruct (DailyState.firstProductiveCelebrated _); [intros Hn; by apply elem_of_nil in Hn|].
  destruct (negb _); intros Hn; [by apply elem_of_nil in Hn|].
  by apply list_elem_of_singleton in Hn.
Qed.

Lemma onAlarm_only a w env n :
  n ∈ (Worker.onAlarm a w env).2 -> rule n = FromAlarm a.
Proof.
  destruct a; simpl Worker.onAlarm.
  - destruct (heartbeat_eq w env) as (Heq & _). simpl Worker.onAlarm in Heq.
    rewrite Heq. cbn [snd]. rewrite !elem_of_app. intros [Hn|[Hn|Hn]].
    + apply checkProgressMilestones_only in Hn as [->| ->]; reflexivity.
    + apply checkDistractionAlert_only in Hn as ->. reflexivity.
    + match type of Hn with
      | _ ∈ (checkMeetingAwareness ?w' _).2 =>
          destruct (checkMeetingAwareness_quiet w' env) as (_ & _ & Hm)
      end.
      destruct (Hm n Hn) as [id ->]. reflexivity.
  - intros Hn. by apply elem_of_nil in Hn.
  - intros Hn. by apply elem_of_nil in Hn.
  - intros Hn. by apply elem_of_nil in Hn.
  - intros Hn. by apply checkMorningBriefing_only in Hn as ->.
  - intros Hn. by apply checkReadyToStart_only in Hn as ->.
  - intros Hn. by apply checkEndOfDay_only in Hn as ->.
Qed.

Lemma step_origin w e x : x ∈ (Worker.step w e).2 -> created_by x e.
Proof.
  unfold Worker.step, created_by. destruct e as [a env|tab env|env];
    [| |intros Hx; by apply elem_of_nil in Hx].
  - pose proof (onAlarm_only a w env) as Ha.
    destruct (Worker.onAlarm a w env) as [w' l]. cbn [fst snd] in *.
    intros Hx. apply list_elem_of_fmap in Hx as (n & -> & Hn). split; [by apply Ha|done].
  - pose proof (handleTabChange_only tab w env) as Ha.
    destruct (handleTabChange tab w env) as [w' l]. cbn [fst snd] in *.
    intros Hx. apply list_elem_of_fmap in Hx as (n & -> & Hn).
    split; [by rewrite (Ha n Hn)|done].
Qed.

Lemma run_origin es : ∀ w x,
  x ∈ (Worker.run w es).2 -> ∃ e, e ∈ es ∧ created_by x e.
Proof.
  induction es as [|e es IH]; intros w x; [intros Hx; by apply elem_of_nil in Hx|].
  cbn [Worker.run]. pose proof (step_origin w e x) as Hstep.
  destruct (Worker.step w e) as [w1 l1]. specialize (IH w1 x).
  destruct (Worker.run w1 es) as [w2 l2]. cbn [fst snd] in *.
  intros Hx. apply elem_of_app in Hx as [Hx|Hx].
  - exists e. split; [apply list_elem_of_here|by apply Hstep].
  - destruct (IH Hx) as (e' & He' & Hc). exists e'.
    split; [by apply list_elem_of_further|exact Hc].
Qed.

End OriginFacts.

(** X26.  Every notification comes from the event that runs its rule,
    with that event's clock reading: the morning briefing, the ready
    nudge and the end-of-day summary from their own alarms, the
    milestones, the distraction alert and the meeting warnings from a
    heartbeat, the first-productive celebration from a tab change.  The
    cleanup, export and classify alarms and a start of the worker create
    none. *)
Theorem notifications_come_from_their_rule (w : World.t) (es : list Worker.event) :
  Forall (fun x => ∃ e, e ∈ es ∧ Origin.created_by x e) (Worker.run w es).2
  ∧ ∀ a env, (a = Worker.cleanup ∨ a = Worker.export ∨ a = Worker.classify) ->
       (Worker.step w (Worker.Alarm a env)).2 = [].
Proof.
  split.
  - apply Forall_forall. intros x Hx. by apply (run_origin es w).
  - intros a env Ha.
    destruct (Worker.step w (Worker.Alarm a env)).2 as [|x l] eqn:Hl; [done|].
    exfalso. assert (Hx : x ∈ (Worker.step w (Worker.Alarm a env)).2).
    { rewrite Hl. apply list_elem_of_here. }
    apply step_origin in Hx as [Ho _]. simpl in Ho.
    destruct Ha as [->|[->| ->]]; destruct x as [[] t]; discriminate.
Qed.

(** ** The first productive action of the day *)

Section StartFacts.
Import Scheduler Tracker Measure.

#[local] Arguments Db.config_get : simpl never.
#[local] Arguments workStartKey : simpl never.
#[local] Arguments checkIfProductive : simpl never.

Lemma checkIfProductive_ext d d' dom :
  Db.domain_classifications d' = Db.domain_classifications d ->
  checkIfProductive d' dom = checkIfProductive d dom.
Proof. intros H. unfold checkIfProductive. by rewrite H. Qed.

Lemma endPreviousSession_classifications w now :
  Db.domain_classifications (World.db (endPreviousSession w now))
  = Db.domain_classifications (World.db w).
Proof. unfold endPreviousSession. repeat case_match; done. Qed.

Lemma celebrate_spec dom w env :
  let c := Env.clock env in
  let d := Clock.today c in
  let r := celebrateFirstProductiveAction dom w env in
  checkIfProductive (World.db w) dom = true ->
  occurrences Notif.first_productive r.2 = armed d w Notif.first_productive
  ∧ armed d r.1 Notif.first_productive = 0%nat
  ∧ (armed d w Notif.first_productive = 1%nat ->
     Db.settings (World.db r.1) !! workStartKey d = Some (Js.VNum (Clock.now c))).
Proof.
  intros c d r Hp. subst r d c. unfold celebrateFirstProductiveAction.
  set (c := Env.clock env) in *. set (d := Clock.today c) in *.
  pose proof (reset_armed d w c Notif.first_productive eq_refl) as H1.
  pose proof (reset_date w c) as Hdate. fold d in Hdate. rewrite <- H1.
  assert (Hdb : World.db (World.reset w c) = World.db w) by reflexivity.
  rewrite Hdb, Hp. clear H1 Hdb. generalize dependent (World.reset w c).
  intros [db1 [date1 f1 f2 f3 la f4 f5] N1 act1]. simpl. intros ->.
  assert (Hbd : bool_decide (Some d = Some d) = true) by (by apply bool_decide_eq_true_2).
  unfold armed, occurrences. simpl. rewrite !Hbd.
  destruct f3; simpl; rewrite ?Hbd; simpl; repeat split; try done.
  intros _. apply lookup_insert_eq.
Qed.

Lemma checkReadyToStart_after_start d w env :
  Clock.today (Env.clock env) = d ->
  armed d w Notif.first_productive = 0%nat ->
  (checkReadyToStart w env).2 = [].
Proof.
  intros <- H0. unfold checkReadyToStart.
  pose proof (reset_armed _ w (Env.clock env) Notif.first_productive eq_refl) as H1.
  pose proof (reset_date w (Env.clock env)) as Hdate.
  rewrite <- H1 in H0. clear H1. generalize dependent (World.reset w (Env.clock env)).
  intros [db1 [date1 f1 f2 f3 la f4 f5] N1 act1]. simpl. intros Harmed ->.
  unfold armed in Harmed. simpl in Harmed.
  rewrite bool_decide_eq_true_2 in Harmed by done.
  destruct f3; [|discriminate]. by rewrite orb_true_r.
Qed.

Lemma step_after_start d w e :
  Worker.day_of e = d -> Worker.is_start e = false ->
  armed d w Notif.first_productive = 0%nat ->
  Worker.fired_count Notif.ready_nudge (Worker.step w e).2 = 0%nat
  ∧ armed d (Worker.step w e).1 Notif.first_productive = 0%nat.
Proof.
  intros Hd Hlife H0. split.
  - unfold Worker.fired_count.
    assert (Hnone : filter (fun x : Notif.t * Z => x.1 = Notif.ready_nudge)
                      (Worker.step w e).2 = []); [|by rewrite Hnone].
    apply filter_none. intros x Hx Hn.
    pose proof (step_origin w e x Hx) as [Ho _]. rewrite Hn in Ho. simpl in Ho.
    destruct e as [a env|tab env|env]; [|discriminate|discriminate].
    simpl in Ho. injection Ho as <-.
    unfold Worker.step in Hx. simpl Worker.onAlarm in Hx.
    pose proof (checkReadyToStart_after_start d w env Hd H0) as Hnil.
    destruct (checkReadyToStart w env) as [w' l]. simpl in *. subst l.
    by apply elem_of_nil in Hx.
  - pose proof (step_budget d w e Notif.first_productive Hd Hlife eq_refl). lia.
Qed.

Lemma run_after_start d es : ∀ w,
  Forall (fun e => Worker.day_of e = d) es -> Worker.lifetime es ->
  armed d w Notif.first_productive = 0%nat ->
  Worker.fired_count Notif.ready_nudge (Worker.run w es).2 = 0%nat.
Proof.
  induction es as [|e es IH]; intros w Hes Hlife H0; [done|].
  apply Forall_cons in Hes as [He Hes]. apply Forall_cons in Hlife as [Hl Hls].
  cbn [Worker.run].
  destruct (step_after_start d w e He Hl H0) as [H1 H2].
  destruct (Worker.step w e) as [w1 l1]. specialize (IH w1 Hes Hls H2).
  destruct (Worker.run w1 es) as [w2 l2]. cbn [fst snd] in *.
  rewrite fired_count_app. lia.
Qed.

End StartFacts.

(** X27.  A tab change to a tracked page on a productive domain (one of
    the built-in productive domains, or one cached as productive)
    celebrates the first productive action exactly when that has not been
    done yet that day, and then stores the clock reading under
    work_start_<day>.  Afterwards the day's celebration is spent: until
    the worker is started again, no alarm or tab change of that day
    creates the ready-to-start nudge or a second celebration.  (The flag
    is memory of the worker; the stored work_start_<day> is not read
    back, and after a start of the worker both can be created again: see
    [celebration_repeats_after_restart].) *)
Theorem productive_start_silences_nudge (tab : Tab.t) (w : World.t) (env : Env.t)
    (es : list Worker.event) :
  let c := Env.clock env in
  let today := Clock.today c in
  let domain := Tracker.extractDomain env (Tab.url tab) in
  let r := Tracker.handleTabChange tab w env in
  Tracker.shouldExclude (Tab.url tab) = false ->
  Tracker.checkIfProductive (World.db w) domain = true ->
  Forall (fun e => Worker.day_of e = today) es ->
  Worker.lifetime es ->
  Measure.occurrences Notif.first_productive r.2 = Measure.armed today w Notif.first_productive
  ∧ (Measure.armed today w Notif.first_productive = 1%nat ->
     Db.settings (World.db r.1) !! Tracker.workStartKey today = Some (Js.VNum (Clock.now c)))
  ∧ Worker.fired_count Notif.ready_nudge (Worker.run r.1 es).2 = 0%nat
  ∧ Worker.fired_count Notif.first_productive (Worker.run r.1 es).2 = 0%nat
  ∧ (domain ∈ Config.KNOWN_PRODUCTIVE -> ∀ d, Tracker.checkIfProductive d domain = true).
Proof.
  intros c today domain r Hex Hp Hes Hlife.
  set (st := TabState.mk (Tab.url tab) domain (Tab.title tab) (Clock.now c) today
                         "unclassified" (Clock.now c + Tracker.retention)).
  set (w' := World.with_activeTabState (Some st) (Tracker.endPreviousSession w (Clock.now c))).
  assert (Hr : r = Tracker.celebrateFirstProductiveAction domain w' env).
  { subst r. unfold Tracker.handleTabChange. by rewrite Hex. }
  destruct (endPreviousSession_ledger w (Clock.now c)) as [Hds Hset].
  assert (Harm : ∀ n, Measure.armed today w' n = Measure.armed today w n).
  { intros n. by apply armed_ext. }
  assert (Hp' : Tracker.checkIfProductive (World.db w') domain = true).
  { rewrite <- Hp. apply checkIfProductive_ext. apply endPreviousSession_classifications. }
  destruct (celebrate_spec domain w' env Hp') as (H1 & H2 & H3).
  fold c in H1, H2, H3. fold today in H1, H2, H3. rewrite <- Hr in H1, H2, H3.
  rewrite Harm in H1, H3.
  split; [exact H1|]. split; [exact H3|]. split; [by apply (run_after_start today)|].
  split.
  - pose proof (run_budget today Notif.first_productive es r.1 Hes Hlife eq_refl). lia.
  - intros Hk d. unfold Tracker.checkIfProductive. by rewrite bool_decide_eq_true_2.
Qed.

Lemma productive_start_witness :
  let env := Examples.quiet_env Examples.nine in
  let r := Tracker.handleTabChange Examples.github_tab (World.initial Db.empty) env in
  Measure.occurrences Notif.first_productive r.2 = 1%nat
  ∧ Worker.fired_count Notif.ready_nudge
      (Worker.run r.1 [Worker.Alarm Worker.ready_check
                         (Examples.quiet_env Examples.ten)]).2 = 0%nat.
Proof.
  intros env r.
  destruct (productive_start_silences_nudge Examples.github_tab
              (World.initial Db.empty) env
              [Worker.Alarm Worker.ready_check (Examples.quiet_env Examples.ten)])
    as (H1 & _ & H3 & _).
  - reflexivity.
  - vm_compute. reflexivity.
  - repeat constructor.
  - repeat constructor.
  - split; [exact H1|exact H3].
Defined.

(** The celebration of 09:00:10 is followed, after a start of the
    worker, by the ready-to-start nudge and a second celebration at
    10:00:10 of the same day. *)
Lemma celebration_repeats_after_restart :
  (Worker.run (World.initial Db.empty) Examples.productive_morning_restarted).2
  = [(Notif.first_productive, 1704099610000); (Notif.ready_nudge, 1704103210000);
     (Notif.first_productive, 1704103210000)]
  ∧ Forall (fun e => Worker.day_of e = "2024-01-01") Examples.productive_morning_restarted.
Proof. split; [vm_compute; reflexivity|repeat constructor]. Qed.

(** ** The remembered meeting warnings *)

Section RememberFacts.
Import Scheduler Measure.

Lemma keep_absent now evs id :
  (∀ e, e ∈ evs -> CalEvent.id e ≠ id) -> keep now evs id = true.
Proof.
  intros Habs. unfold keep.
  destruct (List.find _ evs) as [e|] eqn:Hfind; [|reflexivity].
  apply List.find_some in Hfind as [He Hid].
  apply list_elem_of_In in He. apply String.eqb_eq in Hid.
  by destruct (Habs e He).
Qed.

End RememberFacts.

(** X28.  The bookkeeping of one meeting check: no meeting id is warned
    twice in a check, and none that is remembered as warned; the
    remembered set gains only ids warned in this check, and keeps every
    remembered id that is not among the fetched events, however old.  A
    check that is switched off, gets no events because the calendar call
    failed with nothing cached, or gets an empty list creates no warning
    and leaves the remembered set as it is. *)
Theorem meeting_check_bookkeeping (w : World.t) (env : Env.t) :
  let r := Scheduler.checkMeetingAwareness w env in
  let N := World.notifiedMeetings w in
  let N' := World.notifiedMeetings r.1 in
  (∀ id, (Measure.occurrences (Notif.meeting id) r.2 <= 1)%nat)
  ∧ (∀ id, id ∈ N -> Measure.occurrences (Notif.meeting id) r.2 = 0%nat)
  ∧ (∀ id, id ∈ N' -> id ∈ N ∨ Measure.occurrences (Notif.meeting id) r.2 = 1%nat)
  ∧ (∀ id, id ∈ N ->
       (∀ evs e, Measure.seen w env = Some evs -> e ∈ evs -> CalEvent.id e ≠ id) ->
       id ∈ N')
  ∧ (Measure.meetings_enabled w = false ∨ Measure.seen w env = None
     ∨ Measure.seen w env = Some [] ->
     r.2 = [] ∧ N' = N).
Proof.
  intros r N N'.
  destruct (checkMeetingAwareness_cases w env) as [Hidle|(evs & Hen & Hseen & Hne)].
  - destruct (checkMeetingAwareness_idle w env Hidle) as [Hnil Hsame].
    fold r in Hnil. fold r N' N in Hsame. rewrite Hnil, Hsame.
    repeat split; try done.
    + intros id. unfold Measure.occurrences. simpl. lia.
    + intros id Hid. by left.
  - destruct (checkMeetingAwareness_run w env evs Hen Hseen Hne) as [Hf HN].
    fold r in Hf. fold r N' in HN. fold N in Hf, HN.
    set (lead := Scheduler.warningWindowMs (World.db w)) in *.
    set (now := Clock.now (Env.clock env)) in *.
    unfold Scheduler.warn_loop in Hf, HN.
    destruct (warn_fold lead now evs N []) as (Hmem & Hcount & _).
    assert (Hocc : ∀ id, Measure.occurrences (Notif.meeting id) r.2
                         = if bool_decide (id ∈ N) then 0%nat
                           else if Measure.due lead now evs id then 1%nat else 0%nat).
    { intros id. rewrite Hf, Hcount. unfold Measure.occurrences. simpl. lia. }
    repeat split.
    + intros id. rewrite Hocc. case_bool_decide; [lia|]. destruct (Measure.due _ _ _ _); lia.
    + intros id Hid. rewrite Hocc. by rewrite bool_decide_eq_true_2.
    + intros id Hid. rewrite HN in Hid. unfold Scheduler.prune in Hid.
      apply elem_of_filter in Hid as [_ Hid]. apply Hmem in Hid as [Hid|Hdue]; [by left|].
      destruct (decide (id ∈ N)) as [Hin|Hout]; [by left|].
      right. rewrite Hocc, bool_decide_eq_false_2 by done. by rewrite Hdue.
    + intros id Hid Habs. rewrite HN. unfold Scheduler.prune. apply elem_of_filter. split.
      * apply keep_absent. intros e He. by apply (Habs evs).
      * apply Hmem. by left.
    + destruct H as [H|[H|H]]; congruence.
    + destruct H as [H|[H|H]]; congruence.
Qed.

(** X29.  A batch run whose request succeeded re-aggregates the day
    after storing the answer: today's stored snapshot is the snapshot of
    the database the run leaves, so its productive and distraction totals
    count the day's sessions under the labels of the updated cache, an
    unclassified session under the record now cached for its domain.  A
    run that sends no request, because AI is not enabled or nothing is
    unresolved, leaves the database as it is. *)
Theorem batch_success_reaggregates (d : Db.t) (env : Env.t) (items : list ClassItem.t) :
  let c := Env.clock env in
  let today := Clock.today c in
  let ss := Db.sessions_by_date d today in
  let u := Classifier.uncached d ss in
  let d' := (Classifier.batchClassifyDomains d env).1 in
  let dc' := Db.domain_classifications d' in
  Classifier.isAIEnabled d = true ->
  u ≠ [] ->
  Env.ai_request env (take 20 u) = Res.Ok items ->
  (∃ s, Db.daily_stats d' !! today = Some s
        ∧ s = Aggregator.snapshot d' c
        ∧ Stats.productiveTime s = Tally.bucket dc' "productive" ss
        ∧ Stats.distractionTime s = Tally.bucket dc' "distraction" ss
        ∧ Stats.neutralTime s = Tally.bucket_rest dc' ss)
  ∧ (∀ x rec, Session.classification x = "unclassified" ->
       dc' !! Session.domain x = Some rec ->
       Aggregator.resolve dc' x = ClassRecord.classification rec)
  ∧ (∀ d0, Classifier.isAIEnabled d0 = false
           ∨ Classifier.uncached d0 (Db.sessions_by_date d0 today) = [] ->
           Classifier.batchClassifyDomains d0 env = (d0, [])).
Proof.
  intros c today ss u d' dc' Hen Hu Hreq.
  set (d1 := foldl (Classifier.put_ai (Clock.now c)) d items).
  assert (Hd' : d' = Aggregator.aggregateDailyStats d1 c).
  { subst d'. rewrite batchClassifyDomains_eq. fold c. fold today. fold ss. fold u.
    rewrite Hen. simpl. destruct u as [|y u0]; [done|]. by rewrite Hreq. }
  destruct (fold_put_ai_other (Clock.now c) items d) as [Hss _]. fold d1 in Hss.
  assert (Hc1 : Db.domain_classifications d' = Db.domain_classifications d1)
    by (by rewrite Hd').
  pose proof (aggregate_snapshot d1 c) as Hsnap. rewrite <- Hd' in Hsnap.
  assert (Hss1 : Db.sessions_by_date d1 today = ss).
  { subst ss. unfold Db.sessions_by_date. by rewrite Hss. }
  split; [|split].
  - exists (Aggregator.snapshot d1 c).
    destruct (fold_buckets_by_label (Db.domain_classifications d1)
                (Db.sessions_by_date d1 (Clock.today c)) Aggregator.acc0) as (Hp & Hdi & Hn).
    fold today in Hp, Hdi, Hn. rewrite Hss1 in Hp, Hdi, Hn.
    subst dc'. rewrite Hc1. rewrite Hsnap.
    split; [rewrite Hd'; apply aggregate_writes|]. split; [done|].
    unfold Aggregator.snapshot. cbn [Stats.productiveTime Stats.distractionTime Stats.neutralTime].
    fold today. rewrite Hss1. by rewrite Hp, Hdi, Hn.
  - intros x rec Hx Hrec. unfold Aggregator.resolve. rewrite Hx, Hrec. reflexivity.
  - intros d0 H0. rewrite batchClassifyDomains_eq. fold c. fold today.
    destruct H0 as [H0|H0]; [by rewrite H0|].
    rewrite H0. by destruct (negb _).
Qed.

Lemma batch_reaggregates_witness :
  let d := Examples.forty_five in
  let env := Examples.answering_env Examples.new_year in
  let d' := (Classifier.batchClassifyDomains d env).1 in
  ∃ s, Db.daily_stats d' !! "2024-01-01" = Some s
       ∧ s = Aggregator.snapshot d' Examples.new_year
       ∧ Stats.productiveTime s
         = Tally.bucket (Db.domain_classifications d') "productive"
             (Db.sessions_by_date d "2024-01-01")
       ∧ Stats.distractionTime s
         = Tally.bucket (Db.domain_classifications d') "distraction"
             (Db.sessions_by_date d "2024-01-01")
       ∧ Stats.neutralTime s
         = Tally.bucket_rest (Db.domain_classifications d') (Db.sessions_by_date d "2024-01-01").
Proof.
  intros d env d'.
  destruct (batch_success_reaggregates d env (map Examples.verdict (Examples.sites 20)))
    as (H1 & _).
  - vm_compute. reflexivity.
  - vm_compute. discriminate.
  - vm_compute. reflexivity.
  - exact H1.
Defined.

(** ** Retention *)

(** X30.  The retention of a record counts from the opening of its tab,
    not from the record's own start or end: every record that any number
    of heartbeats flush for a session opened at [t0] carries the url of
    the tab, is dated the opening day and expires at [t0] plus thirty
    days, however late it starts; the first heartbeat writes one when it
    comes more than five seconds after the opening.  A cleanup alarm
    before [t0] plus thirty days keeps all of them, and a cleanup alarm
    at or after that moment deletes all of them, however recently they
    were written. *)
Theorem retention_counts_from_opening (tab : Tab.t) (w : World.t) (env0 : Env.t)
    (envs : list Env.t) (env2 : Env.t) :
  Tracker.shouldExclude (Tab.url tab) = false ->
  let t0 := Clock.now (Env.clock env0) in
  let w0 := (Tracker.handleTabChange tab w env0).1 in
  let w1 := (Worker.run w0 (Track.heartbeats envs)).1 in
  let new := Track.appended w0 w1 in
  let w2 := (Worker.onAlarm Worker.cleanup w1 env2).1 in
  Track.sessions w1 = Track.sessions w0 ++ new
  ∧ (∀ s, s ∈ new ->
       Session.url s = Tab.url tab
       ∧ Session.date s = Clock.today (Env.clock env0)
       ∧ Session.expiresAt s = t0 + Tracker.retention
       ∧ t0 <= Session.startTime s)
  ∧ (∀ env1 rest, envs = env1 :: rest ->
       5000 < Clock.now (Env.clock env1) - t0 -> new ≠ [])
  ∧ (Clock.now (Env.clock env2) < t0 + Tracker.retention ->
     ∀ s, s ∈ new -> s ∈ Track.sessions w2)
  ∧ (t0 + Tracker.retention <= Clock.now (Env.clock env2) ->
     ∀ s, s ∈ new -> s ∉ Track.sessions w2).
Proof.
  intros Hex t0 w0 w1 new w2.
  set (st0 := TabState.mk (Tab.url tab) (Tracker.extractDomain env0 (Tab.url tab))
                (Tab.title tab) t0 (Clock.today (Env.clock env0)) "unclassified"
                (t0 + Tracker.retention)).
  assert (Hact : World.activeTabState w0 = Some st0).
  { subst w0. unfold Tracker.handleTabChange. rewrite Hex.
    by rewrite celebrate_activeTabState. }
  destruct (run_heartbeats_stamp envs w0 st0 Hact) as (fl & Hs & Hall & Hfirst).
  fold w1 in Hs.
  assert (Hnew : new = fl).
  { subst new. unfold Track.appended. rewrite Hs. apply drop_app_length. }
  assert (Hw2 : Track.sessions w2
                = filter (fun s => Clock.now (Env.clock env2) < Session.expiresAt s)
                    (Track.sessions w1)) by reflexivity.
  rewrite Forall_forall in Hall. rewrite <- Hnew in Hall, Hs, Hfirst.
  split; [exact Hs|]. split; [exact Hall|]. split; [exact Hfirst|]. split.
  - intros Hyoung s Hin. rewrite Hw2. apply list_elem_of_filter. split.
    + destruct (Hall s Hin) as (_ & _ & -> & _). exact Hyoung.
    + rewrite Hs. apply elem_of_app. by right.
  - intros Hold s Hin. rewrite Hw2. intros Hf. apply list_elem_of_filter in Hf as [Hf _].
    destruct (Hall s Hin) as (_ & _ & He & _). rewrite He in Hf. simpl in Hf. lia.
Qed.

Lemma retention_witness :
  let env0 := Examples.quiet_env Examples.new_year in
  let opened := (Tracker.handleTabChange Examples.docs_tab (World.initial Db.empty) env0).1 in
  let w1 := (Worker.run opened
               (Track.heartbeats [Examples.quiet_env Examples.day_29;
                                  Examples.quiet_env Examples.month_later])).1 in
  let w2 := (Worker.onAlarm Worker.cleanup w1 (Examples.quiet_env Examples.month_later)).1 in
  map (fun s => (Session.domain s, Session.startTime s, Session.endTime s,
                 Session.expiresAt s))
      (Track.appended opened w1)
  = [("developer.mozilla.org", 1704070900000, 1706576500000, 1706662900000);
     ("developer.mozilla.org", 1706576500000, 1706662900001, 1706662900000)]
  ∧ ∀ s, s ∈ Track.appended opened w1 -> s ∉ Track.sessions w2.
Proof.
  intros env0 opened w1 w2.
  destruct (retention_counts_from_opening Examples.docs_tab (World.initial Db.empty) env0
              [Examples.quiet_env Examples.day_29; Examples.quiet_env Examples.month_later]
              (Examples.quiet_env Examples.month_later))
    as (_ & _ & _ & _ & H4).
  - reflexivity.
  - split.
    + vm_compute. reflexivity.
    + apply H4. vm_compute. discriminate.
Defined.
